(** * gemini-business2api: the browser login flow of [core/gemini_automation_uc.py]

    A shallow embedding of the class [GeminiAutomationUC]: its methods become
    functions in a state-and-exception monad over an abstract browser world.
    The browser (selenium's WebDriver), the operating system and the mail
    client are interfaces whose answers the flow cannot control; they are type
    classes and records over a world type [W], and every theorem quantifies
    over them. *)

From Stdlib Require Import String Ascii List ZArith Lia Bool Arith DecimalString.
Import ListNotations.
Local Open Scope string_scope.

(** ** Python strings

    A [str] is modelled as a byte string holding its UTF-8 encoding.  UTF-8 is
    self-synchronising, so the substring test and [split] on a separator agree
    with Python's on code points; [chars] gives the code points themselves.
    [lower], [strip] and whitespace splitting treat the ASCII range only: on
    text with other whitespace or other capitals ([is_ascii] excludes both)
    they are not Python's. *)
Module PyStr.

Fixpoint drop (n : nat) (s : string) : string :=
  match n, s with
  | O, _ => s
  | S _, EmptyString => EmptyString
  | S k, String _ s' => drop k s'
  end.

(** [sub in s] *)
Fixpoint contains (sub s : string) : bool :=
  if prefix sub s then true
  else match s with
       | EmptyString => false
       | String _ s' => contains sub s'
       end.

(** [s.partition(sep)]: the text before and after the first occurrence of
    [sep], or [None] when there is none. *)
Fixpoint partition (sep s : string) : option (string * string) :=
  if prefix sep s then Some (EmptyString, drop (String.length sep) s)
  else match s with
       | EmptyString => None
       | String c s' =>
           match partition sep s' with
           | Some (a, b) => Some (String c a, b)
           | None => None
           end
       end.

Fixpoint split_fuel (n : nat) (sep s : string) : list string :=
  match n with
  | O => [s]
  | S k => match partition sep s with
           | None => [s]
           | Some (a, b) => a :: split_fuel k sep b
           end
  end.

(** [s.split(sep)] for a non-empty separator (every separator in the source
    is a non-empty literal). *)
Definition split (sep s : string) : list string := split_fuel (String.length s) sep s.

Definition is_space (c : ascii) : bool :=
  let n := nat_of_ascii c in
  (((9 <=? n) && (n <=? 13)) || ((28 <=? n) && (n <=? 32)))%nat.

Fixpoint split_ws_go (cur : string) (s : string) : list string :=
  match s with
  | EmptyString => if (cur =? "") then [] else [cur]
  | String c s' =>
      if is_space c
      then (if (cur =? "") then split_ws_go "" s' else cur :: split_ws_go "" s')
      else split_ws_go (cur ++ String c "") s'
  end.

(** [s.split()] *)
Definition split_ws (s : string) : list string := split_ws_go "" s.

(** [sep.join(parts)] *)
Fixpoint join (sep : string) (parts : list string) : string :=
  match parts with
  | [] => ""
  | [p] => p
  | p :: rest => p ++ sep ++ join sep rest
  end.

Fixpoint lstrip (s : string) : string :=
  match s with
  | String c s' => if is_space c then lstrip s' else s
  | EmptyString => EmptyString
  end.

Fixpoint rev_str (acc s : string) : string :=
  match s with
  | EmptyString => acc
  | String c s' => rev_str (String c acc) s'
  end.

(** [s.strip()] *)
Definition strip (s : string) : string :=
  rev_str "" (lstrip (rev_str "" (lstrip s))).

Definition lower_ascii (c : ascii) : ascii :=
  let n := nat_of_ascii c in
  if ((65 <=? n) && (n <=? 90))%nat then ascii_of_nat (n + 32) else c.

(** [s.lower()] *)
Fixpoint lower (s : string) : string :=
  match s with
  | EmptyString => EmptyString
  | String c s' => String (lower_ascii c) (lower s')
  end.

(** a byte [10xxxxxx], which continues the encoding of a character *)
Definition is_continuation (c : ascii) : bool :=
  let n := nat_of_ascii c in
  ((128 <=? n) && (n <? 192))%nat.

(** [list(s)]: the characters of [s], each as the bytes of its encoding (a
    lead byte and the continuation bytes after it) *)
Fixpoint chars (s : string) : list string :=
  match s with
  | EmptyString => []
  | String c s' =>
      match chars s' with
      | String d ch :: rest =>
          if is_continuation d then String c (String d ch) :: rest
          else String c "" :: String d ch :: rest
      | rest => String c "" :: rest
      end
  end.

(** [len(s)] *)
Definition len (s : string) : nat := List.length (chars s).

(** [s[:n]] *)
Definition take (n : nat) (s : string) : string :=
  String.concat "" (firstn n (chars s)).

(** every character of [s] is in the ASCII range *)
Fixpoint is_ascii (s : string) : bool :=
  match s with
  | EmptyString => true
  | String c s' => (nat_of_ascii c <? 128)%nat && is_ascii s'
  end.

(** [str(n)] for a natural number *)
Definition of_N (n : N) : string := NilEmpty.string_of_uint (N.to_uint n).

(** [str(n)] for a non-negative integer, zero-padded to [w] digits *)
Fixpoint pad (w : nat) (s : string) : string :=
  match w with
  | O => s
  | S k => if (String.length s <? w)%nat then pad k ("0" ++ s) else s
  end.

(** [str(z)] for an integer *)
Definition of_Z (z : Z) : string :=
  if (z <? 0)%Z
  then "-" ++ NilEmpty.string_of_uint (N.to_uint (Z.to_N (- z)))
  else NilEmpty.string_of_uint (N.to_uint (Z.to_N z)).

Definition of_Z_pad (w : nat) (z : Z) : string :=
  pad w (NilEmpty.string_of_uint (N.to_uint (Z.to_N z))).

End PyStr.

(** ** Dates

    [datetime] values are naive local times, counted in milliseconds from the
    local 1970-01-01 00:00:00.  Python's [datetime] stops at the year 9999
    ([fromtimestamp] raises beyond it) and its [%Y] pads a year to four digits
    from the year 1000 on only; the functions below are total and always pad,
    so they are Python's on the datetimes that [in_range] accepts. *)
Module PyDate.

(** days since 1970-01-01 to (year, month, day), proleptic Gregorian *)
Definition civil_from_days (days : Z) : Z * Z * Z :=
  let z := (days + 719468)%Z in
  let era := (z / 146097)%Z in
  let doe := (z - era * 146097)%Z in
  let yoe := ((doe - doe / 1460 + doe / 36524 - doe / 146096) / 365)%Z in
  let y := (yoe + era * 400)%Z in
  let doy := (doe - (365 * yoe + yoe / 4 - yoe / 100))%Z in
  let mp := ((5 * doy + 2) / 153)%Z in
  let d := (doy - (153 * mp + 2) / 5 + 1)%Z in
  let m := (if (mp <? 10)%Z then mp + 3 else mp - 9)%Z in
  ((if (m <=? 2)%Z then y + 1 else y)%Z, m, d).

(** [dt.strftime("%Y-%m-%d %H:%M:%S")] *)
Definition strftime (dt_ms : Z) : string :=
  let secs := (dt_ms / 1000)%Z in
  let days := (secs / 86400)%Z in
  let sod := (secs mod 86400)%Z in
  let '(y, m, d) := civil_from_days days in
  PyStr.of_Z_pad 4 y ++ "-" ++ PyStr.of_Z_pad 2 m ++ "-" ++ PyStr.of_Z_pad 2 d
  ++ " " ++ PyStr.of_Z_pad 2 (sod / 3600) ++ ":"
  ++ PyStr.of_Z_pad 2 ((sod mod 3600) / 60) ++ ":" ++ PyStr.of_Z_pad 2 (sod mod 60).

(** from 1000-01-01 00:00:00 to 9999-12-31 23:59:59 *)
Definition in_range (dt_ms : Z) : bool :=
  ((-30610224000000 <=? dt_ms) && (dt_ms <? 253402300800000))%Z.

(** [timedelta(hours=12)] in milliseconds *)
Definition hours12 : Z := 43200000.

End PyDate.


(** ** Values, exceptions and browser data *)

(** The Python values that occur in the dictionaries the flow returns and in
    the results of [execute_script]. *)
#[warnings="-register-all"]
Inductive pyval : Type :=
| PNone
| PBool (b : bool)
| PInt (z : Z)
| PStr (s : string)
| PDict (items : list (string * pyval)).

(** A [dict] literal, its items in insertion order. *)
Definition dict : Type := list (string * pyval).

(** Python's truth value of an object *)
Definition truthy (v : pyval) : bool :=
  match v with
  | PNone => false
  | PBool b => b
  | PInt z => negb (z =? 0)%Z
  | PStr s => negb (s =? "")
  | PDict items => match items with [] => false | _ => true end
  end.

(** Instances of Python's [Exception] and of the subclasses the source names.
    Everything selenium and the operating system raise is taken to be an
    [Exception]. *)
Inductive exn_class : Type :=
| TimeoutException
| NoSuchElementException
| TypeError
| IndexError
| OtherException.

Record exn : Type := mk_exn { exn_cls : exn_class; exn_msg : string }.

(** [str(e)] *)
Definition str_exn (e : exn) : string := exn_msg e.

(** [type(e).__name__] *)
Definition class_name (e : exn) : string :=
  match exn_cls e with
  | TimeoutException => "TimeoutException"
  | NoSuchElementException => "NoSuchElementException"
  | TypeError => "TypeError"
  | IndexError => "IndexError"
  | OtherException => "Exception"
  end.

Definition is_class (c : exn_class) (e : exn) : bool :=
  match c, exn_cls e with
  | TimeoutException, TimeoutException => true
  | NoSuchElementException, NoSuchElementException => true
  | TypeError, TypeError => true
  | IndexError, IndexError => true
  | OtherException, OtherException => true
  | _, _ => false
  end.

(** The exceptions that are not instances of [Exception]: no
    [except Exception] clause of the source catches them. *)
Inductive signal : Type :=
| KeyboardInterrupt
| SystemExit.

(** A [WebElement] handle. *)
Definition elem : Type := nat.

(** selenium's [By] locators used by the source *)
Inductive By : Type := XPATH | CSS_SELECTOR | ID | TAG_NAME.

(** selenium's expected conditions used by the source *)
Inductive condition : Type :=
| element_to_be_clickable (b : By) (sel : string)
| presence_of_element_located (b : By) (sel : string).

(** A cookie of [driver.get_cookies()]: [name] and [value] are always there,
    [expiry] is missing on a session cookie. *)
Record cookie : Type := mk_cookie {
  ck_name : string;
  ck_value : string;
  ck_expiry : option Z
}.

(** What the flow does to the outside world, in order. *)
Inductive event : Type :=
| EvGet (url : string)
| EvCurrentUrl
| EvFindElement (b : By) (sel : string)
| EvFindElements (b : By) (sel : string)
| EvExecuteScript (js : string) (el : elem)
| EvWaitUntil (timeout : nat) (c : condition)
| EvActiveElement
| EvGetCookies
| EvSaveScreenshot (path : string)
| EvRefresh
| EvQuit
| EvSetPageLoadTimeout (t : nat)
| EvImplicitlyWait (t : nat)
| EvClick (el : elem)
| EvClear (el : elem)
| EvSendKeys (el : elem) (keys : string)
| EvText (el : elem)
| EvGetAttribute (el : elem) (attr : string)
| EvIsDisplayed (el : elem)
| EvTagName (el : elem)
| EvPollForCode (timeout interval : nat) (since_time : Z)
| EvMkdtemp (prefix : string)
| EvSubprocessRun (argv : list string)
| EvChrome (options : list string) (browser_executable_path : option string)
| EvMakedirs (path : string)
| EvRmtree (path : string)
| EvRandomChoices (k : nat).

(** ** The outside world

    An operation of the browser, of the mail client or of the operating system
    takes the world to a new world, answers with a value or raises, and takes
    some time (milliseconds). *)
Definition reply (W A : Type) : Type := (exn + A) * W * N.

(** selenium's WebDriver and WebElement, undetected-chromedriver, and the
    parts of [os], [shutil], [tempfile], [subprocess], [random] and the time
    zone database that the class uses. *)
Class Platform (W : Type) : Type := {
  drv_get : string -> W -> reply W unit;
  drv_current_url : W -> reply W string;
  drv_find_element : By -> string -> W -> reply W elem;
  drv_find_elements : By -> string -> W -> reply W (list elem);
  drv_execute_script : string -> elem -> W -> reply W pyval;
  drv_wait_until : nat -> condition -> W -> reply W elem;
  drv_active_element : W -> reply W elem;
  drv_get_cookies : W -> reply W (list cookie);
  drv_save_screenshot : string -> W -> reply W bool;
  drv_refresh : W -> reply W unit;
  drv_quit : W -> reply W unit;
  drv_set_page_load_timeout : nat -> W -> reply W unit;
  drv_implicitly_wait : nat -> W -> reply W unit;
  el_click : elem -> W -> reply W unit;
  el_clear : elem -> W -> reply W unit;
  el_send_keys : elem -> string -> W -> reply W unit;
  el_text : elem -> W -> reply W string;
  el_get_attribute : elem -> string -> W -> reply W (option string);
  el_is_displayed : elem -> W -> reply W bool;
  el_tag_name : elem -> W -> reply W string;
  uc_Chrome : list string -> option string -> W -> reply W unit;
  tempfile_mkdtemp : string -> W -> reply W string;
  subprocess_run : list string -> W -> reply W (Z * string * string);
  os_makedirs : string -> W -> reply W unit;
  shutil_rmtree : string -> W -> reply W unit;
  random_choices : nat -> W -> reply W string;
  os_getenv : string -> W -> option string;
  shutil_which : string -> W -> option string;
  os_path_exists : string -> W -> bool;
  os_access_x : string -> W -> bool;
  utcoffset : Z -> Z
}.

(** What code handed in by the caller answers: a value, an instance of
    [Exception], or an exception outside [Exception]. *)
Inductive answer (A : Type) : Type :=
| Answer (a : A)
| Error (e : exn)
| Signal (b : signal).
Arguments Answer {A} a.
Arguments Error {A} e.
Arguments Signal {A} b.

(** The [mail_client] argument: any object with a [poll_for_code] method. *)
Record MailClient (W : Type) : Type := {
  poll_for_code : nat -> nat -> Z -> W -> answer (option string) * W * N
}.
Arguments poll_for_code {W} _ _ _ _ _.

(** The fields of [self]. *)
Record GeminiAutomationUC : Type := mk_self {
  user_agent : string;
  proxy : string;
  headless : bool;
  timeout : nat;
  log_callback : bool;
  driver : bool;
  user_data_dir : option string
}.

(** ** The monad: state, exceptions, and fuel for the two clock-bound loops *)

(** How a piece of code ends: it returns, it raises an instance of
    [Exception], the model runs out of fuel, or an exception outside
    [Exception] passes through it. *)
Inductive outcome (A : Type) : Type :=
| Ret (a : A)
| Raise (e : exn)
| OutOfFuel
| Interrupt (b : signal).
Arguments Ret {A} a.
Arguments Raise {A} e.
Arguments OutOfFuel {A}.
Arguments Interrupt {A} b.

Section Monad.
Context {W : Type}.

(** The state of a run: the world, the system clock in milliseconds, the
    object, what [_log] handed to the log callback, and the operations
    performed so far. *)
Record st : Type := mk_st {
  world : W;
  clock : N;
  self : GeminiAutomationUC;
  logs : list (string * string);
  trace : list event
}.

Definition M (A : Type) : Type := st -> outcome A * st.

Definition ret {A} (a : A) : M A := fun s => (Ret a, s).

Definition raise {A} (e : exn) : M A := fun s => (Raise e, s).

Definition bind {A B} (m : M A) (k : A -> M B) : M B := fun s =>
  match m s with
  | (Ret a, s') => k a s'
  | (Raise e, s') => (Raise e, s')
  | (OutOfFuel, s') => (OutOfFuel, s')
  | (Interrupt b, s') => (Interrupt b, s')
  end.

(** [try: m except Exception as e: h e]; what is not an [Exception] is not
    caught *)
Definition try_except {A} (m : M A) (h : exn -> M A) : M A := fun s =>
  match m s with
  | (Raise e, s') => h e s'
  | r => r
  end.

(** [try: m except cls: h] for one exception class; others propagate *)
Definition try_except_class {A} (c : exn_class) (m : M A) (h : M A) : M A :=
  try_except m (fun e => if is_class c e then h else raise e).

(** [try: m finally: f] *)
Definition try_finally {A} (m : M A) (f : M unit) : M A := fun s =>
  match m s with
  | (OutOfFuel, s') => (OutOfFuel, s')
  | (r, s') =>
      match f s' with
      | (Ret _, s'') => (r, s'')
      | (Raise e, s'') => (Raise e, s'')
      | (OutOfFuel, s'') => (OutOfFuel, s'')
      | (Interrupt b, s'') => (Interrupt b, s'')
      end
  end.

(** One operation of the outside world. *)
Definition call {A} (ev : event) (op : W -> reply W A) : M A := fun s =>
  let r := op (world s) in
  let s' := mk_st (snd (fst r)) (clock s + snd r)%N (self s) (logs s) (trace s ++ [ev]) in
  match fst (fst r) with
  | inl e => (Raise e, s')
  | inr a => (Ret a, s')
  end.

(** One call of a method of an object handed in by the caller. *)
Definition call_out {A} (ev : event) (op : W -> answer A * W * N) : M A := fun s =>
  let r := op (world s) in
  let s' := mk_st (snd (fst r)) (clock s + snd r)%N (self s) (logs s) (trace s ++ [ev]) in
  match fst (fst r) with
  | Answer a => (Ret a, s')
  | Error e => (Raise e, s')
  | Signal b => (Interrupt b, s')
  end.

(** A look at the world that cannot fail and changes nothing. *)
Definition observe {A} (f : W -> A) : M A := fun s => (Ret (f (world s)), s).

(** [time.sleep(ms / 1000)] *)
Definition sleep (ms : N) : M unit := fun s =>
  (Ret tt, mk_st (world s) (clock s + ms)%N (self s) (logs s) (trace s)).

(** [time.time()], in milliseconds *)
Definition time_time : M N := fun s => (Ret (clock s), s).

Definition get_self : M GeminiAutomationUC := fun s => (Ret (self s), s).

Definition set_self (o : GeminiAutomationUC) : M unit := fun s =>
  (Ret tt, mk_st (world s) (clock s) o (logs s) (trace s)).

(** [self._log(level, message)]: the callback, when there is one, receives the
    message; the [Exception] it may raise is swallowed (line 717).  The
    callback is taken to raise nothing outside [Exception]. *)
Definition _log (level message : string) : M unit := fun s =>
  (Ret tt,
   if log_callback (self s)
   then mk_st (world s) (clock s) (self s) (logs s ++ [(level, message)]) (trace s)
   else s).

(** [l[i]] *)
Definition py_index {A} (l : list A) (i : nat) : M A :=
  match nth_error l i with
  | Some a => ret a
  | None => raise (mk_exn IndexError "list index out of range")
  end.

End Monad.
Arguments st W : clear implicits.
Arguments M W A : clear implicits.

Declare Scope flow_scope.
Delimit Scope flow_scope with flow.
Notation "x <- m ;; k" := (bind m (fun x => k))
  (at level 100, m at next level, right associativity) : flow_scope.
Notation "m ;; k" := (bind m (fun _ => k))
  (at level 100, right associativity) : flow_scope.
Local Open Scope flow_scope.

(** ** The class [GeminiAutomationUC] *)

Definition AUTH_HOME_URL : string := "https://auth.business.gemini.google/".
Definition LOGIN_URL : string :=
  "https://auth.business.gemini.google/login?continueUrl=https:%2F%2Fbusiness.gemini.google%2F&wiffid=CAoSJDIwNTlhYzBjLTVlMmMtNGUxZS1hY2JkLThmOGY2ZDE0ODM1Mg".
Definition DEFAULT_XSRF_TOKEN : string := "KdLRzKwwBTD5wo8nUollAbY6cW0".
Definition BUSINESS_URL : string := "https://business.gemini.google/".

Definition EMAIL_INPUT_XPATH : string :=
  "/html/body/c-wiz/div/div/div[1]/div/div/div/form/div[1]/div[1]/div/span[2]/input".
Definition CONTINUE_BUTTON_XPATH : string :=
  "/html/body/c-wiz/div/div/div[1]/div/div/div/form/div[2]/div/button".
Definition VERIFY_BUTTON_XPATH : string :=
  "/html/body/c-wiz/div/div/div[1]/div/div/div/form/div[2]/div/div[1]/span/div[1]/button".
Definition CAPTCHA_SELECTOR : string :=
  "iframe[src*='recaptcha'], iframe[title*='reCAPTCHA'], div.g-recaptcha".
Definition JS_CLICK : string := "arguments[0].click();".
Definition JS_SCROLL : string := "arguments[0].scrollIntoView({block:'center'});".
Definition JS_INNER_TEXT : string := "return arguments[0].innerText || '';".

(** [Keys.ENTER], U+E007 *)
Definition Keys_ENTER : string :=
  String (ascii_of_nat 238) (String (ascii_of_nat 128) (String (ascii_of_nat 135) "")).

(** The selectors of a code-entry field (the same list in
    [_click_send_code_button] and in [_wait_for_code_input]). *)
Definition code_input_selectors : list string :=
  [ "input[name='pinInput']";
    "input[autocomplete='one-time-code']";
    "input[inputmode='numeric']";
    "input[type='tel']";
    "input[type='number']" ].

Definition username_selectors : list string :=
  [ "input[formcontrolname='fullName']";
    "input[placeholder='全名']";
    "input[placeholder='Full name']";
    "input#mat-input-0";
    "input[type='text']";
    "input[name='displayName']" ].

Definition send_code_keywords : list string :=
  [ "通过电子邮件发送验证码";
    "通过电子邮件发送";
    "发送验证码";
    "发送验证";
    "发送代码";
    "获取验证码";
    "获取代码";
    "email";
    "send code";
    "send verification";
    "verification code";
    "one-time";
    "otp" ].

Definition VERIFY_TEXT : string := "验证".

(** the warning of line 430 *)
Definition CAPTCHA_WARNING : string :=
  "captcha detected on login page; cannot click send-code button".

Definition fixed_candidates : list string :=
  [ "/opt/google/chrome/google-chrome";
    "/usr/bin/google-chrome-stable";
    "/usr/bin/google-chrome";
    "/usr/bin/chromium";
    "/usr/bin/chromium-browser" ].

(** The two shapes of a result. *)
Definition failure (error : string) : dict :=
  [("success", PBool false); ("error", PStr error)].

Definition success (config : dict) : dict :=
  [("success", PBool true); ("config", PDict config)].

(** [a or b] on optional strings *)
Definition py_or (a b : option string) : option string :=
  match a with
  | Some x => if (x =? "") then b else a
  | None => b
  end.

(** [repr(x)] of an optional string, without escapes *)
Definition repr_opt (o : option string) : string :=
  match o with
  | None => "None"
  | Some x => "'" ++ x ++ "'"
  end.

Definition str_bool (b : bool) : string := if b then "True" else "False".

Definition opt_pyval (o : option string) : pyval :=
  match o with
  | None => PNone
  | Some x => PStr x
  end.

(** [" ".join((text or "").split()).strip()], on text whose whitespace is in
    the ASCII range *)
Definition _normalize (text : string) : string :=
  PyStr.strip (PyStr.join " " (PyStr.split_ws text)).

(** [" ".join(parts)]: a [TypeError] when a part is not a string *)
Fixpoint strs_of (parts : list pyval) : option (list string) :=
  match parts with
  | [] => Some []
  | PStr x :: rest =>
      match strs_of rest with
      | Some xs => Some (x :: xs)
      | None => None
      end
  | _ :: _ => None
  end.

Section Flow.
Context {W : Type} {P : Platform W}.

Local Abbreviation M := (M W).

(** *** The operations of [self.driver] and of the elements *)

Definition get (url : string) : M unit := call (EvGet url) (drv_get url).
Definition current_url : M string := call EvCurrentUrl drv_current_url.
Definition find_element (b : By) (sel : string) : M elem :=
  call (EvFindElement b sel) (drv_find_element b sel).
Definition find_elements (b : By) (sel : string) : M (list elem) :=
  call (EvFindElements b sel) (drv_find_elements b sel).
Definition execute_script (js : string) (el : elem) : M pyval :=
  call (EvExecuteScript js el) (drv_execute_script js el).
(** [WebDriverWait(self.driver, t).until(c)] *)
Definition wait_until (t : nat) (c : condition) : M elem :=
  call (EvWaitUntil t c) (drv_wait_until t c).
Definition active_element : M elem := call EvActiveElement drv_active_element.
Definition get_cookies : M (list cookie) := call EvGetCookies drv_get_cookies.
Definition save_screenshot (path : string) : M bool :=
  call (EvSaveScreenshot path) (drv_save_screenshot path).
Definition refresh : M unit := call EvRefresh drv_refresh.
Definition quit : M unit := call EvQuit drv_quit.
Definition click (el : elem) : M unit := call (EvClick el) (el_click el).
Definition clear (el : elem) : M unit := call (EvClear el) (el_clear el).
Definition send_keys (el : elem) (keys : string) : M unit :=
  call (EvSendKeys el keys) (el_send_keys el keys).
Definition text (el : elem) : M string := call (EvText el) (el_text el).
Definition get_attribute (el : elem) (attr : string) : M (option string) :=
  call (EvGetAttribute el attr) (el_get_attribute el attr).
Definition is_displayed (el : elem) : M bool :=
  call (EvIsDisplayed el) (el_is_displayed el).
Definition tag_name (el : elem) : M string := call (EvTagName el) (el_tag_name el).

(** [datetime.fromtimestamp(ts)], [ts] in seconds; Python raises when the
    local time falls outside [PyDate.in_range] upwards *)
Definition fromtimestamp (ts : Z) : Z := (1000 * (ts + utcoffset ts))%Z.

(** the local time when the system clock shows [c] *)
Definition local_time (c : N) : Z :=
  (Z.of_N c + 1000 * utcoffset (Z.of_N c / 1000))%Z.

(** [datetime.now()] *)
Definition datetime_now : M Z := fun s => (Ret (local_time (clock s)), s).

Fixpoint type_keys (el : elem) (keys : list string) (delay : N) : M unit :=
  match keys with
  | [] => ret tt
  | char :: rest =>
      send_keys el char;;
      sleep delay;;
      type_keys el rest delay
  end.

(** [for char in text: el.send_keys(char); time.sleep(delay)]: one key per
    character of the text *)
Definition type_chars (el : elem) (txt : string) (delay : N) : M unit :=
  type_keys el (PyStr.chars txt) delay.

(** *** [_save_screenshot] (lines 683-693) *)
Definition _save_screenshot (name : string) : M unit :=
  try_except
    (let screenshot_dir := "data/automation" in
     call (EvMakedirs screenshot_dir) (os_makedirs screenshot_dir);;
     now <- time_time;;
     let path := screenshot_dir ++ "/" ++ name ++ "_" ++ PyStr.of_N (now / 1000) ++ ".png" in
     save_screenshot path;;
     _log "info" ("screenshot saved: " ++ path))
    (fun _ => ret tt).

(** *** [_cleanup] (lines 695-710) *)
Definition _cleanup : M unit :=
  o <- get_self;;
  (if driver o then try_except quit (fun _ => ret tt) else ret tt);;
  match user_data_dir o with
  | Some d =>
      if (d =? "") then ret tt
      else try_except
             (there <- observe (os_path_exists d);;
              if there then call (EvRmtree d) (shutil_rmtree d) else ret tt)
             (fun _ => ret tt)
  | None => ret tt
  end.

(** *** [_create_driver] (lines 58-196) *)
Definition build_options (o : GeminiAutomationUC) (dir : string) : list string :=
  [ "--user-data-dir=" ++ dir; "--incognito"; "--no-sandbox";
    "--disable-setuid-sandbox"; "--window-size=1280,800" ]
  ++ (if (proxy o =? "") then [] else ["--proxy-server=" ++ proxy o])
  ++ (if headless o
      then ["--headless=new"; "--disable-gpu"; "--disable-dev-shm-usage"]
      else [])
  ++ (if (user_agent o =? "") then [] else ["--user-agent=" ++ user_agent o]).

Definition chrome_candidates (w : W) : list (option string) :=
  let env_chrome_bin := py_or (os_getenv "CHROME_BIN" w) (os_getenv "GOOGLE_CHROME_BIN" w) in
  (match env_chrome_bin with Some x => [Some x] | None => [] end)
  ++ map Some fixed_candidates
  ++ [ shutil_which "google-chrome-stable" w; shutil_which "google-chrome" w;
       shutil_which "chromium" w; shutil_which "chromium-browser" w ].

Definition usable_candidate (w : W) (c : option string) : bool :=
  match c with
  | Some x => negb (x =? "") && os_path_exists x w && os_access_x x w
  | None => false
  end.

Definition find_chrome_bin (w : W) : option string :=
  match find (usable_candidate w) (chrome_candidates w) with
  | Some c => c
  | None => None
  end.

Fixpoint log_probes (paths : list string) : M unit :=
  match paths with
  | [] => ret tt
  | p :: rest =>
      ex <- observe (os_path_exists p);;
      xo <- observe (os_access_x p);;
      _log "warning" ("chrome probe: " ++ p ++ " exists=" ++ str_bool ex ++ " x_ok=" ++ str_bool xo);;
      log_probes rest
  end.

Definition log_chrome_discovery (chrome_bin : option string) : M unit :=
  match chrome_bin with
  | Some bin =>
      _log "info" ("using chrome binary: " ++ bin);;
      try_except
        (r <- call (EvSubprocessRun [bin; "--version"]) (subprocess_run [bin; "--version"]);;
         let '(returncode, stdout, stderr) := r in
         if (returncode =? 0)%Z
         then _log "info" ("chrome version: "
                           ++ PyStr.strip (if (stdout =? "") then stderr else stdout))
         else _log "warning" ("chrome --version failed: rc=" ++ PyStr.of_Z returncode
                              ++ " err=" ++ PyStr.strip stderr))
        (fun exc => _log "warning" ("chrome --version check error: "
                                    ++ class_name exc ++ ": " ++ str_exn exc))
  | None =>
      _log "warning" "chrome binary not found; relying on auto-detection";;
      e1 <- observe (os_getenv "CHROME_BIN");;
      e2 <- observe (os_getenv "GOOGLE_CHROME_BIN");;
      _log "warning" ("env CHROME_BIN=" ++ repr_opt e1 ++ " GOOGLE_CHROME_BIN=" ++ repr_opt e2);;
      w1 <- observe (shutil_which "google-chrome-stable");;
      w2 <- observe (shutil_which "google-chrome");;
      w3 <- observe (shutil_which "chromium");;
      w4 <- observe (shutil_which "chromium-browser");;
      _log "warning"
        ("which google-chrome-stable/google-chrome/chromium/chromium-browser="
         ++ repr_opt w1 ++ "/" ++ repr_opt w2 ++ "/" ++ repr_opt w3 ++ "/" ++ repr_opt w4);;
      log_probes fixed_candidates
  end.

Definition set_driver : M unit :=
  o <- get_self;;
  set_self (mk_self (user_agent o) (proxy o) (headless o) (timeout o)
              (log_callback o) true (user_data_dir o)).

Definition set_user_data_dir (d : string) : M unit :=
  o <- get_self;;
  set_self (mk_self (user_agent o) (proxy o) (headless o) (timeout o)
              (log_callback o) (driver o) (Some d)).

Definition _create_driver : M unit :=
  dir <- call (EvMkdtemp "uc-profile-") (tempfile_mkdtemp "uc-profile-");;
  set_user_data_dir dir;;
  o <- get_self;;
  let options := build_options o dir in
  chrome_bin <- observe find_chrome_bin;;
  log_chrome_discovery chrome_bin;;
  try_except
    (call (EvChrome options chrome_bin) (uc_Chrome options chrome_bin);;
     set_driver)
    (fun exc =>
       if is_class TypeError exc
       then
         _log "warning" ("uc.Chrome TypeError, retry without extra args: " ++ str_exn exc);;
         let options := build_options o dir in
         call (EvChrome options None) (uc_Chrome options None);;
         set_driver
       else raise exc);;
  call (EvSetPageLoadTimeout (timeout o)) (drv_set_page_load_timeout (timeout o));;
  call (EvImplicitlyWait 10) (drv_implicitly_wait 10).

(** *** [_extract_config] (lines 644-681) *)
Definition cookie_named (name : string) (c : cookie) : bool := (ck_name c =? name).

Definition _extract_config (email : string) : M dict :=
  try_except
    (u <- current_url;;
     (if negb (PyStr.contains "cid/" u)
      then get BUSINESS_URL;; sleep 3000
      else ret tt);;
     url <- current_url;;
     if negb (PyStr.contains "cid/" url)
     then ret (failure "cid not found")
     else
       after_cid <- py_index (PyStr.split "cid/" url) 1;;
       before_query <- py_index (PyStr.split "?" after_cid) 0;;
       config_id <- py_index (PyStr.split "/" before_query) 0;;
       csesidx <- (if PyStr.contains "csesidx=" url
                   then after_idx <- py_index (PyStr.split "csesidx=" url) 1;;
                        py_index (PyStr.split "&" after_idx) 0
                   else ret "");;
       cookies <- get_cookies;;
       let ses := option_map ck_value (find (cookie_named "__Secure-C_SES") cookies) in
       let host := option_map ck_value (find (cookie_named "__Host-C_OSES") cookies) in
       let ses_obj := find (cookie_named "__Secure-C_SES") cookies in
       expires_at <-
         match ses_obj with
         | Some c =>
             match ck_expiry c with
             | Some expiry => ret (PyDate.strftime (fromtimestamp (expiry - 43200)))
             | None => now <- datetime_now;; ret (PyDate.strftime (now + PyDate.hours12))
             end
         | None => now <- datetime_now;; ret (PyDate.strftime (now + PyDate.hours12))
         end;;
       let config :=
         [ ("id", PStr email);
           ("csesidx", PStr csesidx);
           ("config_id", PStr config_id);
           ("secure_c_ses", opt_pyval ses);
           ("host_c_oses", opt_pyval host);
           ("expires_at", PStr expires_at) ] in
       ret (success config))
    (fun e => ret (failure (str_exn e))).

(** *** [_wait_for_cid] (lines 574-580) *)
Fixpoint _wait_for_cid (timeout : nat) : M bool :=
  match timeout with
  | O => ret false
  | S k =>
      url <- current_url;;
      if PyStr.contains "cid" url then ret true
      else sleep 1000;; _wait_for_cid k
  end.

(** *** [_wait_for_business_params] (lines 582-590) *)
Fixpoint _wait_for_business_params (timeout : nat) : M bool :=
  match timeout with
  | O => ret false
  | S k =>
      url <- current_url;;
      if PyStr.contains "csesidx=" url && PyStr.contains "/cid/" url
      then _log "info" ("business params ready: " ++ url);; ret true
      else sleep 1000;; _wait_for_business_params k
  end.

(** *** [_handle_agreement_page] (lines 562-572) *)
Definition _handle_agreement_page : M unit :=
  url <- current_url;;
  if PyStr.contains "/admin/create" url
  then try_except_class TimeoutException
         (agree_btn <- wait_until 5 (element_to_be_clickable CSS_SELECTOR "button.agree-button");;
          click agree_btn;;
          sleep 2000)
         (ret tt)
  else ret tt.

(** *** [_handle_username_setup] (lines 592-642) *)

(** The inner [for selector in selectors] loop: [cur] is [username_input]. *)
Fixpoint scan_username_selectors (sels : list string) (cur : option elem) : M (option elem) :=
  match sels with
  | [] => ret cur
  | selector :: rest =>
      found <- try_except (el <- find_element CSS_SELECTOR selector;; ret (Some el))
                          (fun _ => ret None);;
      match found with
      | None => scan_username_selectors rest cur
      | Some el =>
          shown <- try_except (is_displayed el) (fun _ => ret false);;
          if shown then ret (Some el)
          else scan_username_selectors rest (Some el)
      end
  end.

(** The outer [for _ in range(30)] loop. *)
Fixpoint probe_username_input (n : nat) (cur : option elem) : M (option elem) :=
  match n with
  | O => ret cur
  | S k =>
      cur' <- scan_username_selectors username_selectors cur;;
      shown <- match cur' with
               | Some el => is_displayed el
               | None => ret false
               end;;
      if shown then ret cur'
      else sleep 1000;; probe_username_input k cur'
  end.

Definition _handle_username_setup : M bool :=
  url <- current_url;;
  if PyStr.contains "auth.business.gemini.google/login" url then ret false
  else
    username_input <- probe_username_input 30 None;;
    match username_input with
    | None => ret false
    | Some el =>
        shown <- is_displayed el;;
        if negb shown then ret false
        else
          suffix <- call (EvRandomChoices 3) (random_choices 3);;
          let username := "Test" ++ suffix in
          try_except
            (click el;;
             sleep 200;;
             clear el;;
             type_chars el username 20;;
             sleep 300;;
             send_keys el Keys_ENTER;;
             sleep 1000;;
             ret true)
            (fun _ => ret false)
    end.

(** *** [_click_send_code_button] (lines 339-509) *)

(** [_element_text] (lines 344-367) *)
Definition _element_text (el : elem) : M string :=
  p_text <- try_except (t <- text el;;
                        if (t =? "") then ret []
                        else t' <- text el;; ret [PStr t'])
                       (fun _ => ret []);;
  let attr_part (attr : string) : M (list pyval) :=
    try_except (v <- get_attribute el attr;;
                ret (match v with
                     | Some x => if (x =? "") then [] else [PStr x]
                     | None => []
                     end))
               (fun _ => ret []) in
  p_aria <- attr_part "aria-label";;
  p_title <- attr_part "title";;
  p_value <- attr_part "value";;
  p_inner <- try_except (inner <- execute_script JS_INNER_TEXT el;;
                         ret (if truthy inner then [inner] else []))
                        (fun _ => ret []);;
  match strs_of (p_text ++ p_aria ++ p_title ++ p_value ++ p_inner)%list with
  | Some parts => ret (_normalize (PyStr.join " " parts))
  | None => raise (mk_exn TypeError "sequence item: expected str instance")
  end.

(** the closure [_find_code_input] (lines 369-386) *)
Fixpoint find_first_selector (sels : list string) : M (option elem) :=
  match sels with
  | [] => ret None
  | sel :: rest =>
      found <- try_except (el <- find_element CSS_SELECTOR sel;; ret (Some el))
                          (fun _ => ret None);;
      match found with
      | Some el => ret (Some el)
      | None => find_first_selector rest
      end
  end.

Definition send_code_find_code_input : M (option elem) :=
  find_first_selector code_input_selectors.

(** the closure [_has_captcha] (lines 388-397) *)
Definition _has_captcha : M bool :=
  try_except (found <- find_elements CSS_SELECTOR CAPTCHA_SELECTOR;;
              ret (match found with [] => false | _ => true end))
             (fun _ => ret false).

Definition keywords_lower : list string := map PyStr.lower send_code_keywords.

(** [candidates] / [pool]: buttons, then elements with the button role *)
Definition button_like_elements : M (list elem) :=
  buttons <- try_except (find_elements TAG_NAME "button") (fun _ => ret []);;
  roles <- try_except (find_elements CSS_SELECTOR "[role='button']") (fun _ => ret []);;
  ret (buttons ++ roles)%list.

(** [for el in candidates] (lines 460-475): [true] when one was clicked *)
Fixpoint click_first_candidate (candidates : list elem) : M bool :=
  match candidates with
  | [] => ret false
  | el :: rest =>
      clicked <-
        try_except
          (txt <- _element_text el;;
           if (txt =? "") then ret false
           else
             let t := PyStr.lower txt in
             if existsb (fun k => PyStr.contains k t) keywords_lower
             then
               try_except (execute_script JS_SCROLL el;; ret tt) (fun _ => ret tt);;
               execute_script JS_CLICK el;;
               sleep 1000;;
               ret true
             else ret false)
          (fun _ => ret false);;
      if clicked then ret true else click_first_candidate rest
  end.

(** One pass of the [while] body (lines 429-477): [Some r] is [return r]. *)
Definition send_code_attempt : M (option bool) :=
  captcha <- _has_captcha;;
  if captcha
  then _log "warning" CAPTCHA_WARNING;;
       ret (Some false)
  else
    code_input <- send_code_find_code_input;;
    match code_input with
    | Some _ => ret (Some true)
    | None =>
        direct <- try_except
                    (direct_btn <- wait_until 2 (element_to_be_clickable ID "sign-in-with-email");;
                     execute_script JS_CLICK direct_btn;;
                     sleep 1000;;
                     ret true)
                    (fun _ => ret false);;
        if direct then ret (Some true)
        else
          candidates <- button_like_elements;;
          clicked <- click_first_candidate candidates;;
          if clicked then ret (Some true)
          else sleep 500;; ret None
    end.

(** [while time.time() - start < timeout_s] *)
Fixpoint send_code_loop (fuel : nat) (start timeout_ms : N) : M (option bool) :=
  now <- time_time;;
  if (now - start <? timeout_ms)%N
  then match fuel with
       | O => fun s => (OutOfFuel, s)
       | S k =>
           r <- send_code_attempt;;
           match r with
           | Some b => ret (Some b)
           | None => send_code_loop k start timeout_ms
           end
       end
  else ret None.

(** [for el in pool[:30]] (lines 492-503) *)
Fixpoint sample_buttons (pool : list elem) : M (list string) :=
  match pool with
  | [] => ret []
  | el :: rest =>
      sample <-
        try_except
          (txt <- _element_text el;;
           if (txt =? "") then ret None
           else
             tag <- try_except (tag_name el) (fun _ => ret "");;
             ret (Some (tag ++ ":" ++ PyStr.take 80 txt)))
          (fun _ => ret None);;
      samples <- sample_buttons rest;;
      ret (match sample with Some x => x :: samples | None => samples end)
  end.

(** lines 479-507 *)
Definition log_candidate_buttons : M unit :=
  try_except
    (pool <- button_like_elements;;
     samples <- sample_buttons (firstn 30 pool);;
     match samples with
     | [] => ret tt
     | _ => _log "info" ("candidate buttons: " ++ PyStr.join " | " samples)
     end)
    (fun _ => ret tt).

Definition _click_send_code_button (fuel : nat) : M bool :=
  sleep 1000;;
  code_input <- send_code_find_code_input;;
  match code_input with
  | Some _ => ret true
  | None =>
      start <- time_time;;
      let timeout_s := 25%N in
      r <- send_code_loop fuel start (timeout_s * 1000)%N;;
      match r with
      | Some b => ret b
      | None => log_candidate_buttons;; ret false
      end
  end.

(** *** [_wait_for_code_input] (lines 511-535) *)
Fixpoint code_input_loop (fuel : nat) (deadline : N) : M (option elem) :=
  now <- time_time;;
  if (now <? deadline)%N
  then match fuel with
       | O => fun s => (OutOfFuel, s)
       | S k =>
           found <- find_first_selector code_input_selectors;;
           match found with
           | Some el => ret (Some el)
           | None => sleep 300;; code_input_loop k deadline
           end
       end
  else ret None.

Definition _wait_for_code_input (fuel : nat) (timeout : N) : M (option elem) :=
  try_except_class TimeoutException
    (now <- time_time;;
     let deadline := (now + timeout * 1000)%N in
     code_input_loop fuel deadline)
    (ret None).

(** the methods [_find_code_input] and [_find_verify_button] (lines 537-560),
    which nothing calls *)
Definition _find_code_input : M (option elem) :=
  try_except_class NoSuchElementException
    (el <- find_element CSS_SELECTOR "input[name='pinInput']";; ret (Some el))
    (ret None).

Fixpoint first_verify_button (buttons : list elem) : M (option elem) :=
  match buttons with
  | [] => ret None
  | btn :: rest =>
      t <- text btn;;
      let t := PyStr.strip t in
      if negb (t =? "") && PyStr.contains VERIFY_TEXT t then ret (Some btn)
      else first_verify_button rest
  end.

Definition _find_verify_button : M (option elem) :=
  fixed <- try_except_class NoSuchElementException
             (el <- find_element XPATH VERIFY_BUTTON_XPATH;; ret (Some el))
             (ret None);;
  match fixed with
  | Some el => ret (Some el)
  | None =>
      try_except (buttons <- find_elements TAG_NAME "button";; first_verify_button buttons)
                 (fun _ => ret None)
  end.

(** *** [_run_flow] (lines 198-337), one definition per step, last step first *)

(** ExtractConfig, lines 335-337 *)
Definition flow_extract (email : string) : M dict :=
  _log "info" "login success";;
  _extract_config email.

(** AwaitBusinessParams, lines 324-333, then ExtractConfig *)
Definition flow_await_business_params (email : string) : M dict :=
  _log "info" "waiting for URL parameters";;
  ready <- _wait_for_business_params 30;;
  if negb ready
  then
    _log "warning" "URL parameters not generated, trying refresh";;
    refresh;;
    sleep 3000;;
    ready_again <- _wait_for_business_params 30;;
    if negb ready_again
    then
      _log "error" "URL parameters generation failed";;
      _save_screenshot "params_missing";;
      ret (failure "URL parameters not found")
    else flow_extract email
  else flow_extract email.

(** HandleAgreement, NavigateBusinessPage, HandleUsernameSetup, lines 309-322 *)
Definition flow_after_verify (email : string) : M dict :=
  sleep 5000;;
  _handle_agreement_page;;
  _log "info" "navigating to business page";;
  get BUSINESS_URL;;
  sleep 3000;;
  url <- current_url;;
  (if negb (PyStr.contains "cid" url)
   then done <- _handle_username_setup;;
        if done then sleep 3000 else ret tt
   else ret tt);;
  flow_await_business_params email.

(** [for btn in buttons: if "验证" in btn.text: click; break] (lines 302-305) *)
Fixpoint click_first_verify (buttons : list elem) : M unit :=
  match buttons with
  | [] => ret tt
  | btn :: rest =>
      t <- text btn;;
      if PyStr.contains VERIFY_TEXT t
      then execute_script JS_CLICK btn;; ret tt
      else click_first_verify rest
  end.

(** ClickVerify, lines 294-307 *)
Definition click_verify : M unit :=
  sleep 500;;
  try_except
    (verify_btn <- find_element XPATH VERIFY_BUTTON_XPATH;;
     execute_script JS_CLICK verify_btn;;
     ret tt)
    (fun _ =>
       try_except
         (buttons <- find_elements TAG_NAME "button";;
          click_first_verify buttons)
         (fun e => _log "warning" ("failed to click verify button: " ++ str_exn e))).

Definition flow_click_verify (email : string) : M dict :=
  click_verify;;
  flow_after_verify email.

(** EnterCode, lines 270-292: [Some d] is [return d] *)
Definition enter_code (code : string) : M (option dict) :=
  _log "info" ("code received: " ++ code);;
  sleep 1000;;
  try_except
    (code_input <- wait_until 10 (presence_of_element_located CSS_SELECTOR "input[name='pinInput']");;
     click code_input;;
     sleep 100;;
     type_chars code_input code 50;;
     ret None)
    (fun _ =>
       try_except
         (span <- find_element CSS_SELECTOR "span[data-index='0']";;
          click span;;
          sleep 200;;
          focused <- active_element;;
          send_keys focused code;;
          ret None)
         (fun e =>
            _log "error" ("failed to input code: " ++ str_exn e);;
            _save_screenshot "code_input_failed";;
            ret (Some (failure ("failed to input code: " ++ str_exn e))))).

Definition flow_enter_code (email code : string) : M dict :=
  r <- enter_code code;;
  match r with
  | Some d => ret d
  | None => flow_click_verify email
  end.

Definition code_timeout : M dict :=
  _log "error" "verification code timeout";;
  _save_screenshot "code_timeout";;
  ret (failure "verification code timeout").

(** RetrieveCode, lines 261-268 *)
Definition flow_retrieve_code (email : string) (mail_client : MailClient W)
    (send_time : Z) : M dict :=
  _log "info" "polling for verification code";;
  code <- call_out (EvPollForCode 40 4 send_time)
                   (poll_for_code mail_client 40 4 send_time);;
  match code with
  | Some c => if (c =? "") then code_timeout else flow_enter_code email c
  | None => code_timeout
  end.

(** AwaitCodeInput, lines 254-259 *)
Definition flow_await_code_input (fuel : nat) (email : string)
    (mail_client : MailClient W) (send_time : Z) : M dict :=
  code_input <- _wait_for_code_input fuel 30;;
  match code_input with
  | None =>
      _log "error" "code input not found";;
      _save_screenshot "code_input_missing";;
      ret (failure "code input not found")
  | Some _ => flow_retrieve_code email mail_client send_time
  end.

(** RequestCode, lines 243-252 *)
Definition flow_request_code (fuel : nat) (email : string)
    (mail_client : MailClient W) : M dict :=
  send_time <- datetime_now;;
  _log "info" "clicking send verification code button";;
  sent <- _click_send_code_button fuel;;
  if negb sent
  then
    _log "error" "send code button not found";;
    _save_screenshot "send_code_button_missing";;
    ret (failure "send code button not found")
  else flow_await_code_input fuel email mail_client send_time.

(** ClickContinue, lines 231-241: [Some d] is [return d] *)
Definition click_continue : M (option dict) :=
  try_except
    (continue_btn <- wait_until 10 (element_to_be_clickable XPATH CONTINUE_BUTTON_XPATH);;
     execute_script JS_CLICK continue_btn;;
     sleep 2000;;
     ret None)
    (fun e =>
       _log "error" ("failed to click continue: " ++ str_exn e);;
       _save_screenshot "continue_button_failed";;
       ret (Some (failure ("failed to click continue: " ++ str_exn e)))).

Definition flow_click_continue (fuel : nat) (email : string)
    (mail_client : MailClient W) : M dict :=
  r <- click_continue;;
  match r with
  | Some d => ret d
  | None => flow_request_code fuel email mail_client
  end.

(** EnterEmail, lines 214-229: [Some d] is [return d] *)
Definition enter_email (email : string) : M (option dict) :=
  try_except
    (_log "info" "entering email address";;
     email_input <- wait_until 30 (element_to_be_clickable XPATH EMAIL_INPUT_XPATH);;
     click email_input;;
     clear email_input;;
     type_chars email_input email 20;;
     sleep 500;;
     ret None)
    (fun e =>
       _log "error" ("failed to enter email: " ++ str_exn e);;
       _save_screenshot "email_input_failed";;
       ret (Some (failure ("failed to enter email: " ++ str_exn e)))).

Definition flow_enter_email (fuel : nat) (email : string)
    (mail_client : MailClient W) : M dict :=
  r <- enter_email email;;
  match r with
  | Some d => ret d
  | None => flow_click_continue fuel email mail_client
  end.

(** [has_business_params] (line 209) *)
Definition has_business_params (url : string) : bool :=
  PyStr.contains "business.gemini.google" url
  && PyStr.contains "csesidx=" url
  && PyStr.contains "/cid/" url.

(** Start and CheckAlreadyAuthenticated, lines 201-212 *)
Definition _run_flow (fuel : nat) (email : string) (mail_client : MailClient W) : M dict :=
  _log "info" ("navigating to login page for " ++ email);;
  get LOGIN_URL;;
  sleep 3000;;
  url <- current_url;;
  if has_business_params url
  then _extract_config email
  else flow_enter_email fuel email mail_client.

(** *** [login_and_extract] (lines 47-56) *)
Definition login_and_extract (fuel : nat) (email : string)
    (mail_client : MailClient W) : M dict :=
  try_finally
    (try_except
       (_create_driver;;
        _run_flow fuel email mail_client)
       (fun exc =>
          _log "error" ("automation error: " ++ str_exn exc);;
          ret (failure (str_exn exc))))
    _cleanup.

End Flow.

(** ** Observations on a run *)

Definition is_poll (ev : event) : bool :=
  match ev with EvPollForCode _ _ _ => true | _ => false end.

Definition is_refresh (ev : event) : bool :=
  match ev with EvRefresh => true | _ => false end.

Definition is_script (ev : event) : bool :=
  match ev with EvExecuteScript _ _ => true | _ => false end.

(** the operations of [_save_screenshot] *)
Definition is_diagnostic (ev : event) : bool :=
  match ev with EvMakedirs _ | EvSaveScreenshot _ => true | _ => false end.

(** the operations of [_extract_config] *)
Definition is_extraction (ev : event) : bool :=
  match ev with EvGet _ | EvCurrentUrl | EvGetCookies => true | _ => false end.

Definition any_event (ev : event) : bool := true.

(** The keys of the credential bundle, in the order [_extract_config] writes them. *)
Definition bundle_keys : list string :=
  ["id"; "csesidx"; "config_id"; "secure_c_ses"; "host_c_oses"; "expires_at"].

Definition bundle (email csesidx config_id : string) (ses host : option string)
    (expires_at : string) : dict :=
  [ ("id", PStr email);
    ("csesidx", PStr csesidx);
    ("config_id", PStr config_id);
    ("secure_c_ses", opt_pyval ses);
    ("host_c_oses", opt_pyval host);
    ("expires_at", PStr expires_at) ].

(** [{success: true, config: <bundle>}] *)
Definition is_success (d : dict) : Prop :=
  exists config, d = success config /\ map fst config = bundle_keys.

(** [{success: false, error: <string>}] *)
Definition is_failure (d : dict) : Prop :=
  exists error, d = failure error.

(** [s'] continues [s]: the clock has not gone back, the log has only grown,
    and the operations since [s] all satisfy [p]. *)
Definition extends {W} (p : event -> bool) (s s' : st W) : Prop :=
  (clock s <= clock s')%N /\
  (exists evs, trace s' = (trace s ++ evs)%list /\ forallb p evs = true) /\
  (exists entries, logs s' = (logs s ++ entries)%list).

Definition no_poll (ev : event) : bool := negb (is_poll ev).

Definition no_refresh (ev : event) : bool := negb (is_refresh ev).

(** [m], started in [s], does not run out of fuel and extends [s]. *)
Definition safe_at {W A} (p : event -> bool) (m : M W A) (s : st W) : Prop :=
  fst (m s) <> OutOfFuel /\ extends p s (snd (m s)).

Definition safe {W A} (p : event -> bool) (m : M W A) : Prop :=
  forall s, safe_at p m s.

(** Every result [m] returns satisfies [q]. *)
Definition returns {W A} (q : A -> Prop) (m : M W A) : Prop :=
  forall s a s', m s = (Ret a, s') -> q a.

(** [s] without its last character *)
Fixpoint but_last (s : string) : string :=
  match s with
  | EmptyString => EmptyString
  | String c EmptyString => EmptyString
  | String c s' => String c (but_last s')
  end.

(** No occurrence of [sep] in [before ++ sep ++ _] starts inside [before]:
    the [sep] written after [before] is the first one. *)
Definition first_after (sep before : string) : Prop :=
  PyStr.contains sep (before ++ but_last sep) = false.

(** the text before the first [sep], or all of [s] *)
Definition before (sep s : string) : string :=
  match PyStr.partition sep s with
  | Some (a, _) => a
  | None => s
  end.

(** [url.split("cid/")[1].split("?")[0].split("/")[0]] when [cid/] occurs *)
Definition tenant_of (url : string) : string :=
  match PyStr.partition "cid/" url with
  | Some (_, rest) => before "/" (before "?" (before "cid/" rest))
  | None => ""
  end.

(** [url.split("csesidx=")[1].split("&")[0]], or the empty string *)
Definition session_of (url : string) : string :=
  match PyStr.partition "csesidx=" url with
  | Some (_, rest) => before "&" (before "csesidx=" rest)
  | None => ""
  end.

(** the value of the first cookie called [name] *)
Definition cookie_value (name : string) (cookies : list cookie) : option string :=
  option_map ck_value (find (cookie_named name) cookies).

(** the expiry written into the bundle, [now] being the local time *)
Definition expiry_text {W} {P : Platform W} (cookies : list cookie) (now : Z) : string :=
  match find (cookie_named "__Secure-C_SES") cookies with
  | Some c =>
      match ck_expiry c with
      | Some expiry => PyDate.strftime (fromtimestamp (expiry - 43200))
      | None => PyDate.strftime (now + PyDate.hours12)
      end
  | None => PyDate.strftime (now + PyDate.hours12)
  end.

(** [{success: true, ...}] or [{success: false, ...}] *)
Definition shaped (d : dict) : Prop := is_success d \/ is_failure d.

(** the same for a step that may go on instead of returning *)
Definition shaped_exit (r : option dict) : Prop :=
  match r with
  | Some d => shaped d
  | None => True
  end.

(** [m] never raises *)
Definition quiet {W A} (m : M W A) : Prop := forall s e, fst (m s) <> Raise e.

(** every exception outside [Exception] that leaves [m] satisfies [q] *)
Definition passes {W A} (q : signal -> Prop) (m : M W A) : Prop :=
  forall s b, fst (m s) = Interrupt b -> q b.

(** the exceptions outside [Exception] that [poll_for_code], called the way
    line 263 calls it, can raise *)
Definition signals {W} (mail_client : MailClient W) (b : signal) : Prop :=
  exists t w, fst (fst (poll_for_code mail_client 40 4 t w)) = Signal b.

(** Since [s], the operations picked by [sel] are none, or just [ev]. *)
Definition at_most_once {W} (sel : event -> bool) (ev : event) (s s' : st W) : Prop :=
  exists evs, trace s' = (trace s ++ evs)%list /\
              (filter sel evs = [] \/ filter sel evs = [ev]).

(** ** Two browsers to run the flow on *)

(** A scripted browser: a page answers the lookups; [get] and [refresh] move
    to the next page when there is one. *)
Module Sim.

Record page : Type := mk_page {
  pg_url : string;
  pg_elements : list (By * string * elem);
  pg_text : list (elem * string);
  pg_cookies : list cookie
}.

Record browser : Type := mk_browser {
  cur : page;
  next : list page;
  inbox : option string
}.

Definition by_eqb (a b : By) : bool :=
  match a, b with
  | XPATH, XPATH | CSS_SELECTOR, CSS_SELECTOR | ID, ID | TAG_NAME, TAG_NAME => true
  | _, _ => false
  end.

Definition matching (b : By) (sel : string) (w : browser) : list elem :=
  map snd (filter (fun x => by_eqb (fst (fst x)) b && (snd (fst x) =? sel))
                  (pg_elements (cur w))).

Definition ok {A} (a : A) (w : browser) : reply browser A := (inr a, w, 0%N).

Definition navigate (w : browser) : reply browser unit :=
  match next w with
  | [] => ok tt w
  | p :: rest => ok tt (mk_browser p rest (inbox w))
  end.

Definition lookup (b : By) (sel : string) (w : browser) : reply browser elem :=
  match matching b sel w with
  | el :: _ => ok el w
  | [] => (inl (mk_exn NoSuchElementException "no such element"), w, 0%N)
  end.

Definition wait (t : nat) (c : condition) (w : browser) : reply browser elem :=
  let '(b, sel) := match c with
                   | element_to_be_clickable b sel => (b, sel)
                   | presence_of_element_located b sel => (b, sel)
                   end in
  match matching b sel w with
  | el :: _ => ok el w
  | [] => (inl (mk_exn TimeoutException "Message: "), w, N.of_nat t * 1000)%N
  end.

Definition text_of (el : elem) (w : browser) : string :=
  match find (fun x => Nat.eqb (fst x) el) (pg_text (cur w)) with
  | Some x => snd x
  | None => ""
  end.

#[export] Instance platform : Platform browser := {
  drv_get := fun _ => navigate;
  drv_current_url := fun w => ok (pg_url (cur w)) w;
  drv_find_element := lookup;
  drv_find_elements := fun b sel w => ok (matching b sel w) w;
  drv_execute_script := fun _ _ => ok PNone;
  drv_wait_until := wait;
  drv_active_element := ok 0;
  drv_get_cookies := fun w => ok (pg_cookies (cur w)) w;
  drv_save_screenshot := fun _ => ok true;
  drv_refresh := navigate;
  drv_quit := ok tt;
  drv_set_page_load_timeout := fun _ => ok tt;
  drv_implicitly_wait := fun _ => ok tt;
  el_click := fun _ => ok tt;
  el_clear := fun _ => ok tt;
  el_send_keys := fun _ _ => ok tt;
  el_text := fun el w => ok (text_of el w) w;
  el_get_attribute := fun _ _ => ok None;
  el_is_displayed := fun _ => ok true;
  el_tag_name := fun _ => ok "button";
  uc_Chrome := fun _ _ => ok tt;
  tempfile_mkdtemp := fun prefix => ok ("/tmp/" ++ prefix ++ "0");
  subprocess_run := fun _ => ok (0%Z, "Google Chrome 122.0.0.0", "");
  os_makedirs := fun _ => ok tt;
  shutil_rmtree := fun _ => ok tt;
  random_choices := fun _ => ok "a1B";
  os_getenv := fun _ _ => None;
  shutil_which := fun _ _ => None;
  os_path_exists := fun _ _ => false;
  os_access_x := fun _ _ => false;
  utcoffset := fun _ => 0%Z
}.

Definition mail : MailClient browser :=
  {| poll_for_code := fun _ _ _ w => (Answer (inbox w), w, 0%N) |}.

(** a message of a mailbox: the local time it arrived at, in milliseconds,
    and the code it carries *)
Record message : Type := mk_message {
  msg_time : Z;
  msg_code : string
}.

(** a mail client that answers with the code of the first message of its
    mailbox and does not look at [since_time] *)
Definition careless_mail (messages : list message) : MailClient browser :=
  {| poll_for_code := fun _ _ _ w =>
       (Answer (option_map msg_code (hd_error messages)), w, 0%N) |}.

Definition fresh : GeminiAutomationUC :=
  mk_self "Mozilla/5.0" "" true 60 true false None.

Definition live : GeminiAutomationUC :=
  mk_self "Mozilla/5.0" "" true 60 true true (Some "/tmp/uc-profile-0").

Definition start (o : GeminiAutomationUC) (w : browser) : st browser :=
  mk_st w 1700000000000 o [] [].

Definition ses_cookie (expiry : Z) : cookie :=
  mk_cookie "__Secure-C_SES" "ses-value" (Some expiry).
Definition host_cookie : cookie :=
  mk_cookie "__Host-C_OSES" "host-value" None.

Definition blank_page (url : string) : page := mk_page url [] [] [].

Definition console_url : string :=
  "https://business.gemini.google/home/cid/ACME123?csesidx=XYZ&other=1".

(** the console, signed in *)
Definition console (cookies : list cookie) : page :=
  mk_page console_url [] [] cookies.

(** a console URL with an earlier [cid/] segment *)
Definition nested_url : string :=
  "https://business.gemini.google/cid/OLD/cid/ACME123?csesidx=XYZ&other=1".

(** both markers, on another host *)
Definition foreign_url : string :=
  "https://example.com/cid/ACME123?csesidx=XYZ".

(** the login page showing a challenge widget *)
Definition captcha_page : page :=
  mk_page LOGIN_URL [ (CSS_SELECTOR, CAPTCHA_SELECTOR, 7) ] [] [].

(** the code page with one button labelled in English *)
Definition english_verify_page : page :=
  mk_page AUTH_HOME_URL [ (TAG_NAME, "button", 3) ] [ (3, "Verify") ] [].

(** the code page with two buttons, the second labelled in Chinese *)
Definition chinese_verify_page : page :=
  mk_page AUTH_HOME_URL [ (TAG_NAME, "button", 3); (TAG_NAME, "button", 4) ]
          [ (3, "Resend"); (4, VERIFY_TEXT) ] [].

(** a complete login: login page, code page, console *)
Definition login_page : page :=
  mk_page LOGIN_URL
          [ (XPATH, EMAIL_INPUT_XPATH, 1); (XPATH, CONTINUE_BUTTON_XPATH, 2);
            (CSS_SELECTOR, "input[name='pinInput']", 5);
            (XPATH, VERIFY_BUTTON_XPATH, 6) ] [] [].

Definition happy : browser :=
  mk_browser (blank_page "about:blank")
             [ login_page; console [ses_cookie 1700100000; host_cookie] ]
             (Some "123456").

End Sim.

(** A browser that never shows anything: every lookup fails, every wait times
    out, the URL stays on the login page. *)
Module Blank.

Definition ok {A} (a : A) (w : unit) : reply unit A := (inr a, w, 0%N).

Definition missing {A} (w : unit) : reply unit A :=
  (inl (mk_exn NoSuchElementException "no such element"), w, 0%N).

Definition late {A} (t : nat) (w : unit) : reply unit A :=
  (inl (mk_exn TimeoutException "Message: "), w, (N.of_nat t * 1000)%N).

#[export] Instance platform : Platform unit := {
  drv_get := fun _ => ok tt;
  drv_current_url := ok AUTH_HOME_URL;
  drv_find_element := fun _ _ => missing;
  drv_find_elements := fun _ _ => ok [];
  drv_execute_script := fun _ _ => ok PNone;
  drv_wait_until := fun t _ => late t;
  drv_active_element := missing;
  drv_get_cookies := ok [];
  drv_save_screenshot := fun _ => ok true;
  drv_refresh := ok tt;
  drv_quit := ok tt;
  drv_set_page_load_timeout := fun _ => ok tt;
  drv_implicitly_wait := fun _ => ok tt;
  el_click := fun _ => ok tt;
  el_clear := fun _ => ok tt;
  el_send_keys := fun _ _ => ok tt;
  el_text := fun _ => ok "";
  el_get_attribute := fun _ _ => ok None;
  el_is_displayed := fun _ => ok false;
  el_tag_name := fun _ => ok "";
  uc_Chrome := fun _ _ => ok tt;
  tempfile_mkdtemp := fun prefix => ok ("/tmp/" ++ prefix ++ "0");
  subprocess_run := fun _ => ok (0%Z, "", "");
  os_makedirs := fun _ => ok tt;
  shutil_rmtree := fun _ => ok tt;
  random_choices := fun _ => ok "a1B";
  os_getenv := fun _ _ => None;
  shutil_which := fun _ _ => None;
  os_path_exists := fun _ _ => false;
  os_access_x := fun _ _ => false;
  utcoffset := fun _ => 0%Z
}.

Definition mail : MailClient unit :=
  {| poll_for_code := fun _ _ _ w => (Answer None, w, 0%N) |}.

Definition start : st unit :=
  mk_st tt 1700000000000 Sim.live [] [].

End Blank.

(** ** The constructor (lines 31-45 and 720-724) *)

(** the versions [_get_ua] draws from *)
Definition ua_versions : list string := ["120.0.0.0"; "121.0.0.0"; "122.0.0.0"].

(** [_get_ua], [v] being what [random.choice] drew *)
Definition _get_ua (v : string) : string :=
  "Mozilla/5.0 (Windows NT 10.0; Win64; x64) AppleWebKit/537.36 (KHTML, like Gecko) Chrome/"
  ++ v ++ " Safari/537.36".

(** [__init__]; [v] is drawn only when [user_agent] is empty *)
Definition __init__ (v : string) (user_agent proxy : string) (headless : bool)
    (timeout : nat) (log_callback : bool) : GeminiAutomationUC :=
  mk_self (if (user_agent =? "") then _get_ua v else user_agent)
          proxy headless timeout log_callback false None.

(** ** More observations *)

Definition is_chrome (ev : event) : bool :=
  match ev with EvChrome _ _ => true | _ => false end.

Definition is_quit (ev : event) : bool :=
  match ev with EvQuit => true | _ => false end.

Definition is_url_read (ev : event) : bool :=
  match ev with EvCurrentUrl => true | _ => false end.

(** the operations of [_cleanup] *)
Definition is_cleanup (o : GeminiAutomationUC) (ev : event) : bool :=
  match ev with
  | EvQuit => driver o
  | EvRmtree d =>
      match user_data_dir o with
      | Some d' => (d =? d') && negb (d =? "")
      | None => false
      end
  | _ => false
  end.

Definition is_click_script (ev : event) : bool :=
  match ev with EvExecuteScript js _ => (js =? JS_CLICK) | _ => false end.

(** typing [txt] into [el], one key at a time *)
Definition keystrokes (el : elem) (txt : string) : list event :=
  map (EvSendKeys el) (PyStr.chars txt).

(** ** A machine with faults, to run the error paths on *)

Module Lab.

Record machine : Type := mk_machine {
  CHROME_BIN : option string;
  executables : list string;
  chrome_faults : list exn;
  shown_url : string;
  present : list (By * string * elem);
  click_fault : option exn;
  cookie_fault : option exn
}.

Definition ok {A} (a : A) (w : machine) : reply machine A := (inr a, w, 0%N).

Definition fail {A} (e : exn) (w : machine) : reply machine A := (inl e, w, 0%N).

Definition matching (b : By) (sel : string) (w : machine) : list elem :=
  map snd (filter (fun x => Sim.by_eqb (fst (fst x)) b && (snd (fst x) =? sel)) (present w)).

Definition lookup (b : By) (sel : string) (w : machine) : reply machine elem :=
  match matching b sel w with
  | el :: _ => ok el w
  | [] => fail (mk_exn NoSuchElementException "no such element") w
  end.

Definition wait (t : nat) (c : condition) (w : machine) : reply machine elem :=
  let '(b, sel) := match c with
                   | element_to_be_clickable b sel => (b, sel)
                   | presence_of_element_located b sel => (b, sel)
                   end in
  match matching b sel w with
  | el :: _ => ok el w
  | [] => (inl (mk_exn TimeoutException "Message: "), w, N.of_nat t * 1000)%N
  end.

Definition start_chrome (w : machine) : reply machine unit :=
  match chrome_faults w with
  | e :: rest =>
      fail e (mk_machine (CHROME_BIN w) (executables w) rest (shown_url w) (present w)
                (click_fault w) (cookie_fault w))
  | [] => ok tt w
  end.

Definition is_executable (x : string) (w : machine) : bool :=
  existsb (String.eqb x) (executables w).

#[export] Instance platform : Platform machine := {
  drv_get := fun _ => ok tt;
  drv_current_url := fun w => ok (shown_url w) w;
  drv_find_element := lookup;
  drv_find_elements := fun b sel w => ok (matching b sel w) w;
  drv_execute_script := fun _ _ => ok PNone;
  drv_wait_until := wait;
  drv_active_element := ok 0;
  drv_get_cookies := fun w =>
    match cookie_fault w with Some e => fail e w | None => ok [] w end;
  drv_save_screenshot := fun _ => ok true;
  drv_refresh := ok tt;
  drv_quit := ok tt;
  drv_set_page_load_timeout := fun _ => ok tt;
  drv_implicitly_wait := fun _ => ok tt;
  el_click := fun _ w =>
    match click_fault w with Some e => fail e w | None => ok tt w end;
  el_clear := fun _ => ok tt;
  el_send_keys := fun _ _ => ok tt;
  el_text := fun _ => ok "";
  el_get_attribute := fun _ _ => ok None;
  el_is_displayed := fun _ => ok true;
  el_tag_name := fun _ => ok "button";
  uc_Chrome := fun _ _ => start_chrome;
  tempfile_mkdtemp := fun prefix => ok ("/tmp/" ++ prefix ++ "0");
  subprocess_run := fun _ => ok (0%Z, "Google Chrome 122.0.0.0", "");
  os_makedirs := fun _ => ok tt;
  shutil_rmtree := fun _ => ok tt;
  random_choices := fun _ => ok "a1B";
  os_getenv := fun name w => if (name =? "CHROME_BIN") then CHROME_BIN w else None;
  shutil_which := fun _ _ => None;
  os_path_exists := is_executable;
  os_access_x := is_executable;
  utcoffset := fun _ => 0%Z
}.

(** a mailbox that cannot be reached *)
Definition mail_down : MailClient machine :=
  {| poll_for_code := fun _ _ _ w =>
       (Error (mk_exn OtherException "mailbox unreachable"), w, 0%N) |}.

Definition mail : MailClient machine :=
  {| poll_for_code := fun _ _ _ w => (Answer (Some "123456"), w, 0%N) |}.

(** a mailbox whose poll is interrupted from the keyboard *)
Definition mail_interrupted : MailClient machine :=
  {| poll_for_code := fun _ _ _ w => (Signal KeyboardInterrupt, w, 0%N) |}.

(** a machine with Chrome installed and nothing on the page *)
Definition plain (url : string) : machine :=
  mk_machine (Some "/opt/chrome/chrome") ["/opt/chrome/chrome"] [] url [] None None.

(** a login page on which everything up to the code field is there *)
Definition login_form : machine :=
  mk_machine None [] [] LOGIN_URL
    [ (XPATH, EMAIL_INPUT_XPATH, 1); (XPATH, CONTINUE_BUTTON_XPATH, 2);
      (CSS_SELECTOR, "input[name='pinInput']", 5) ] None None.

(** the login form on a machine where the profile directory that [mkdtemp]
    makes is there *)
Definition login_form_with_profile : machine :=
  mk_machine None ["/tmp/uc-profile-0"] [] LOGIN_URL
    [ (XPATH, EMAIL_INPUT_XPATH, 1); (XPATH, CONTINUE_BUTTON_XPATH, 2);
      (CSS_SELECTOR, "input[name='pinInput']", 5) ] None None.

Definition start (w : machine) : st machine :=
  mk_st w 1700000000000 (__init__ "120.0.0.0" "" "" true 60 true) [] [].

End Lab.

(** ** Two browsers on which a wait is never satisfied

    The world is a flag.  With [slow], no element is found, and a lookup
    gives up after the ten seconds of the implicit wait (line 196).  With
    [veiled], every lookup answers with a field whose [is_displayed] raises. *)
Module Stub.

Definition slow : bool := false.
Definition veiled : bool := true.

Definition ok {A} (a : A) (w : bool) : reply bool A := (inr a, w, 0%N).

Definition lookup (w : bool) : reply bool elem :=
  if w then (inr 1, w, 0%N)
  else (inl (mk_exn NoSuchElementException "no such element"), w, 10000%N).

Definition lookup_all (w : bool) : reply bool (list elem) :=
  (inr [], w, if w then 0%N else 10000%N).

Definition late {A} (t : nat) (w : bool) : reply bool A :=
  (inl (mk_exn TimeoutException "Message: "), w, (N.of_nat t * 1000)%N).

Definition stale {A} (w : bool) : reply bool A :=
  (inl (mk_exn OtherException "stale element reference"), w, 0%N).

#[export] Instance platform : Platform bool := {
  drv_get := fun _ => ok tt;
  drv_current_url := ok AUTH_HOME_URL;
  drv_find_element := fun _ _ => lookup;
  drv_find_elements := fun _ _ => lookup_all;
  drv_execute_script := fun _ _ => ok PNone;
  drv_wait_until := fun t _ => late t;
  drv_active_element := ok 0;
  drv_get_cookies := ok [];
  drv_save_screenshot := fun _ => ok true;
  drv_refresh := ok tt;
  drv_quit := ok tt;
  drv_set_page_load_timeout := fun _ => ok tt;
  drv_implicitly_wait := fun _ => ok tt;
  el_click := fun _ => ok tt;
  el_clear := fun _ => ok tt;
  el_send_keys := fun _ _ => ok tt;
  el_text := fun _ => ok "";
  el_get_attribute := fun _ _ => ok None;
  el_is_displayed := fun _ => stale;
  el_tag_name := fun _ => ok "";
  uc_Chrome := fun _ _ => ok tt;
  tempfile_mkdtemp := fun prefix => ok ("/tmp/" ++ prefix ++ "0");
  subprocess_run := fun _ => ok (0%Z, "", "");
  os_makedirs := fun _ => ok tt;
  shutil_rmtree := fun _ => ok tt;
  random_choices := fun _ => ok "a1B";
  os_getenv := fun _ _ => None;
  shutil_which := fun _ _ => None;
  os_path_exists := fun _ _ => false;
  os_access_x := fun _ _ => false;
  utcoffset := fun _ => 0%Z
}.

Definition start (w : bool) : st bool :=
  mk_st w 1700000000000 Sim.live [] [].

End Stub.

(** [m] leaves the object as it is *)
Definition keeps {W A} (m : M W A) : Prop := forall s, self (snd (m s)) = self s.

(** no whitespace in [s] *)
Fixpoint spaceless (s : string) : bool :=
  match s with
  | EmptyString => true
  | String c s' => negb (PyStr.is_space c) && spaceless s'
  end.

(** a word, as [str.split()] cuts them: not empty, no whitespace *)
Definition is_word (w : string) : Prop := w <> "" /\ spaceless w = true.

(** whether [s] begins with something other than whitespace *)
Definition head_ok (s : string) : bool :=
  match s with
  | EmptyString => true
  | String c _ => negb (PyStr.is_space c)
  end.

(** * Properties *)

Local Open Scope flow_scope.

Create HintDb flow_ops.

Example split_cid :
  PyStr.split "cid/" "https://business.gemini.google/home/cid/ACME123?csesidx=XYZ&other=1"
  = ["https://business.gemini.google/home/"; "ACME123?csesidx=XYZ&other=1"].
Proof. reflexivity. Qed.

Example split_twice : PyStr.split "," "a,,b," = ["a"; ""; "b"; ""].
Proof. reflexivity. Qed.

Example normalize_spaces :
  PyStr.strip (PyStr.join " " (PyStr.split_ws "  Send   code ")) = "Send code".
Proof. reflexivity. Qed.

Example strftime_epoch : PyDate.strftime 0 = "1970-01-01 00:00:00".
Proof. reflexivity. Qed.

Example strftime_2025 : PyDate.strftime 1767225599000 = "2025-12-31 23:59:59".
Proof. vm_compute. reflexivity. Qed.

Section StringFacts.

Lemma prefix_nil_r (sep : string) : sep <> "" -> prefix sep "" = false.
Proof. destruct sep; [congruence | reflexivity]. Qed.

Lemma prefix_app_self (sep rest : string) : prefix sep (sep ++ rest) = true.
Proof.
  induction sep as [|c sep IH]; simpl.
  - destruct rest; reflexivity.
  - destruct (ascii_dec c c); [exact IH | congruence].
Qed.

Lemma drop_app_self (sep rest : string) : PyStr.drop (String.length sep) (sep ++ rest) = rest.
Proof. induction sep; simpl; auto. Qed.

Lemma prefix_length (a x : string) : prefix a x = true -> String.length a <= String.length x.
Proof.
  revert a; induction x as [|c x IH]; intros [|d a]; simpl; intros H; try lia; try discriminate.
  destruct (ascii_dec d c); [apply IH in H; lia | discriminate].
Qed.

(** a prefix of [x ++ y] no longer than [x] is a prefix of [x] *)
Lemma prefix_app_short (a x y : string) :
  prefix a (x ++ y) = true -> String.length a <= String.length x -> prefix a x = true.
Proof.
  revert a; induction x as [|c x IH]; intros [|d a]; simpl; intros H L; try lia; auto.
  destruct (ascii_dec d c); [apply IH; [exact H | lia] | discriminate].
Qed.

Lemma but_last_snoc (s : string) :
  s <> "" -> exists c, s = but_last s ++ String c "".
Proof.
  induction s as [|c s IH]; [congruence|]. intros _.
  destruct s as [|d s].
  - exists c. reflexivity.
  - destruct IH as [e He]; [discriminate|]. exists e.
    change (but_last (String c (String d s))) with (String c (but_last (String d s))).
    simpl. f_equal. exact He.
Qed.

Lemma but_last_length (s : string) : s <> "" -> S (String.length (but_last s)) = String.length s.
Proof.
  induction s as [|c s IH]; [congruence|]. intros _.
  destruct s as [|d s]; [reflexivity|].
  change (but_last (String c (String d s))) with (String c (but_last (String d s))).
  simpl in *. rewrite IH; [reflexivity | discriminate].
Qed.

Lemma app_assoc_str (a b c : string) : (a ++ b) ++ c = a ++ b ++ c.
Proof. induction a; simpl; congruence. Qed.

Lemma app_length_str (a b : string) : String.length (a ++ b) = String.length a + String.length b.
Proof. induction a; simpl; auto. Qed.

Lemma partition_unfold (sep s : string) :
  PyStr.partition sep s =
  if prefix sep s then Some ("", PyStr.drop (String.length sep) s)
  else match s with
       | EmptyString => None
       | String c s' =>
           match PyStr.partition sep s' with
           | Some (a, b) => Some (String c a, b)
           | None => None
           end
       end.
Proof. destruct s; reflexivity. Qed.

Lemma contains_unfold (sub s : string) :
  PyStr.contains sub s =
  if prefix sub s then true
  else match s with
       | EmptyString => false
       | String _ s' => PyStr.contains sub s'
       end.
Proof. destruct s; reflexivity. Qed.

(** the separator written after [p] is where [partition] cuts *)
Lemma partition_first (sep p rest : string) :
  sep <> "" -> first_after sep p ->
  PyStr.partition sep (p ++ sep ++ rest) = Some (p, rest).
Proof.
  intros Hne. unfold first_after.
  induction p as [|c p IH]; intros H.
  - simpl. rewrite partition_unfold, prefix_app_self, drop_app_self. reflexivity.
  - rewrite contains_unfold in H.
    destruct (prefix sep (String c p ++ but_last sep)) eqn:Hp; [discriminate|].
    simpl in H.
    assert (Hq : prefix sep (String c p ++ sep ++ rest) = false).
    { destruct (prefix sep (String c p ++ sep ++ rest)) eqn:Hq; [|reflexivity].
      destruct (but_last_snoc sep Hne) as [e He].
      rewrite He in Hq at 2. rewrite app_assoc_str in Hq.
      rewrite <- (app_assoc_str (String c p)) in Hq.
      apply prefix_app_short in Hq; [congruence|].
      simpl. rewrite app_length_str. pose proof (but_last_length sep Hne). lia. }
    rewrite partition_unfold, Hq. simpl. rewrite IH; [reflexivity | exact H].
Qed.

Lemma prefix_drop_length (sep x : string) :
  prefix sep x = true ->
  String.length x = String.length sep + String.length (PyStr.drop (String.length sep) x).
Proof.
  revert x; induction sep as [|d sep IH]; intros x Hp; simpl; [reflexivity|].
  destruct x as [|e x]; simpl in *; [discriminate|].
  destruct (ascii_dec d e); [|discriminate]. rewrite (IH x Hp) at 1. reflexivity.
Qed.

Lemma partition_length (sep s a b : string) :
  PyStr.partition sep s = Some (a, b) ->
  String.length s = String.length a + String.length sep + String.length b.
Proof.
  revert a b; induction s as [|c s IH]; intros a b; rewrite partition_unfold.
  - destruct (prefix sep "") eqn:Hp; [|discriminate].
    intros H; inversion H; subst; clear H. apply prefix_drop_length in Hp. simpl in *. lia.
  - destruct (prefix sep (String c s)) eqn:Hp.
    + intros H; inversion H; subst; clear H. apply prefix_drop_length in Hp.
      rewrite Hp. simpl. lia.
    + destruct (PyStr.partition sep s) as [[a' b']|]; [|discriminate].
      intros H; inversion H; subst; clear H. simpl. rewrite (IH _ _ eq_refl). lia.
Qed.

Lemma partition_contains (sep s : string) :
  PyStr.contains sep s = true <-> exists a b, PyStr.partition sep s = Some (a, b).
Proof.
  induction s as [|c s IH]; rewrite contains_unfold, partition_unfold.
  - destruct (prefix sep ""); split; intros H; eauto; try discriminate.
    destruct H as (a & b & H); discriminate.
  - destruct (prefix sep (String c s)).
    + split; eauto.
    + destruct (PyStr.partition sep s) as [[a b]|]; split; intros H; eauto.
      * apply IH; eauto.
      * apply IH in H. destruct H as (a & b & H); discriminate.
      * destruct H as (a & b & H); discriminate.
Qed.

Lemma split_fuel_head (n : nat) (sep s : string) :
  sep <> "" -> String.length s <= n ->
  nth_error (PyStr.split_fuel n sep s) 0 = Some (before sep s).
Proof.
  intros Hne L. unfold before. destruct n as [|n]; simpl.
  - destruct s; [|simpl in L; lia]. rewrite partition_unfold, prefix_nil_r by assumption.
    reflexivity.
  - destruct (PyStr.partition sep s) as [[a b]|]; reflexivity.
Qed.

(** [s.split(sep)[0]] *)
Lemma split_0 (sep s : string) :
  sep <> "" -> nth_error (PyStr.split sep s) 0 = Some (before sep s).
Proof. intros; apply split_fuel_head; auto. Qed.

(** [s.split(sep)[1]] *)
Lemma split_1 (sep s a b : string) :
  sep <> "" -> PyStr.partition sep s = Some (a, b) ->
  nth_error (PyStr.split sep s) 1 = Some (before sep b).
Proof.
  intros Hne H. unfold PyStr.split. pose proof (partition_length _ _ _ _ H) as L.
  assert (Hs : 1 <= String.length sep) by (destruct sep; [congruence | simpl; lia]).
  destruct (String.length s) as [|n] eqn:E; [lia|].
  simpl. rewrite H. simpl. apply split_fuel_head; [assumption | lia].
Qed.

Lemma prefix_tail (c : ascii) (sub s : string) :
  prefix (String c sub) s = true -> exists s', s = String c s' /\ prefix sub s' = true.
Proof.
  destruct s as [|d s]; simpl; [discriminate|].
  destruct (ascii_dec c d); [subst; eauto | discriminate].
Qed.

Lemma contains_tail (c : ascii) (sub s : string) :
  PyStr.contains (String c sub) s = true -> PyStr.contains sub s = true.
Proof.
  induction s as [|d s IH]; rewrite contains_unfold; [discriminate|].
  rewrite (contains_unfold sub (String d s)).
  destruct (prefix (String c sub) (String d s)) eqn:Hp.
  - intros _. apply prefix_tail in Hp. destruct Hp as (s' & E & Hp). inversion E; subst.
    rewrite (contains_unfold sub s'), Hp. destruct (prefix sub (String c s')); reflexivity.
  - intros H. destruct (prefix sub (String d s)); auto.
Qed.

End StringFacts.

Lemma tenant_segment (suf : string) :
  before "/" (before "?" (before "cid/" ("ACME123?csesidx=XYZ&other=1" ++ suf))) = "ACME123".
Proof.
  unfold before at 3. simpl.
  destruct (PyStr.partition "cid/" suf) as [[a b]|]; reflexivity.
Qed.

Lemma index_segment (suf : string) :
  before "&" (before "csesidx=" ("XYZ&other=1" ++ suf)) = "XYZ".
Proof.
  unfold before at 2. simpl.
  destruct (PyStr.partition "csesidx=" suf) as [[a b]|]; reflexivity.
Qed.

(** the characters of a text are its pieces, in order *)
Lemma chars_concat (s : string) : String.concat "" (PyStr.chars s) = s.
Proof.
  induction s as [|c s IH]; [reflexivity|].
  cbn [PyStr.chars]. destruct (PyStr.chars s) as [|[|d ch] rest] eqn:E.
  - cbn in IH. subst s. reflexivity.
  - cbn [String.concat]. cbn [String.concat] in IH.
    destruct rest; cbn in *; rewrite IH; reflexivity.
  - destruct (PyStr.is_continuation d).
    + cbn [String.concat] in *. destruct rest; cbn in *; rewrite <- IH; reflexivity.
    + cbn [String.concat] in *. destruct rest; cbn in *; rewrite <- IH; reflexivity.
Qed.

Lemma chars_example :
  PyStr.chars "验a" = ["验"; "a"] /\ PyStr.len "ü@b.c" = 5 /\ String.length "ü@b.c" = 6.
Proof. repeat split. Qed.

(** the ends of [PyDate.in_range] *)
Lemma in_range_ends :
  PyDate.strftime (-30610224000000) = "1000-01-01 00:00:00" /\
  PyDate.strftime (253402300800000 - 1000) = "9999-12-31 23:59:59" /\
  PyDate.in_range (-30610224000000) = true /\
  PyDate.in_range (-30610224000000 - 1) = false /\
  PyDate.in_range (253402300800000 - 1) = true /\
  PyDate.in_range 253402300800000 = false.
Proof. vm_compute. repeat split. Qed.

(** ** Reasoning about runs *)

Section Runs.
Context {W : Type}.

Lemma bind_ret_step {A B} (m : M W A) (k : A -> M W B) s a s' :
  m s = (Ret a, s') -> bind m k s = k a s'.
Proof. unfold bind; intros ->; reflexivity. Qed.

Lemma bind_raise_step {A B} (m : M W A) (k : A -> M W B) s e s' :
  m s = (Raise e, s') -> bind m k s = (Raise e, s').
Proof. unfold bind; intros ->; reflexivity. Qed.

Lemma try_ret_step {A} (m : M W A) h s a s' :
  m s = (Ret a, s') -> try_except m h s = (Ret a, s').
Proof. unfold try_except; intros ->; reflexivity. Qed.

Lemma try_raise_step {A} (m : M W A) h s e s' :
  m s = (Raise e, s') -> try_except m h s = h e s'.
Proof. unfold try_except; intros ->; reflexivity. Qed.

Lemma call_step {A} (ev : event) (op : W -> reply W A) s r w dt :
  op (world s) = (r, w, dt) ->
  call ev op s =
  (match r with inl e => Raise e | inr a => Ret a end,
   mk_st w (clock s + dt)%N (self s) (logs s) (trace s ++ [ev])).
Proof. unfold call; intros ->; simpl; destruct r; reflexivity. Qed.

Lemma extends_refl p (s : st W) : extends p s s.
Proof.
  split; [lia|]. split; [exists [] | exists []]; rewrite app_nil_r; auto.
Qed.

Lemma extends_trans p (s1 s2 s3 : st W) :
  extends p s1 s2 -> extends p s2 s3 -> extends p s1 s3.
Proof.
  intros [L1 [(e1 & T1 & F1) (l1 & G1)]] [L2 [(e2 & T2 & F2) (l2 & G2)]].
  split; [lia|]. split.
  - exists (e1 ++ e2)%list. rewrite T2, T1, app_assoc, forallb_app, F1, F2. auto.
  - exists (l1 ++ l2)%list. rewrite G2, G1, app_assoc. reflexivity.
Qed.

Lemma extends_weaken (p q : event -> bool) (s s' : st W) :
  (forall ev, p ev = true -> q ev = true) -> extends p s s' -> extends q s s'.
Proof.
  intros Hpq [L [(evs & T & F) G]]. split; [exact L|]. split; [|exact G].
  exists evs. split; [exact T|]. rewrite forallb_forall in *. auto.
Qed.

(** a step that appends to the trace and to the log *)
Lemma extends_step p (s : st W) w c o evs entries :
  (clock s <= c)%N -> forallb p evs = true ->
  extends p s (mk_st w c o (logs s ++ entries) (trace s ++ evs)).
Proof. intros L F. split; [exact L|]. split; cbn [trace logs]; eauto. Qed.

Lemma safe_weaken {A} (p q : event -> bool) (m : M W A) :
  (forall ev, p ev = true -> q ev = true) -> safe p m -> safe q m.
Proof. intros Hpq H s. destruct (H s). split; [assumption|]. eapply extends_weaken; eauto. Qed.

Section Frame.
Variable p : event -> bool.

Lemma safe_ret {A} (a : A) : safe (W:=W) p (ret a).
Proof. intros s. split; [discriminate | apply extends_refl]. Qed.

Lemma safe_raise {A} (e : exn) : safe (W:=W) (A:=A) p (raise e).
Proof. intros s. split; [discriminate | apply extends_refl]. Qed.

Lemma safe_at_bind {A B} (m : M W A) (k : A -> M W B) s :
  safe_at p m s ->
  (forall a s', m s = (Ret a, s') -> safe_at p (k a) s') ->
  safe_at p (bind m k) s.
Proof.
  unfold safe_at, bind. intros [Hf He] Hk.
  destruct (m s) as [[a|e| |?] s'] eqn:E; simpl in *.
  - destruct (Hk a s' eq_refl) as [Hf' He']. split; [assumption|].
    eapply extends_trans; eauto.
  - split; [discriminate | assumption].
  - congruence.
  - split; [discriminate | assumption].
Qed.

Lemma safe_bind {A B} (m : M W A) (k : A -> M W B) :
  safe p m -> (forall a, safe p (k a)) -> safe p (bind m k).
Proof. intros Hm Hk s. apply safe_at_bind; [apply Hm | intros; apply Hk]. Qed.

Lemma safe_try_except {A} (m : M W A) h :
  safe p m -> (forall e, safe p (h e)) -> safe p (try_except m h).
Proof.
  intros Hm Hh s. unfold safe_at, try_except. destruct (Hm s) as [Hf He].
  destruct (m s) as [[a|e| |?] s'] eqn:E; simpl in *.
  - split; [discriminate | assumption].
  - destruct (Hh e s') as [Hf' He']. split; [assumption|]. eapply extends_trans; eauto.
  - congruence.
  - split; [discriminate | assumption].
Qed.

Lemma safe_try_except_class {A} c (m h : M W A) :
  safe p m -> safe p h -> safe p (try_except_class c m h).
Proof.
  intros Hm Hh. apply safe_try_except; [assumption|]. intros e.
  destruct (is_class c e); [assumption | apply safe_raise].
Qed.

Lemma safe_try_finally {A} (m : M W A) f :
  safe p m -> safe p f -> safe p (try_finally m f).
Proof.
  intros Hm Hf s. unfold safe_at, try_finally. destruct (Hm s) as [Hn He].
  destruct (m s) as [[a|e| |?] s'] eqn:E; simpl in *; try congruence;
    destruct (Hf s') as [Hn' He']; destruct (f s') as [[[]|e'| |?] s''] eqn:E'; simpl in *;
    try congruence; (split; [discriminate | eapply extends_trans; eauto]).
Qed.

Lemma safe_call {A} (ev : event) (op : W -> reply W A) :
  p ev = true -> safe p (call ev op).
Proof.
  intros Hev s. unfold safe_at, call. simpl.
  destruct (fst (fst (op (world s)))); simpl;
    (split; [discriminate|]; rewrite <- (app_nil_r (logs s));
     apply extends_step; [lia | simpl; rewrite Hev; reflexivity]).
Qed.

Lemma safe_call_out {A} (ev : event) (op : W -> answer A * W * N) :
  p ev = true -> safe p (call_out ev op).
Proof.
  intros Hev s. unfold safe_at, call_out. simpl.
  destruct (fst (fst (op (world s)))); simpl;
    (split; [discriminate|]; rewrite <- (app_nil_r (logs s));
     apply extends_step; [lia | simpl; rewrite Hev; reflexivity]).
Qed.

Lemma safe_observe {A} (f : W -> A) : safe p (observe f).
Proof. intros s. split; [discriminate | apply extends_refl]. Qed.

Lemma safe_sleep (ms : N) : safe (W:=W) p (sleep ms).
Proof.
  intros s. split; [discriminate|]. unfold sleep. cbn [snd].
  rewrite <- (app_nil_r (logs s)), <- (app_nil_r (trace s)) at 1.
  apply extends_step; [lia | reflexivity].
Qed.

Lemma safe_time_time : safe (W:=W) p time_time.
Proof. intros s. split; [discriminate | apply extends_refl]. Qed.

Lemma safe_get_self : safe (W:=W) p get_self.
Proof. intros s. split; [discriminate | apply extends_refl]. Qed.

Lemma safe_set_self o : safe (W:=W) p (set_self o).
Proof.
  intros s. split; [discriminate|]. unfold set_self. cbn [snd].
  rewrite <- (app_nil_r (logs s)), <- (app_nil_r (trace s)) at 1.
  apply extends_step; [lia | reflexivity].
Qed.

Lemma safe_log level message : safe (W:=W) p (_log level message).
Proof.
  intros s. split; [discriminate|]. unfold _log. simpl.
  destruct (log_callback (self s)); [|apply extends_refl].
  rewrite <- (app_nil_r (trace s)) at 1. apply extends_step; [lia | reflexivity].
Qed.

Lemma safe_py_index {A} (l : list A) i : safe (W:=W) p (py_index l i).
Proof. unfold py_index. destruct (nth_error l i); [apply safe_ret | apply safe_raise]. Qed.

End Frame.

(** what [m] returns, whatever it is run on *)
Lemma returns_ret {A} (q : A -> Prop) (a : A) : q a -> returns (W:=W) q (ret a).
Proof. intros H s a' s' E. inversion E; subst; assumption. Qed.

Lemma returns_raise {A} (q : A -> Prop) e : returns (W:=W) q (raise e).
Proof. intros s a' s' E. discriminate. Qed.

Lemma returns_bind {A B} (q : B -> Prop) (m : M W A) (k : A -> M W B) :
  (forall a, returns q (k a)) -> returns q (bind m k).
Proof.
  intros Hk s b s'. unfold bind. destruct (m s) as [[a|e| |?] s1]; try discriminate.
  apply Hk.
Qed.

Lemma returns_try_except {A} (q : A -> Prop) (m : M W A) h :
  returns q m -> (forall e, returns q (h e)) -> returns q (try_except m h).
Proof.
  intros Hm Hh s a s'. unfold try_except. destruct (m s) as [[a1|e| |?] s1] eqn:E.
  - intros H; inversion H; subst. eapply Hm; eauto.
  - apply Hh.
  - discriminate.
  - discriminate.
Qed.

Lemma returns_try_finally {A} (q : A -> Prop) (m : M W A) f :
  returns q m -> returns q (try_finally m f).
Proof.
  intros Hm s a s'. unfold try_finally. destruct (m s) as [[a1|e| |?] s1] eqn:E; try discriminate;
    destruct (f s1) as [[[]|e'| |?] s2]; try discriminate.
  intros H; inversion H; subst. eapply Hm; eauto.
Qed.

End Runs.

Create HintDb safe_db.

#[export] Hint Unfold get current_url find_element find_elements execute_script wait_until
  active_element get_cookies save_screenshot refresh quit click clear send_keys text
  get_attribute is_displayed tag_name : flow_ops.

Ltac safe_leaf :=
  first
    [ apply safe_ret
    | apply safe_raise
    | apply safe_sleep
    | apply safe_time_time
    | apply safe_get_self
    | apply safe_set_self
    | apply safe_log
    | apply safe_observe
    | apply safe_py_index
    | apply safe_call; solve [ reflexivity | auto with safe_db ]
    | apply safe_call_out; solve [ reflexivity | auto with safe_db ]
    | solve [ auto with safe_db ] ].

Ltac safe_step :=
  lazymatch goal with
  | |- safe _ (bind _ _) => apply safe_bind; [ | intro ]
  | |- safe _ (try_except_class _ _ _) => apply safe_try_except_class
  | |- safe _ (try_except _ _) => apply safe_try_except; [ | intro ]
  | |- safe _ (try_finally _ _) => apply safe_try_finally
  | |- safe _ (if ?b then _ else _) => destruct b
  | |- safe _ (match ?x with _ => _ end) => destruct x
  | |- safe _ (let _ := _ in _) => cbv zeta
  | |- _ => safe_leaf
  end.

Ltac safe_tac := autounfold with flow_ops; repeat safe_step.

Section Safety.
Context {W : Type} {P : Platform W}.

(** The operations of the screenshot helper are diagnostic ones. *)
Lemma safe_save_screenshot_diag name : safe is_diagnostic (_save_screenshot name).
Proof. unfold _save_screenshot. safe_tac. Qed.

(** The extractor navigates, reads the URL and reads the cookies. *)
Lemma safe_datetime_now p : safe p datetime_now.
Proof. intros s. split; [discriminate | apply extends_refl]. Qed.

Lemma safe_extract_config_only email : safe is_extraction (_extract_config email).
Proof. unfold _extract_config. pose proof (safe_datetime_now is_extraction). safe_tac. Qed.

Section Browsing.
Variable p : event -> bool.
Hypothesis Hp : forall ev, is_poll ev = false -> is_refresh ev = false -> p ev = true.

Local Hint Extern 1 (p _ = true) => (apply Hp; reflexivity) : safe_db.
Local Hint Resolve safe_datetime_now : safe_db.

Lemma safe_save_screenshot name : safe p (_save_screenshot name).
Proof.
  apply (safe_weaken is_diagnostic); [|apply safe_save_screenshot_diag].
  intros [] H; try discriminate; apply Hp; reflexivity.
Qed.

Lemma safe_extract_config email : safe p (_extract_config email).
Proof.
  apply (safe_weaken is_extraction); [|apply safe_extract_config_only].
  intros [] H; try discriminate; apply Hp; reflexivity.
Qed.

Local Hint Resolve safe_save_screenshot safe_extract_config : safe_db.

Lemma safe_type_keys el keys delay : safe p (type_keys el keys delay).
Proof. induction keys; simpl; safe_tac. Qed.

Lemma safe_type_chars el txt delay : safe p (type_chars el txt delay).
Proof. apply safe_type_keys. Qed.
Local Hint Resolve safe_type_chars : safe_db.

Lemma safe_cleanup : safe p _cleanup.
Proof. unfold _cleanup. safe_tac. Qed.

Lemma safe_log_probes paths : safe p (log_probes paths).
Proof. induction paths; simpl; safe_tac. Qed.
Local Hint Resolve safe_log_probes : safe_db.

Lemma safe_create_driver : safe p _create_driver.
Proof.
  unfold _create_driver, log_chrome_discovery, set_driver, set_user_data_dir.
  generalize fixed_candidates; intro candidates. safe_tac.
Qed.

Lemma safe_wait_for_cid n : safe p (_wait_for_cid n).
Proof. induction n; simpl; safe_tac. Qed.

Lemma safe_wait_for_business_params n : safe p (_wait_for_business_params n).
Proof. induction n; simpl; safe_tac. Qed.

Lemma safe_handle_agreement_page : safe p _handle_agreement_page.
Proof. unfold _handle_agreement_page. safe_tac. Qed.

Lemma safe_scan_username_selectors sels cur : safe p (scan_username_selectors sels cur).
Proof. revert cur; induction sels; intros cur; simpl; safe_tac. Qed.
Local Hint Resolve safe_scan_username_selectors : safe_db.

Lemma safe_probe_username_input n cur : safe p (probe_username_input n cur).
Proof. revert cur; induction n; intros cur; simpl; safe_tac. Qed.
Local Hint Resolve safe_probe_username_input : safe_db.

Lemma safe_handle_username_setup : safe p _handle_username_setup.
Proof. unfold _handle_username_setup. safe_tac. Qed.

Lemma safe_element_text el : safe p (_element_text el).
Proof. unfold _element_text. safe_tac. Qed.
Local Hint Resolve safe_element_text : safe_db.

Lemma safe_find_first_selector sels : safe p (find_first_selector sels).
Proof. induction sels; simpl; safe_tac. Qed.
Local Hint Resolve safe_find_first_selector : safe_db.

Lemma safe_has_captcha : safe p _has_captcha.
Proof. unfold _has_captcha. safe_tac. Qed.

Lemma safe_button_like_elements : safe p button_like_elements.
Proof. unfold button_like_elements. safe_tac. Qed.

Lemma safe_click_first_candidate els : safe p (click_first_candidate els).
Proof. induction els; simpl; safe_tac. Qed.

Lemma safe_sample_buttons pool : safe p (sample_buttons pool).
Proof. induction pool; simpl; safe_tac. Qed.
Local Hint Resolve safe_has_captcha safe_button_like_elements safe_click_first_candidate
  safe_sample_buttons : safe_db.

Lemma safe_log_candidate_buttons : safe p log_candidate_buttons.
Proof. unfold log_candidate_buttons. safe_tac. Qed.

Lemma safe_send_code_attempt : safe p send_code_attempt.
Proof. unfold send_code_attempt, send_code_find_code_input. safe_tac. Qed.

End Browsing.
End Safety.

Section Loops.
Context {W : Type} {P : Platform W}.

Lemma bind_inv {A B} (m : M W A) (k : A -> M W B) s b s' :
  bind m k s = (Ret b, s') -> exists a s1, m s = (Ret a, s1) /\ k a s1 = (Ret b, s').
Proof. unfold bind. destruct (m s) as [[a|e| |?] s1]; try discriminate. eauto. Qed.

Lemma safe_clock {A} p (m : M W A) s :
  safe p m -> (clock s <= clock (snd (m s)))%N.
Proof. intros H. destruct (H s) as [_ [L _]]. exact L. Qed.

Lemma run_clock {A} p (m : M W A) s r s' :
  safe p m -> m s = (r, s') -> (clock s <= clock s')%N.
Proof. intros H E. pose proof (safe_clock p m s H) as L. rewrite E in L. exact L. Qed.

Variable p : event -> bool.
Hypothesis Hp : forall ev, is_poll ev = false -> is_refresh ev = false -> p ev = true.

(** A pass of the send-code loop that asks for another pass has slept half a second. *)
Lemma send_code_attempt_pause s s' :
  send_code_attempt s = (Ret None, s') -> (clock s + 500 <= clock s')%N.
Proof.
  unfold send_code_attempt. intros H.
  apply bind_inv in H as (captcha & s1 & E1 & H).
  apply (run_clock p) in E1; [|apply safe_has_captcha; exact Hp].
  destruct captcha.
  { apply bind_inv in H as (? & ? & _ & H). inversion H. }
  apply bind_inv in H as (ci & s2 & E2 & H).
  apply (run_clock p) in E2; [|apply safe_find_first_selector; exact Hp].
  destruct ci; [inversion H|].
  apply bind_inv in H as (direct & s3 & E3 & H).
  apply (run_clock p) in E3.
  2:{ pose proof Hp. safe_tac; apply Hp; reflexivity. }
  destruct direct; [inversion H|].
  apply bind_inv in H as (cands & s4 & E4 & H).
  apply (run_clock p) in E4; [|apply safe_button_like_elements; exact Hp].
  apply bind_inv in H as (clicked & s5 & E5 & H).
  apply (run_clock p) in E5; [|apply safe_click_first_candidate; exact Hp].
  destruct clicked; [inversion H|].
  unfold bind, sleep, ret in H. inversion H; subst; simpl. lia.
Qed.

Lemma send_code_loop_unfold fuel start T :
  send_code_loop fuel start T =
  (now <- time_time;;
   if (now - start <? T)%N
   then match fuel with
        | O => fun s => (OutOfFuel, s)
        | S k =>
            r <- send_code_attempt;;
            match r with
            | Some b => ret (Some b)
            | None => send_code_loop k start T
            end
        end
   else ret None).
Proof. destruct fuel; reflexivity. Qed.

Lemma code_input_loop_unfold fuel deadline :
  code_input_loop fuel deadline =
  (now <- time_time;;
   if (now <? deadline)%N
   then match fuel with
        | O => fun s => (OutOfFuel, s)
        | S k =>
            found <- find_first_selector code_input_selectors;;
            match found with
            | Some el => ret (Some el)
            | None => sleep 300;; code_input_loop k deadline
            end
        end
   else ret None).
Proof. destruct fuel; reflexivity. Qed.

Lemma safe_send_code_loop fuel start T s :
  (start + T <= clock s + 500 * N.of_nat fuel)%N ->
  safe_at p (send_code_loop fuel start T) s.
Proof.
  revert s. induction fuel as [|k IH]; intros s L; rewrite send_code_loop_unfold;
    (apply safe_at_bind; [apply safe_time_time|]); intros now s1 E; inversion E; subst;
    destruct (N.ltb_spec (clock s1 - start) T).
  - lia.
  - apply safe_ret.
  - apply safe_at_bind; [apply safe_send_code_attempt; exact Hp|].
    intros [b|] s2 E2; [apply safe_ret|].
    apply IH. apply send_code_attempt_pause in E2. lia.
  - apply safe_ret.
Qed.

Lemma safe_click_send_code_button fuel :
  50 <= fuel -> safe p (_click_send_code_button fuel).
Proof.
  intros Hf s. unfold _click_send_code_button, send_code_find_code_input.
  apply safe_at_bind; [apply safe_sleep|]. intros _ s1 _.
  apply safe_at_bind; [apply safe_find_first_selector; exact Hp|]. intros [el|] s2 _.
  { apply safe_ret. }
  apply safe_at_bind; [apply safe_time_time|]. intros start s3 E; inversion E; subst.
  apply safe_at_bind; [apply safe_send_code_loop; lia|]. intros [b|] s4 _.
  - apply safe_ret.
  - apply safe_bind; [apply safe_log_candidate_buttons; exact Hp | intros; apply safe_ret].
Qed.

Lemma safe_code_input_loop fuel deadline s :
  (deadline <= clock s + 300 * N.of_nat fuel)%N ->
  safe_at p (code_input_loop fuel deadline) s.
Proof.
  revert s. induction fuel as [|k IH]; intros s L; rewrite code_input_loop_unfold;
    (apply safe_at_bind; [apply safe_time_time|]); intros now s1 E; inversion E; subst;
    destruct (N.ltb_spec (clock s1) deadline).
  - lia.
  - apply safe_ret.
  - apply safe_at_bind; [apply safe_find_first_selector; exact Hp|].
    intros [el|] s2 E2; [apply safe_ret|].
    apply (run_clock p) in E2; [|apply safe_find_first_selector; exact Hp].
    apply safe_at_bind; [apply safe_sleep|]. intros [] s3 E3.
    unfold sleep in E3. injection E3 as E3. subst s3. apply IH. cbn [clock]. lia.
  - apply safe_ret.
Qed.

Lemma safe_wait_for_code_input fuel :
  100 <= fuel -> safe p (_wait_for_code_input fuel 30).
Proof.
  intros Hf. unfold _wait_for_code_input. apply safe_try_except_class; [|apply safe_ret].
  intros s. apply safe_at_bind; [apply safe_time_time|]. intros now s1 E; inversion E; subst.
  apply safe_code_input_loop. lia.
Qed.

End Loops.

Lemma shaped_failure error : shaped (failure error).
Proof. right. exists error. reflexivity. Qed.

Lemma shaped_success email csesidx config_id ses host expires_at :
  shaped (success (bundle email csesidx config_id ses host expires_at)).
Proof. left. eexists. split; reflexivity. Qed.

Ltac shape_leaf :=
  first [ exact I
        | apply shaped_failure
        | apply (shaped_success _ _ _ _ _ _)
        | left; eexists; split; reflexivity ].

Ltac ret_step :=
  lazymatch goal with
  | |- returns _ (bind _ _) => apply returns_bind; intro
  | |- returns _ (try_except _ _) => apply returns_try_except; [ | intro ]
  | |- returns _ (try_finally _ _) => apply returns_try_finally
  | |- returns _ (if ?b then _ else _) => destruct b
  | |- returns _ (match ?x with _ => _ end) => destruct x
  | |- returns _ (ret _) => apply returns_ret; simpl; shape_leaf
  | |- returns _ (raise _) => apply returns_raise
  | |- _ => solve [ auto ]
  end.

Ltac ret_tac := repeat ret_step.

Section FlowSafety.
Context {W : Type} {P : Platform W}.

Section AfterCode.
Variable p : event -> bool.
Hypothesis Hq : forall ev, is_poll ev = false -> p ev = true.

Lemma poll_free_ok : forall ev, is_poll ev = false -> is_refresh ev = false -> p ev = true.
Proof. intros ev H _. apply Hq, H. Qed.

Local Hint Extern 1 (p _ = true) => (apply Hq; reflexivity) : safe_db.
Local Hint Extern 1 (safe p _) =>
  first [ apply safe_save_screenshot | apply safe_extract_config | apply safe_type_chars
        | apply safe_wait_for_business_params | apply safe_handle_agreement_page
        | apply safe_handle_username_setup | apply safe_datetime_now ]; exact poll_free_ok : safe_db.

Lemma safe_flow_extract email : safe p (flow_extract email).
Proof. unfold flow_extract. safe_tac. Qed.
Local Hint Resolve safe_flow_extract : safe_db.

Lemma safe_flow_await_business_params email : safe p (flow_await_business_params email).
Proof. unfold flow_await_business_params. safe_tac. Qed.
Local Hint Resolve safe_flow_await_business_params : safe_db.

Lemma safe_flow_after_verify email : safe p (flow_after_verify email).
Proof. unfold flow_after_verify. safe_tac. Qed.
Local Hint Resolve safe_flow_after_verify : safe_db.

Lemma safe_click_first_verify buttons : safe p (click_first_verify buttons).
Proof. induction buttons; simpl; safe_tac. Qed.
Local Hint Resolve safe_click_first_verify : safe_db.

Lemma safe_click_verify : safe p click_verify.
Proof. unfold click_verify. safe_tac. Qed.
Local Hint Resolve safe_click_verify : safe_db.

Lemma safe_flow_click_verify email : safe p (flow_click_verify email).
Proof. unfold flow_click_verify. safe_tac. Qed.
Local Hint Resolve safe_flow_click_verify : safe_db.

Lemma safe_enter_code code : safe p (enter_code code).
Proof. unfold enter_code. safe_tac. Qed.
Local Hint Resolve safe_enter_code : safe_db.

Lemma safe_flow_enter_code email code : safe p (flow_enter_code email code).
Proof. unfold flow_enter_code. safe_tac. Qed.

Lemma safe_code_timeout : safe p code_timeout.
Proof. unfold code_timeout. safe_tac. Qed.

Lemma safe_click_continue : safe p click_continue.
Proof. unfold click_continue. safe_tac. Qed.

Lemma safe_enter_email email : safe p (enter_email email).
Proof. unfold enter_email. safe_tac. Qed.

End AfterCode.

Lemma any_event_ok : forall ev, is_poll ev = false -> any_event ev = true.
Proof. reflexivity. Qed.

Lemma any_event_ok' : forall ev, is_poll ev = false -> is_refresh ev = false -> any_event ev = true.
Proof. reflexivity. Qed.

Section WholeFlow.
Variable fuel : nat.
Hypothesis Hfuel : 100 <= fuel.
Variable email : string.
Variable mail_client : MailClient W.

Local Hint Extern 1 (any_event _ = true) => reflexivity : safe_db.
Local Hint Extern 1 (safe any_event _) =>
  first [ apply safe_flow_enter_code | apply safe_code_timeout | apply safe_click_continue
        | apply safe_enter_email ]; exact any_event_ok : safe_db.
Local Hint Extern 1 (safe any_event _) =>
  first [ apply safe_save_screenshot | apply safe_extract_config | apply safe_datetime_now
        | apply safe_create_driver | apply safe_cleanup ]; exact any_event_ok' : safe_db.

Lemma safe_flow_retrieve_code send_time :
  safe any_event (flow_retrieve_code email mail_client send_time).
Proof. unfold flow_retrieve_code. safe_tac. Qed.
Local Hint Resolve safe_flow_retrieve_code : safe_db.

Lemma safe_flow_await_code_input send_time :
  safe any_event (flow_await_code_input fuel email mail_client send_time).
Proof.
  unfold flow_await_code_input.
  apply safe_bind; [apply safe_wait_for_code_input; [exact any_event_ok' | exact Hfuel]|].
  intro. safe_tac.
Qed.
Local Hint Resolve safe_flow_await_code_input : safe_db.

Lemma safe_flow_request_code : safe any_event (flow_request_code fuel email mail_client).
Proof.
  unfold flow_request_code.
  apply safe_bind; [safe_tac|]. intro.
  apply safe_bind; [safe_tac|]. intro.
  apply safe_bind; [apply safe_click_send_code_button; [exact any_event_ok' | lia]|].
  intro. safe_tac.
Qed.
Local Hint Resolve safe_flow_request_code : safe_db.

Lemma safe_flow_click_continue : safe any_event (flow_click_continue fuel email mail_client).
Proof. unfold flow_click_continue. safe_tac. Qed.
Local Hint Resolve safe_flow_click_continue : safe_db.

Lemma safe_flow_enter_email : safe any_event (flow_enter_email fuel email mail_client).
Proof. unfold flow_enter_email. safe_tac. Qed.
Local Hint Resolve safe_flow_enter_email : safe_db.

Lemma safe_run_flow : safe any_event (_run_flow fuel email mail_client).
Proof. unfold _run_flow. safe_tac. Qed.
Local Hint Resolve safe_run_flow : safe_db.

Lemma safe_login_and_extract : safe any_event (login_and_extract fuel email mail_client).
Proof. unfold login_and_extract. safe_tac. Qed.

End WholeFlow.

(** *** The shape of what the flow returns *)

Lemma returns_extract_config email : returns shaped (_extract_config email).
Proof. unfold _extract_config. ret_tac. Qed.
Local Hint Resolve returns_extract_config : core.

Lemma returns_flow_await_business_params email :
  returns shaped (flow_await_business_params email).
Proof. unfold flow_await_business_params, flow_extract. ret_tac. Qed.
Local Hint Resolve returns_flow_await_business_params : core.

Lemma returns_bind_with {A B} (q' : A -> Prop) (q : B -> Prop) (m : M W A) (k : A -> M W B) :
  returns q' m -> (forall a, q' a -> returns q (k a)) -> returns q (bind m k).
Proof.
  intros Hm Hk s b s'. unfold bind. destruct (m s) as [[a|e| |?] s1] eqn:E; try discriminate.
  apply Hk. eapply Hm; eauto.
Qed.

Lemma returns_enter_code code : returns shaped_exit (enter_code code).
Proof. unfold enter_code. ret_tac. Qed.

Lemma returns_flow_click_verify email : returns shaped (flow_click_verify email).
Proof. unfold flow_click_verify, flow_after_verify. ret_tac. Qed.
Local Hint Resolve returns_flow_click_verify : core.

Lemma returns_flow_enter_code email code : returns shaped (flow_enter_code email code).
Proof.
  unfold flow_enter_code. apply (returns_bind_with shaped_exit); [apply returns_enter_code|].
  intros [d|] H; ret_tac. apply returns_ret, H.
Qed.
Local Hint Resolve returns_flow_enter_code : core.

Lemma returns_flow_request_code fuel email mc :
  returns shaped (flow_request_code fuel email mc).
Proof.
  unfold flow_request_code, flow_await_code_input, flow_retrieve_code, code_timeout. ret_tac.
Qed.
Local Hint Resolve returns_flow_request_code : core.

Lemma returns_click_continue : returns shaped_exit click_continue.
Proof. unfold click_continue. ret_tac. Qed.

Lemma returns_enter_email email : returns shaped_exit (enter_email email).
Proof. unfold enter_email. ret_tac. Qed.

Lemma returns_run_flow fuel email mc : returns shaped (_run_flow fuel email mc).
Proof.
  unfold _run_flow. ret_tac.
  unfold flow_enter_email. apply (returns_bind_with shaped_exit); [apply returns_enter_email|].
  intros [d|] H; [apply returns_ret, H|].
  unfold flow_click_continue. apply (returns_bind_with shaped_exit); [apply returns_click_continue|].
  intros [d|] H'; [apply returns_ret, H' | auto].
Qed.

Lemma returns_login_and_extract fuel email mc :
  returns shaped (login_and_extract fuel email mc).
Proof.
  unfold login_and_extract. apply returns_try_finally, returns_try_except.
  - apply returns_bind. intro. apply returns_run_flow.
  - intro. ret_tac.
Qed.

(** *** What cannot raise *)

Lemma quiet_ret {A} (a : A) : quiet (W:=W) (ret a).
Proof. intros s e. discriminate. Qed.

Lemma quiet_bind {A B} (m : M W A) (k : A -> M W B) :
  quiet m -> (forall a, quiet (k a)) -> quiet (bind m k).
Proof.
  intros Hm Hk s e. unfold bind. specialize (Hm s). destruct (m s) as [[a|e'| |?] s1]; simpl in *.
  - apply Hk.
  - exfalso. eapply Hm; eauto.
  - discriminate.
  - discriminate.
Qed.

Lemma quiet_try_except {A} (m : M W A) h : (forall e, quiet (h e)) -> quiet (try_except m h).
Proof.
  intros Hh s e. unfold try_except. destruct (m s) as [[a|e'| |?] s1]; simpl; try discriminate.
  apply Hh.
Qed.

Lemma quiet_try_finally {A} (m : M W A) f : quiet m -> quiet f -> quiet (try_finally m f).
Proof.
  intros Hm Hf s e. unfold try_finally. specialize (Hm s).
  destruct (m s) as [[a|e'| |?] s1]; simpl in *; try discriminate;
    try (exfalso; eapply Hm; eauto; fail);
    specialize (Hf s1); destruct (f s1) as [[[]|e''| |?] s2]; simpl in *; try discriminate;
    exfalso; eapply Hf; eauto.
Qed.

Lemma quiet_log level message : quiet (W:=W) (_log level message).
Proof. intros s e. discriminate. Qed.

Lemma quiet_cleanup : quiet _cleanup.
Proof.
  unfold _cleanup. apply quiet_bind; [intros s e; discriminate|]. intros o.
  apply quiet_bind.
  - destruct (driver o); [apply quiet_try_except; intro|]; apply quiet_ret.
  - intros _. destruct (user_data_dir o) as [d|]; [|apply quiet_ret].
    destruct (d =? ""); [apply quiet_ret|]. apply quiet_try_except. intro. apply quiet_ret.
Qed.

Lemma quiet_login_and_extract fuel email mc : quiet (login_and_extract fuel email mc).
Proof.
  unfold login_and_extract. apply quiet_try_finally; [|apply quiet_cleanup].
  apply quiet_try_except. intro. apply quiet_bind; [apply quiet_log | intro; apply quiet_ret].
Qed.

End FlowSafety.

(** *** What passes through: exceptions outside [Exception] *)

Create HintDb pass_db.

Section Passing.
Context {W : Type}.
Variable q : signal -> Prop.

Lemma passes_ret {A} (a : A) : passes (W:=W) q (ret a).
Proof. intros s b. discriminate. Qed.

Lemma passes_raise {A} e : passes (W:=W) (A:=A) q (raise e).
Proof. intros s b. discriminate. Qed.

Lemma passes_sleep ms : passes (W:=W) q (sleep ms).
Proof. intros s b. discriminate. Qed.

Lemma passes_time_time : passes (W:=W) q time_time.
Proof. intros s b. discriminate. Qed.

Lemma passes_get_self : passes (W:=W) q get_self.
Proof. intros s b. discriminate. Qed.

Lemma passes_set_self o : passes (W:=W) q (set_self o).
Proof. intros s b. discriminate. Qed.

Lemma passes_log level message : passes (W:=W) q (_log level message).
Proof. intros s b. discriminate. Qed.

Lemma passes_observe {A} (f : W -> A) : passes q (observe f).
Proof. intros s b. discriminate. Qed.

Lemma passes_py_index {A} (l : list A) i : passes (W:=W) q (py_index l i).
Proof. intros s b. unfold py_index. destruct (nth_error l i); discriminate. Qed.

(** the browser and the operating system raise instances of [Exception] only *)
Lemma passes_call {A} ev (op : W -> reply W A) : passes q (call ev op).
Proof.
  intros s b. unfold call. destruct (op (world s)) as [[[e|a] w] dt]; discriminate.
Qed.

Lemma passes_bind {A B} (m : M W A) (k : A -> M W B) :
  passes q m -> (forall a, passes q (k a)) -> passes q (bind m k).
Proof.
  intros Hm Hk s b. unfold bind. specialize (Hm s).
  destruct (m s) as [[a|e| |b'] s1]; cbn [fst] in *; try discriminate.
  - apply Hk.
  - intros H; inversion H; subst. apply Hm. reflexivity.
Qed.

Lemma passes_try_except {A} (m : M W A) h :
  passes q m -> (forall e, passes q (h e)) -> passes q (try_except m h).
Proof.
  intros Hm Hh s b. unfold try_except. specialize (Hm s).
  destruct (m s) as [[a|e| |b'] s1]; cbn [fst] in *; try discriminate.
  - apply Hh.
  - intros H; inversion H; subst. apply Hm. reflexivity.
Qed.

Lemma passes_try_except_class {A} c (m h : M W A) :
  passes q m -> passes q h -> passes q (try_except_class c m h).
Proof.
  intros Hm Hh. apply passes_try_except; [exact Hm|].
  intros e. destruct (is_class c e); [exact Hh | apply passes_raise].
Qed.

Lemma passes_try_finally {A} (m : M W A) f :
  passes q m -> passes q f -> passes q (try_finally m f).
Proof.
  intros Hm Hf s b. unfold try_finally. specialize (Hm s).
  destruct (m s) as [[a|e| |b'] s1]; cbn [fst] in *; try discriminate;
    specialize (Hf s1); destruct (f s1) as [[[]|e'| |b''] s2]; cbn [fst] in *;
    try discriminate; intros H; inversion H; subst;
    first [ apply Hf; reflexivity | apply Hm; reflexivity ].
Qed.

End Passing.

Ltac pass_leaf :=
  first
    [ solve [ auto with pass_db ]
    | apply passes_ret
    | apply passes_raise
    | apply passes_sleep
    | apply passes_time_time
    | apply passes_get_self
    | apply passes_set_self
    | apply passes_log
    | apply passes_observe
    | apply passes_py_index
    | apply passes_call ].

Ltac pass_step :=
  lazymatch goal with
  | |- passes _ (bind _ _) => apply passes_bind; [ | intro ]
  | |- passes _ (try_except_class _ _ _) => apply passes_try_except_class
  | |- passes _ (try_except _ _) => apply passes_try_except; [ | intro ]
  | |- passes _ (try_finally _ _) => apply passes_try_finally
  | |- passes _ (if ?b then _ else _) => destruct b
  | |- passes _ (match ?x with _ => _ end) => destruct x
  | |- passes _ (let _ := _ in _) => cbv zeta
  | |- _ => pass_leaf
  end.

Ltac pass_tac := autounfold with flow_ops; repeat pass_step.

Section PassingFlow.
Context {W : Type} {P : Platform W}.
Variable q : signal -> Prop.

Lemma passes_datetime_now : passes q datetime_now.
Proof. intros s b. discriminate. Qed.
Local Hint Resolve passes_datetime_now : pass_db.

Lemma passes_save_screenshot name : passes q (_save_screenshot name).
Proof. unfold _save_screenshot. pass_tac. Qed.

Lemma passes_extract_config email : passes q (_extract_config email).
Proof. unfold _extract_config. pass_tac. Qed.
Local Hint Resolve passes_save_screenshot passes_extract_config : pass_db.

Lemma passes_type_keys el keys delay : passes q (type_keys el keys delay).
Proof. induction keys; simpl; pass_tac. Qed.

Lemma passes_type_chars el txt delay : passes q (type_chars el txt delay).
Proof. apply passes_type_keys. Qed.
Local Hint Resolve passes_type_chars : pass_db.

Lemma passes_wait_for_business_params n : passes q (_wait_for_business_params n).
Proof. induction n; simpl; pass_tac. Qed.

Lemma passes_handle_agreement_page : passes q _handle_agreement_page.
Proof. unfold _handle_agreement_page. pass_tac. Qed.

Lemma passes_scan_username_selectors sels cur : passes q (scan_username_selectors sels cur).
Proof. revert cur; induction sels; intros cur; simpl; pass_tac. Qed.
Local Hint Resolve passes_scan_username_selectors : pass_db.

Lemma passes_probe_username_input n cur : passes q (probe_username_input n cur).
Proof. revert cur; induction n; intros cur; simpl; pass_tac. Qed.
Local Hint Resolve passes_probe_username_input : pass_db.

Lemma passes_handle_username_setup : passes q _handle_username_setup.
Proof. unfold _handle_username_setup. pass_tac. Qed.

Lemma passes_element_text el : passes q (_element_text el).
Proof. unfold _element_text. pass_tac. Qed.
Local Hint Resolve passes_element_text : pass_db.

Lemma passes_find_first_selector sels : passes q (find_first_selector sels).
Proof. induction sels; simpl; pass_tac. Qed.
Local Hint Resolve passes_find_first_selector : pass_db.

Lemma passes_has_captcha : passes q _has_captcha.
Proof. unfold _has_captcha. pass_tac. Qed.

Lemma passes_button_like_elements : passes q button_like_elements.
Proof. unfold button_like_elements. pass_tac. Qed.

Lemma passes_click_first_candidate els : passes q (click_first_candidate els).
Proof. induction els; simpl; pass_tac. Qed.

Lemma passes_sample_buttons pool : passes q (sample_buttons pool).
Proof. induction pool; simpl; pass_tac. Qed.
Local Hint Resolve passes_has_captcha passes_button_like_elements passes_click_first_candidate
  passes_sample_buttons : pass_db.

Lemma passes_log_candidate_buttons : passes q log_candidate_buttons.
Proof. unfold log_candidate_buttons. pass_tac. Qed.

Lemma passes_send_code_attempt : passes q send_code_attempt.
Proof. unfold send_code_attempt, send_code_find_code_input. pass_tac. Qed.
Local Hint Resolve passes_log_candidate_buttons passes_send_code_attempt : pass_db.

Lemma passes_out_of_fuel {A} : passes (W:=W) (A:=A) q (fun s => (OutOfFuel, s)).
Proof. intros s b. discriminate. Qed.

Lemma passes_send_code_loop fuel start T : passes q (send_code_loop fuel start T).
Proof.
  induction fuel as [|k IH]; rewrite send_code_loop_unfold.
  - apply passes_bind; [apply passes_time_time|]. intros now.
    destruct (now - start <? T)%N; [apply passes_out_of_fuel | apply passes_ret].
  - apply passes_bind; [apply passes_time_time|]. intros now.
    destruct (now - start <? T)%N; [|apply passes_ret].
    apply passes_bind; [apply passes_send_code_attempt|]. intros [b|]; [apply passes_ret | exact IH].
Qed.
Local Hint Resolve passes_send_code_loop : pass_db.

Lemma passes_click_send_code_button fuel : passes q (_click_send_code_button fuel).
Proof. unfold _click_send_code_button, send_code_find_code_input. pass_tac. Qed.

Lemma passes_code_input_loop fuel deadline : passes q (code_input_loop fuel deadline).
Proof.
  induction fuel as [|k IH]; rewrite code_input_loop_unfold.
  - apply passes_bind; [apply passes_time_time|]. intros now.
    destruct (now <? deadline)%N; [apply passes_out_of_fuel | apply passes_ret].
  - apply passes_bind; [apply passes_time_time|]. intros now.
    destruct (now <? deadline)%N; [|apply passes_ret].
    apply passes_bind; [apply passes_find_first_selector|]. intros [el|]; [apply passes_ret|].
    apply passes_bind; [apply passes_sleep | intros _; exact IH].
Qed.
Local Hint Resolve passes_code_input_loop : pass_db.

Lemma passes_wait_for_code_input fuel t : passes q (_wait_for_code_input fuel t).
Proof. unfold _wait_for_code_input. pass_tac. Qed.
Local Hint Resolve passes_click_send_code_button passes_wait_for_code_input
  passes_wait_for_business_params passes_handle_agreement_page
  passes_handle_username_setup : pass_db.

Lemma passes_flow_extract email : passes q (flow_extract email).
Proof. unfold flow_extract. pass_tac. Qed.
Local Hint Resolve passes_flow_extract : pass_db.

Lemma passes_flow_await_business_params email : passes q (flow_await_business_params email).
Proof. unfold flow_await_business_params. pass_tac. Qed.
Local Hint Resolve passes_flow_await_business_params : pass_db.

Lemma passes_flow_after_verify email : passes q (flow_after_verify email).
Proof. unfold flow_after_verify. pass_tac. Qed.
Local Hint Resolve passes_flow_after_verify : pass_db.

Lemma passes_click_first_verify buttons : passes q (click_first_verify buttons).
Proof. induction buttons; simpl; pass_tac. Qed.
Local Hint Resolve passes_click_first_verify : pass_db.

Lemma passes_click_verify : passes q click_verify.
Proof. unfold click_verify. pass_tac. Qed.
Local Hint Resolve passes_click_verify : pass_db.

Lemma passes_flow_click_verify email : passes q (flow_click_verify email).
Proof. unfold flow_click_verify. pass_tac. Qed.
Local Hint Resolve passes_flow_click_verify : pass_db.

Lemma passes_enter_code code : passes q (enter_code code).
Proof. unfold enter_code. pass_tac. Qed.
Local Hint Resolve passes_enter_code : pass_db.

Lemma passes_flow_enter_code email code : passes q (flow_enter_code email code).
Proof. unfold flow_enter_code. pass_tac. Qed.

Lemma passes_code_timeout : passes q code_timeout.
Proof. unfold code_timeout. pass_tac. Qed.
Local Hint Resolve passes_flow_enter_code passes_code_timeout : pass_db.

Variable mc : MailClient W.
Hypothesis Hmc : forall b, signals mc b -> q b.

Lemma passes_flow_retrieve_code email send_time :
  passes q (flow_retrieve_code email mc send_time).
Proof.
  unfold flow_retrieve_code. apply passes_bind; [apply passes_log|]. intros _.
  apply passes_bind; [|intros [c|]; pass_tac].
  intros s b H. apply Hmc. exists send_time, (world s). unfold call_out in H. cbn [fst snd] in H.
  destruct (fst (fst (poll_for_code mc 40 4 send_time (world s)))); try discriminate.
  inversion H; subst. reflexivity.
Qed.
Local Hint Resolve passes_flow_retrieve_code : pass_db.

Lemma passes_flow_await_code_input fuel email send_time :
  passes q (flow_await_code_input fuel email mc send_time).
Proof. unfold flow_await_code_input. pass_tac. Qed.
Local Hint Resolve passes_flow_await_code_input : pass_db.

Lemma passes_flow_request_code fuel email : passes q (flow_request_code fuel email mc).
Proof. unfold flow_request_code. pass_tac. Qed.
Local Hint Resolve passes_flow_request_code : pass_db.

Lemma passes_click_continue : passes q click_continue.
Proof. unfold click_continue. pass_tac. Qed.
Local Hint Resolve passes_click_continue : pass_db.

Lemma passes_flow_click_continue fuel email : passes q (flow_click_continue fuel email mc).
Proof. unfold flow_click_continue. pass_tac. Qed.
Local Hint Resolve passes_flow_click_continue : pass_db.

Lemma passes_enter_email email : passes q (enter_email email).
Proof. unfold enter_email. pass_tac. Qed.
Local Hint Resolve passes_enter_email : pass_db.

Lemma passes_flow_enter_email fuel email : passes q (flow_enter_email fuel email mc).
Proof. unfold flow_enter_email. pass_tac. Qed.
Local Hint Resolve passes_flow_enter_email : pass_db.

Lemma passes_run_flow fuel email : passes q (_run_flow fuel email mc).
Proof. unfold _run_flow. pass_tac. Qed.

Lemma passes_cleanup : passes q _cleanup.
Proof. unfold _cleanup. pass_tac. Qed.

Lemma passes_log_probes paths : passes q (log_probes paths).
Proof. induction paths; simpl; pass_tac. Qed.
Local Hint Resolve passes_log_probes : pass_db.

Lemma passes_create_driver : passes q _create_driver.
Proof.
  unfold _create_driver, log_chrome_discovery, set_driver, set_user_data_dir.
  generalize fixed_candidates; intro candidates. pass_tac.
Qed.


Lemma passes_login_and_extract fuel email : passes q (login_and_extract fuel email mc).
Proof.
  unfold login_and_extract.
  pose proof passes_create_driver. pose proof (passes_run_flow fuel email).
  pose proof passes_cleanup. pass_tac.
Qed.

End PassingFlow.

Section Boundary.
Context {W : Type} {P : Platform W}.

(** [_cleanup] always returns *)
Lemma cleanup_returns (s : st W) : exists s', _cleanup s = (Ret tt, s').
Proof.
  destruct (_cleanup s) as [[[]|e| |b] s'] eqn:E.
  - eauto.
  - exfalso. apply (quiet_cleanup s e). rewrite E. reflexivity.
  - exfalso. destruct (safe_cleanup any_event any_event_ok' s) as [H _].
    apply H. rewrite E. reflexivity.
  - exfalso. apply (passes_cleanup (fun _ => False) s b). rewrite E. reflexivity.
Qed.

(** the [finally] clause hands on what the body gave *)
Lemma finally_cleanup {A} (m : M W A) s r s1 :
  m s = (r, s1) -> r <> OutOfFuel -> exists s2, try_finally m _cleanup s = (r, s2).
Proof.
  intros E Hr. unfold try_finally. rewrite E.
  destruct (cleanup_returns s1) as (s2 & ->).
  exists s2. destruct r; try reflexivity. contradiction.
Qed.

(** lines 49-54: what the [try] body gives and what the caller gets *)
Lemma login_boundary fuel email mc (s : st W) :
  (forall e s1,
      (_create_driver;; _run_flow fuel email mc) s = (Raise e, s1) ->
      fst (login_and_extract fuel email mc s) = Ret (failure (str_exn e))) /\
  (forall d s1,
      (_create_driver;; _run_flow fuel email mc) s = (Ret d, s1) ->
      fst (login_and_extract fuel email mc s) = Ret d) /\
  (forall b s1,
      (_create_driver;; _run_flow fuel email mc) s = (Interrupt b, s1) ->
      fst (login_and_extract fuel email mc s) = Interrupt b).
Proof.
  unfold login_and_extract. repeat split.
  - intros e s1 E.
    destruct (finally_cleanup
                (try_except (_create_driver;; _run_flow fuel email mc)
                   (fun exc => _log "error" ("automation error: " ++ str_exn exc);;
                               ret (failure (str_exn exc))))
                s (Ret (failure (str_exn e)))
                (snd (_log "error" ("automation error: " ++ str_exn e) s1)))
      as (s2 & ->); [|discriminate|reflexivity].
    unfold try_except. rewrite E. reflexivity.
  - intros d s1 E.
    destruct (finally_cleanup
                (try_except (_create_driver;; _run_flow fuel email mc)
                   (fun exc => _log "error" ("automation error: " ++ str_exn exc);;
                               ret (failure (str_exn exc))))
                s (Ret d) s1) as (s2 & ->); [|discriminate|reflexivity].
    unfold try_except. rewrite E. reflexivity.
  - intros b s1 E.
    destruct (finally_cleanup
                (try_except (_create_driver;; _run_flow fuel email mc)
                   (fun exc => _log "error" ("automation error: " ++ str_exn exc);;
                               ret (failure (str_exn exc))))
                s (Interrupt b) s1) as (s2 & ->); [|discriminate|reflexivity].
    unfold try_except. rewrite E. reflexivity.
Qed.

End Boundary.




Section Extraction.
Context {W : Type} {P : Platform W}.

Lemma bind_ret_eq {A B} (m : M W A) (k : A -> M W B) s a s1 r :
  m s = (Ret a, s1) -> k a s1 = r -> bind m k s = r.
Proof. unfold bind. intros -> <-. reflexivity. Qed.

Lemma call_ok {A} (ev : event) (op : W -> reply W A) s a w dt :
  op (world s) = (inr a, w, dt) ->
  call ev op s = (Ret a, mk_st w (clock s + dt)%N (self s) (logs s) (trace s ++ [ev])).
Proof. unfold call. intros ->. reflexivity. Qed.

Lemma call_out_ok {A} (ev : event) (op : W -> answer A * W * N) s a w dt :
  op (world s) = (Answer a, w, dt) ->
  call_out ev op s = (Ret a, mk_st w (clock s + dt)%N (self s) (logs s) (trace s ++ [ev])).
Proof. unfold call_out. intros ->. reflexivity. Qed.

Lemma call_raise {A} (ev : event) (op : W -> reply W A) s e w dt :
  op (world s) = (inl e, w, dt) ->
  call ev op s = (Raise e, mk_st w (clock s + dt)%N (self s) (logs s) (trace s ++ [ev])).
Proof. unfold call. intros ->. reflexivity. Qed.

Lemma py_index_ok {A} (l : list A) i a (s : st W) :
  nth_error l i = Some a -> py_index l i s = (Ret a, s).
Proof. unfold py_index. intros ->. reflexivity. Qed.

(** The segment after the marker, as the three [split]s cut it. *)
Lemma tenant_run url (s : st W) :
  PyStr.contains "cid/" url = true ->
  (after_cid <- py_index (PyStr.split "cid/" url) 1;;
   before_query <- py_index (PyStr.split "?" after_cid) 0;;
   py_index (PyStr.split "/" before_query) 0) s
  = (Ret (tenant_of url), s).
Proof.
  intros H. apply partition_contains in H. destruct H as (a & b & H).
  unfold tenant_of. rewrite H.
  eapply bind_ret_eq; [apply py_index_ok; eapply split_1; [discriminate | exact H]|].
  eapply bind_ret_eq; [apply py_index_ok; apply split_0; discriminate|].
  apply py_index_ok, split_0. discriminate.
Qed.

Lemma session_run url (s : st W) :
  (if PyStr.contains "csesidx=" url
   then after_idx <- py_index (PyStr.split "csesidx=" url) 1;;
        py_index (PyStr.split "&" after_idx) 0
   else ret "") s
  = (Ret (session_of url), s).
Proof.
  unfold session_of. destruct (PyStr.contains "csesidx=" url) eqn:H.
  - apply partition_contains in H. destruct H as (a & b & H). rewrite H.
    eapply bind_ret_eq; [apply py_index_ok; eapply split_1; [discriminate | exact H]|].
    apply py_index_ok, split_0. discriminate.
  - destruct (PyStr.partition "csesidx=" url) as [[a b]|] eqn:E; [|reflexivity].
    assert (PyStr.contains "csesidx=" url = true) by (apply partition_contains; eauto).
    congruence.
Qed.

(** What the extractor returns on a URL with the tenant marker, when the URL
    and the cookie jar can be read. *)
Lemma extract_config_run email (s : st W) url w1 t1 w2 t2 jar w3 t3 :
  drv_current_url (world s) = (inr url, w1, t1) ->
  drv_current_url w1 = (inr url, w2, t2) ->
  drv_get_cookies w2 = (inr jar, w3, t3) ->
  PyStr.contains "cid/" url = true ->
  _extract_config email s =
  (Ret (success (bundle email (session_of url) (tenant_of url)
                   (cookie_value "__Secure-C_SES" jar) (cookie_value "__Host-C_OSES" jar)
                   (expiry_text jar (local_time (clock s + t1 + t2 + t3))))),
   mk_st w3 (clock s + t1 + t2 + t3)%N (self s) (logs s)
         (trace s ++ [EvCurrentUrl; EvCurrentUrl; EvGetCookies])).
Proof.
  intros H1 H2 H3 Hcid. unfold _extract_config.
  apply try_ret_step.
  eapply bind_ret_eq; [apply call_ok; exact H1|].
  rewrite Hcid. cbn [negb].
  eapply bind_ret_eq; [reflexivity|].
  eapply bind_ret_eq; [apply call_ok; exact H2|].
  rewrite Hcid. cbn [negb].
  pose proof Hcid as Hc. apply partition_contains in Hc. destruct Hc as (a & b & Hpart).
  eapply bind_ret_eq; [apply py_index_ok; eapply split_1; [discriminate | exact Hpart]|].
  eapply bind_ret_eq; [apply py_index_ok, split_0; discriminate|].
  eapply bind_ret_eq; [apply py_index_ok, split_0; discriminate|].
  eapply bind_ret_eq; [apply session_run|].
  eapply bind_ret_eq; [apply call_ok; exact H3|].
  cbv zeta. cbn [world clock self logs trace].
  unfold tenant_of, expiry_text, cookie_value. rewrite Hpart.
  rewrite <- !app_assoc. cbn [app].
  destruct (find (cookie_named "__Secure-C_SES") jar) as [c|];
    [destruct (ck_expiry c) as [expiry|]|]; reflexivity.
Qed.

End Extraction.

(** ** C3 *)

(** C3 (as amended): on a URL [pre ++ "/cid/ACME123?csesidx=XYZ&other=1" ++ suf]
    in which the markers shown are the first [cid/] and the first [csesidx=],
    with both cookies in the jar and the first [__Secure-C_SES] cookie
    expiring at [E], where the local time of [E] minus 43200 seconds lies
    between the years 1000 and 9999, the extractor returns success with
    config_id "ACME123", csesidx "XYZ", both cookie values, and expires_at
    that local time. *)
Theorem C3_extract_first_markers
    (W : Type) (P : Platform W) (email : string) (s : st W)
    (pre suf : string) (w1 w2 w3 : W) (t1 t2 t3 : N)
    (jar : list cookie) (ses host : cookie) (E : Z) :
  first_after "cid/" (pre ++ "/") ->
  first_after "csesidx=" (pre ++ "/cid/ACME123?") ->
  drv_current_url (world s)
    = (inr (pre ++ "/cid/ACME123?csesidx=XYZ&other=1" ++ suf), w1, t1) ->
  drv_current_url w1
    = (inr (pre ++ "/cid/ACME123?csesidx=XYZ&other=1" ++ suf), w2, t2) ->
  drv_get_cookies w2 = (inr jar, w3, t3) ->
  find (cookie_named "__Secure-C_SES") jar = Some ses ->
  ck_expiry ses = Some E ->
  PyDate.in_range (fromtimestamp (E - 43200)) = true ->
  find (cookie_named "__Host-C_OSES") jar = Some host ->
  fst (_extract_config email s)
  = Ret (success (bundle email "XYZ" "ACME123"
                    (Some (ck_value ses)) (Some (ck_value host))
                    (PyDate.strftime (fromtimestamp (E - 43200))))).
Proof.
  intros Hcid Hidx H1 H2 H3 Hses HE _ Hhost.
  set (url := pre ++ "/cid/ACME123?csesidx=XYZ&other=1" ++ suf) in *.
  assert (Pc : PyStr.partition "cid/" url
               = Some (pre ++ "/", "ACME123?csesidx=XYZ&other=1" ++ suf)).
  { rewrite <- (partition_first "cid/" (pre ++ "/") ("ACME123?csesidx=XYZ&other=1" ++ suf));
      [|discriminate | exact Hcid].
    unfold url. rewrite app_assoc_str. reflexivity. }
  assert (Pi : PyStr.partition "csesidx=" url
               = Some (pre ++ "/cid/ACME123?", "XYZ&other=1" ++ suf)).
  { rewrite <- (partition_first "csesidx=" (pre ++ "/cid/ACME123?") ("XYZ&other=1" ++ suf));
      [|discriminate | exact Hidx].
    unfold url. rewrite app_assoc_str. reflexivity. }
  assert (Hc : PyStr.contains "cid/" url = true) by (apply partition_contains; eauto).
  rewrite (extract_config_run email s url w1 t1 w2 t2 jar w3 t3 H1 H2 H3 Hc).
  cbn [fst]. unfold tenant_of, session_of, expiry_text, cookie_value.
  rewrite Pc, Pi, Hses, Hhost, HE, tenant_segment, index_segment. reflexivity.
Qed.

Lemma C3_witness :
  PyDate.in_range (fromtimestamp (P:=Sim.platform) (1700100000 - 43200)) = true /\
  fst (_extract_config (P:=Sim.platform) "a@b.c"
         (Sim.start Sim.live
            (Sim.mk_browser (Sim.console [Sim.ses_cookie 1700100000; Sim.host_cookie]) [] None)))
  = Ret (success (bundle "a@b.c" "XYZ" "ACME123" (Some "ses-value") (Some "host-value")
                    (PyDate.strftime (fromtimestamp (P:=Sim.platform) (1700100000 - 43200))))).
Proof.
  split; [reflexivity|].
  exact (C3_extract_first_markers _ Sim.platform "a@b.c"
           (Sim.start Sim.live
              (Sim.mk_browser (Sim.console [Sim.ses_cookie 1700100000; Sim.host_cookie]) [] None))
           "https://business.gemini.google/home" "" _ _ _ 0%N 0%N 0%N
           [Sim.ses_cookie 1700100000; Sim.host_cookie]
           (Sim.ses_cookie 1700100000) Sim.host_cookie 1700100000%Z
           eq_refl eq_refl eq_refl eq_refl eq_refl eq_refl eq_refl eq_refl eq_refl).
Defined.

(** C3, as stated, fails: a URL that contains the pattern after an earlier
    [cid/] segment yields the earlier segment. *)
Lemma C3_counterexample :
  Sim.nested_url = "https://business.gemini.google/cid/OLD" ++ "/cid/ACME123?csesidx=XYZ&other=1" /\
  fst (_extract_config (P:=Sim.platform) "a@b.c"
         (Sim.start Sim.live
            (Sim.mk_browser
               (Sim.mk_page Sim.nested_url [] [] [Sim.ses_cookie 1700100000; Sim.host_cookie])
               [] None)))
  = Ret (success (bundle "a@b.c" "XYZ" "OLD" (Some "ses-value") (Some "host-value")
                    "2023-11-15 14:00:00")) /\
  fst (_extract_config (P:=Sim.platform) "a@b.c"
         (Sim.start Sim.live
            (Sim.mk_browser
               (Sim.mk_page Sim.nested_url [] [] [Sim.ses_cookie 1700100000; Sim.host_cookie])
               [] None)))
  <> Ret (success (bundle "a@b.c" "XYZ" "ACME123" (Some "ses-value") (Some "host-value")
                     "2023-11-15 14:00:00")).
Proof. vm_compute. split; [reflexivity | split; [reflexivity | discriminate]]. Qed.

(** ** C7 *)

(** C7: on a URL with both markers, when neither named cookie is in the jar,
    the extractor still returns success, with both cookie fields [None] and
    expires_at the local time plus twelve hours. *)
Theorem C7_extract_without_cookies
    (W : Type) (P : Platform W) (email : string) (s : st W)
    (url : string) (w1 w2 w3 : W) (t1 t2 t3 : N) (jar : list cookie) :
  PyStr.contains "/cid/" url = true ->
  PyStr.contains "csesidx=" url = true ->
  drv_current_url (world s) = (inr url, w1, t1) ->
  drv_current_url w1 = (inr url, w2, t2) ->
  drv_get_cookies w2 = (inr jar, w3, t3) ->
  find (cookie_named "__Secure-C_SES") jar = None ->
  find (cookie_named "__Host-C_OSES") jar = None ->
  fst (_extract_config email s)
  = Ret (success
           [ ("id", PStr email);
             ("csesidx", PStr (session_of url));
             ("config_id", PStr (tenant_of url));
             ("secure_c_ses", PNone);
             ("host_c_oses", PNone);
             ("expires_at",
              PStr (PyDate.strftime
                      (local_time (clock s + t1 + t2 + t3) + PyDate.hours12))) ]).
Proof.
  intros Hcid _ H1 H2 H3 Hses Hhost. apply contains_tail in Hcid.
  rewrite (extract_config_run email s url w1 t1 w2 t2 jar w3 t3 H1 H2 H3 Hcid).
  cbn [fst]. unfold bundle, expiry_text, cookie_value. rewrite Hses, Hhost. reflexivity.
Qed.

Lemma C7_witness :
  fst (_extract_config (P:=Sim.platform) "a@b.c"
         (Sim.start Sim.live (Sim.mk_browser (Sim.console []) [] None)))
  = Ret (success
           [ ("id", PStr "a@b.c");
             ("csesidx", PStr (session_of Sim.console_url));
             ("config_id", PStr (tenant_of Sim.console_url));
             ("secure_c_ses", PNone);
             ("host_c_oses", PNone);
             ("expires_at",
              PStr (PyDate.strftime
                      (local_time (P:=Sim.platform) (1700000000000 + 0 + 0 + 0)
                       + PyDate.hours12))) ]).
Proof.
  exact (C7_extract_without_cookies _ Sim.platform "a@b.c"
           (Sim.start Sim.live (Sim.mk_browser (Sim.console []) [] None))
           Sim.console_url _ _ _ 0%N 0%N 0%N []
           eq_refl eq_refl eq_refl eq_refl eq_refl eq_refl eq_refl).
Defined.

(** ** C10 *)



Lemma log_run {W} level message (s : st W) :
  _log level message s = (Ret tt, snd (_log level message s)).
Proof. reflexivity. Qed.

(** ** C6 *)




Section Counting.
Context {W : Type} {P : Platform W}.

Lemma filter_none (sel : event -> bool) evs :
  forallb (fun ev => negb (sel ev)) evs = true -> filter sel evs = [].
Proof.
  induction evs as [|ev evs IH]; simpl; [reflexivity|].
  destruct (sel ev); simpl; [discriminate | exact IH].
Qed.

Lemma extends_none (sel : event -> bool) (s s' : st W) :
  extends (fun ev => negb (sel ev)) s s' ->
  exists evs, trace s' = (trace s ++ evs)%list /\ filter sel evs = [].
Proof. intros [_ [(evs & T & F) _]]. exists evs. split; [exact T | apply filter_none, F]. Qed.

Lemma once_after_none sel ev (s s1 s2 : st W) :
  extends (fun e => negb (sel e)) s s1 -> at_most_once sel ev s1 s2 -> at_most_once sel ev s s2.
Proof.
  intros H (evs2 & T2 & F2). apply extends_none in H. destruct H as (evs1 & T1 & F1).
  exists (evs1 ++ evs2)%list. rewrite T2, T1, app_assoc, filter_app, F1. auto.
Qed.

Lemma none_is_once sel ev (s s' : st W) :
  extends (fun e => negb (sel e)) s s' -> at_most_once sel ev s s'.
Proof. intros H. apply extends_none in H. destruct H as (evs & T & F). exists evs. auto. Qed.

Lemma bind_once {A B} sel ev (m : M W A) (k : A -> M W B) :
  safe (fun e => negb (sel e)) m ->
  (forall a s1, at_most_once sel ev s1 (snd (k a s1))) ->
  forall s, at_most_once sel ev s (snd (bind m k s)).
Proof.
  intros Hm Hk s. destruct (Hm s) as [_ He]. unfold bind.
  destruct (m s) as [[a|e| |?] s1]; cbn [snd] in *.
  - eapply once_after_none; [exact He | apply Hk].
  - apply none_is_once, He.
  - apply none_is_once, He.
  - apply none_is_once, He.
Qed.

Lemma safe_once {A} sel ev (m : M W A) :
  safe (fun e => negb (sel e)) m -> forall s, at_most_once sel ev s (snd (m s)).
Proof. intros Hm s. apply none_is_once. apply Hm. Qed.

Lemma no_poll_ok : forall ev, is_poll ev = false -> no_poll ev = true.
Proof. intros ev H. unfold no_poll. rewrite H. reflexivity. Qed.

Lemma no_poll_ok' : forall ev, is_poll ev = false -> is_refresh ev = false -> no_poll ev = true.
Proof. intros ev H _. apply no_poll_ok, H. Qed.

Lemma no_refresh_ok :
  forall ev, is_poll ev = false -> is_refresh ev = false -> no_refresh ev = true.
Proof. intros ev _ H. unfold no_refresh. rewrite H. reflexivity. Qed.

Lemma diagnostic_no_poll : forall ev, is_diagnostic ev = true -> no_poll ev = true.
Proof. intros []; simpl; intros H; try discriminate; reflexivity. Qed.

(** the one call of the mail client: the first operation of RetrieveCode,
    with the arguments of line 263, whatever it answers *)
Lemma poll_first email mail_client send_time s :
  exists evs,
    trace (snd (flow_retrieve_code email mail_client send_time s))
    = (trace s ++ EvPollForCode 40 4 send_time :: evs)%list /\
    forallb no_poll evs = true.
Proof.
  unfold flow_retrieve_code.
  set (s1 := snd (_log "info" "polling for verification code" s)).
  assert (Ht1 : trace s1 = trace s).
  { unfold s1, _log. cbn [snd]. destruct (log_callback (self s)); reflexivity. }
  rewrite (bind_ret_step _ _ s tt s1) by reflexivity.
  unfold bind at 1, call_out at 1. cbn [clock self logs trace world fst snd].
  set (r := poll_for_code mail_client 40 4 send_time (world s1)).
  set (s2 := mk_st (snd (fst r)) (clock s1 + snd r)%N (self s1) (logs s1)
               (trace s1 ++ [EvPollForCode 40 4 send_time])).
  assert (Hone : forall s3, extends no_poll s2 s3 ->
                   exists evs,
                     trace s3 = (trace s ++ EvPollForCode 40 4 send_time :: evs)%list /\
                     forallb no_poll evs = true).
  { intros s3 [_ [(evs & T & F) _]]. exists evs. unfold s2 in T. cbn [trace] in T.
    rewrite T, Ht1, <- app_assoc. split; [reflexivity | exact F]. }
  destruct (fst (fst r)) as [code|e|b]; cbn [snd].
  - destruct code as [c|]; [destruct (c =? "")|]; apply Hone.
    + apply (safe_code_timeout no_poll no_poll_ok).
    + apply (safe_flow_enter_code no_poll no_poll_ok).
    + apply (safe_code_timeout no_poll no_poll_ok).
  - apply Hone, extends_refl.
  - apply Hone, extends_refl.
Qed.

Lemma poll_once email mail_client send_time s :
  at_most_once is_poll (EvPollForCode 40 4 send_time) s
    (snd (flow_retrieve_code email mail_client send_time s)).
Proof.
  destruct (poll_first email mail_client send_time s) as (evs & T & F).
  exists (EvPollForCode 40 4 send_time :: evs). split; [exact T|]. right.
  cbn [filter is_poll]. rewrite (filter_none is_poll evs); [reflexivity|].
  rewrite forallb_forall in *. intros ev Hev. specialize (F ev Hev).
  unfold no_poll in F. exact F.
Qed.

(** a step that neither raises nor runs out of fuel returns *)
Lemma runs_unit p (m : M W unit) :
  quiet m -> passes (fun _ => False) m -> safe p m -> forall s, m s = (Ret tt, snd (m s)).
Proof.
  intros Hq Hi Hs s. specialize (Hq s). specialize (Hi s). destruct (Hs s) as [Hf _].
  destruct (m s) as [[[]|e| |b] s']; cbn [fst snd] in *.
  - reflexivity.
  - exfalso. eapply Hq; eauto.
  - congruence.
  - exfalso. eapply Hi; eauto.
Qed.

Lemma save_screenshot_run name (s : st W) :
  _save_screenshot name s = (Ret tt, snd (_save_screenshot name s)).
Proof.
  apply (runs_unit is_diagnostic);
    [|apply passes_save_screenshot|apply safe_save_screenshot_diag].
  unfold _save_screenshot. apply quiet_try_except. intro. apply quiet_ret.
Qed.

End Counting.

(** ** C4 *)

(** C4 (as amended): RetrieveCode calls [poll_for_code] exactly once, as its
    first operation and whatever the call answers, with timeout 40, interval 4
    and the [since_time] handed to the step; from the end of ClickContinue on,
    the flow makes no other call of it, and [since_time] is the local time
    read at that instant, which, when ClickContinue succeeded, is two seconds
    after its click returned.  When the call brings no code the flow returns
    the failure "verification code timeout" and only takes a screenshot
    afterwards.  When it brings a code, the flow goes on to EnterCode with
    that code as it is: which messages the code may come from is left to the
    mail client. *)
Theorem C4_single_poll_since_continue
    (W : Type) (P : Platform W) (mail_client : MailClient W)
    (fuel : nat) (email : string) (Hfuel : 100 <= fuel) :
  (forall send_time s,
      exists evs,
        trace (snd (flow_retrieve_code email mail_client send_time s))
        = (trace s ++ EvPollForCode 40 4 send_time :: evs)%list /\
        forallb no_poll evs = true) /\
  (forall s,
      exists evs,
        trace (snd (flow_request_code fuel email mail_client s)) = (trace s ++ evs)%list /\
        (filter is_poll evs = [] \/
         filter is_poll evs = [EvPollForCode 40 4 (local_time (clock s))])) /\
  (forall send_time s code w dt,
      poll_for_code mail_client 40 4 send_time (world s) = (Answer code, w, dt) ->
      code = None \/ code = Some "" ->
      fst (flow_retrieve_code email mail_client send_time s)
      = Ret (failure "verification code timeout") /\
      exists evs,
        trace (snd (flow_retrieve_code email mail_client send_time s))
        = (trace s ++ EvPollForCode 40 4 send_time :: evs)%list /\
        forallb is_diagnostic evs = true) /\
  (forall send_time s c w dt,
      poll_for_code mail_client 40 4 send_time (world s) = (Answer (Some c), w, dt) ->
      c <> "" ->
      let s0 := snd (_log "info" "polling for verification code" s) in
      flow_retrieve_code email mail_client send_time s
      = flow_enter_code email c
          (mk_st w (clock s0 + dt)%N (self s0) (logs s0)
             (trace s0 ++ [EvPollForCode 40 4 send_time]))) /\
  (forall s s1,
      click_continue s = (Ret None, s1) ->
      (clock s + 2000 <= clock s1)%N /\
      (exists btn v s_found s_clicked,
          wait_until 10 (element_to_be_clickable XPATH CONTINUE_BUTTON_XPATH) s
          = (Ret btn, s_found) /\
          execute_script JS_CLICK btn s_found = (Ret v, s_clicked) /\
          clock s1 = (clock s_clicked + 2000)%N) /\
      flow_click_continue fuel email mail_client s
      = flow_request_code fuel email mail_client s1).
Proof.
  split; [|split; [|split; [|split]]].
  - intros send_time s. apply poll_first.
  - intros s. unfold flow_request_code.
    change (at_most_once is_poll (EvPollForCode 40 4 (local_time (clock s))) s
              (snd (bind datetime_now
                      (fun send_time =>
                         _log "info" "clicking send verification code button";;
                         sent <- _click_send_code_button fuel;;
                         if negb sent
                         then _log "error" "send code button not found";;
                              _save_screenshot "send_code_button_missing";;
                              ret (failure "send code button not found")
                         else flow_await_code_input fuel email mail_client send_time) s))).
    unfold bind at 1, datetime_now at 1.
    apply bind_once; [apply (safe_log no_poll)|]. intros _ s1.
    apply bind_once; [apply safe_click_send_code_button; [exact no_poll_ok' | lia]|].
    intros sent s2. destruct sent; cbn [negb].
    + unfold flow_await_code_input.
      apply bind_once; [apply safe_wait_for_code_input; [exact no_poll_ok' | exact Hfuel]|].
      intros [el|] s3.
      * apply poll_once.
      * apply safe_once. apply safe_bind; [apply safe_log|]. intro.
        apply safe_bind; [apply safe_save_screenshot, no_poll_ok'|]. intro. apply safe_ret.
    + apply safe_once. apply safe_bind; [apply safe_log|]. intro.
      apply safe_bind; [apply safe_save_screenshot, no_poll_ok'|]. intro. apply safe_ret.
  - intros send_time s code w dt Hpoll Hcode. unfold flow_retrieve_code.
    set (s0 := snd (_log "info" "polling for verification code" s)).
    assert (Hs0 : world s0 = world s /\ trace s0 = trace s).
    { unfold s0, _log. cbn [snd]. destruct (log_callback (self s)); auto. }
    destruct Hs0 as [Hw0 Ht0].
    set (s1 := mk_st w (clock s0 + dt)%N (self s0) (logs s0)
                 (trace s0 ++ [EvPollForCode 40 4 send_time])).
    assert (Hrun : (_log "info" "polling for verification code";;
                    code <- call_out (EvPollForCode 40 4 send_time)
                              (poll_for_code mail_client 40 4 send_time);;
                    match code with
                    | Some c => if c =? "" then code_timeout else flow_enter_code email c
                    | None => code_timeout
                    end) s = code_timeout s1).
    { eapply bind_ret_eq; [apply log_run|]. fold s0.
      eapply bind_ret_eq; [apply call_out_ok; rewrite Hw0; exact Hpoll|].
      destruct Hcode as [-> | ->]; reflexivity. }
    rewrite Hrun. split.
    + unfold code_timeout. erewrite bind_ret_eq; [| apply log_run | reflexivity].
      erewrite bind_ret_eq; [| apply save_screenshot_run | reflexivity]. reflexivity.
    + assert (Hd : extends is_diagnostic s1 (snd (code_timeout s1))).
      { apply (safe_bind is_diagnostic); [apply safe_log|]. intro.
        apply safe_bind; [apply safe_save_screenshot_diag|]. intro. apply safe_ret. }
      destruct Hd as [_ [(evs & T & F) _]]. exists evs. split; [|exact F].
      rewrite T. unfold s1. cbn [trace]. rewrite Ht0, <- app_assoc. reflexivity.
  - intros send_time s c w dt Hpoll Hc s0. unfold flow_retrieve_code.
    assert (Hw0 : world s0 = world s).
    { unfold s0, _log. cbn [snd]. destruct (log_callback (self s)); reflexivity. }
    eapply bind_ret_eq; [apply log_run|]. fold s0.
    eapply bind_ret_eq; [apply call_out_ok; rewrite Hw0; exact Hpoll|].
    apply String.eqb_neq in Hc. cbv beta iota. rewrite Hc. reflexivity.
  - intros s s1 Hcc.
    assert (Hclick : exists btn v s_found s_clicked,
               wait_until 10 (element_to_be_clickable XPATH CONTINUE_BUTTON_XPATH) s
               = (Ret btn, s_found) /\
               execute_script JS_CLICK btn s_found = (Ret v, s_clicked) /\
               clock s1 = (clock s_clicked + 2000)%N).
    { unfold click_continue, try_except in Hcc.
      destruct ((continue_btn <- wait_until 10 (element_to_be_clickable XPATH CONTINUE_BUTTON_XPATH);;
                 execute_script JS_CLICK continue_btn;; sleep 2000;; ret None) s)
        as [[r|e| |?] s'] eqn:E.
      * inversion Hcc; subst.
        apply bind_inv in E as (btn & sa & Ea & E).
        apply bind_inv in E as (v & sb & Eb & E).
        exists btn, v, sa, sb. split; [exact Ea|]. split; [exact Eb|].
        unfold bind, sleep, ret in E. inversion E; subst. reflexivity.
      * exfalso. revert Hcc. unfold bind, _log, _save_screenshot, try_except, ret.
        repeat match goal with |- context [match ?x with _ => _ end] => destruct x end;
          discriminate.
      * discriminate.
      * discriminate. }
    split; [|split; [exact Hclick|]].
    + destruct Hclick as (btn & v & sa & sb & Ea & Eb & C).
      apply (run_clock any_event) in Ea; [|apply safe_call; reflexivity].
      apply (run_clock any_event) in Eb; [|apply safe_call; reflexivity].
      lia.
    + unfold flow_click_continue. eapply bind_ret_eq; [exact Hcc | reflexivity].
Qed.

Lemma C4_witness :
  100 <= 100 /\
  poll_for_code Sim.mail 40 4 1700000000000
    (Sim.mk_browser Sim.login_page [] (Some "123456"))
  = (Answer (Some "123456"), Sim.mk_browser Sim.login_page [] (Some "123456"), 0%N) /\
  exists evs,
    trace (snd (flow_retrieve_code (P:=Sim.platform) "a@b.c" Sim.mail 1700000000000
                  (Sim.start Sim.live (Sim.mk_browser Sim.login_page [] (Some "123456")))))
    = ([] ++ EvPollForCode 40 4 1700000000000 :: evs)%list /\
    forallb no_poll evs = true.
Proof.
  split; [apply le_n|]. split; [reflexivity|].
  exact (proj1 (C4_single_poll_since_continue _ Sim.platform Sim.mail 100 "a@b.c" (le_n 100))
           1700000000000%Z
           (Sim.start Sim.live (Sim.mk_browser Sim.login_page [] (Some "123456")))).
Defined.

(** C4, as stated, fails on both counts.  On a browser whose operations
    take no time, Continue is clicked when the clock shows 1700000000000, and
    the bound handed to [poll_for_code] is the time two seconds later; and a
    mail client that does not look at the bound answers with the code of a
    message that arrived a second before the click, which the flow types into
    the code field. *)
Lemma C4_counterexample :
  let stale := Sim.mk_message 1699999999000 "000000" in
  let s := Sim.start Sim.live (Sim.mk_browser Sim.login_page [] None) in
  let evs := trace (snd (flow_click_continue (P:=Sim.platform) 100 "a@b.c"
                           (Sim.careless_mail [stale]) s)) in
  local_time (P:=Sim.platform) (clock s) = 1700000000000%Z /\
  (Sim.msg_time stale < 1700000000000)%Z /\
  firstn 5 evs
  = [EvWaitUntil 10 (element_to_be_clickable XPATH CONTINUE_BUTTON_XPATH);
     EvExecuteScript JS_CLICK 2;
     EvFindElement CSS_SELECTOR "input[name='pinInput']";
     EvFindElement CSS_SELECTOR "input[name='pinInput']";
     EvPollForCode 40 4 1700000002000] /\
  firstn 8 (skipn 5 evs)
  = ([EvWaitUntil 10 (presence_of_element_located CSS_SELECTOR "input[name='pinInput']");
      EvClick 5] ++ keystrokes 5 (Sim.msg_code stale))%list.
Proof. vm_compute. repeat split. Qed.

(** ** C5 *)

Section Refreshing.
Context {W : Type} {P : Platform W}.

Hypothesis never_ready :
  forall w, exists url w' t,
    drv_current_url w = (inr url, w', t) /\
    PyStr.contains "csesidx=" url && PyStr.contains "/cid/" url = false.

(** with a URL that never carries both markers, the wait reads it [n] times
    and gives up *)
Lemma wait_for_business_params_never n (s : st W) :
  exists s', _wait_for_business_params n s = (Ret false, s') /\
             trace s' = (trace s ++ repeat EvCurrentUrl n)%list.
Proof.
  revert s. induction n as [|n IH]; intros s.
  - exists s. split; [reflexivity|]. simpl. rewrite app_nil_r. reflexivity.
  - destruct (never_ready (world s)) as (url & w' & t & Hurl & Hno).
    set (s1 := mk_st w' (clock s + t + 1000)%N (self s) (logs s) (trace s ++ [EvCurrentUrl])).
    destruct (IH s1) as (s' & Hrun & Htrace). exists s'. split.
    + cbn [_wait_for_business_params].
      eapply bind_ret_eq; [apply call_ok; exact Hurl|]. rewrite Hno.
      eapply bind_ret_eq; [reflexivity|]. exact Hrun.
    + rewrite Htrace. unfold s1. cbn [trace repeat]. rewrite <- app_assoc. reflexivity.
Qed.

End Refreshing.

(** C5: however the browser behaves the flow refreshes the page at most once;
    when the first wait for the parameters times out there is exactly one
    refresh; and when the URL never carries both markers the flow reads it
    thirty times, refreshes once, reads it thirty times more, and returns the
    failure "URL parameters not found", taking only a screenshot afterwards. *)
Theorem C5_one_refresh_then_failure
    (W : Type) (P : Platform W) (email : string) (s : st W) :
  (exists evs,
      trace (snd (flow_await_business_params email s)) = (trace s ++ evs)%list /\
      (filter is_refresh evs = [] \/ filter is_refresh evs = [EvRefresh])) /\
  (forall s1,
      _wait_for_business_params 30 (snd (_log "info" "waiting for URL parameters" s))
      = (Ret false, s1) ->
      exists evs,
        trace (snd (flow_await_business_params email s))
        = (trace s1 ++ EvRefresh :: evs)%list /\
        filter is_refresh evs = []) /\
  ((forall w, exists url w' t,
       drv_current_url w = (inr url, w', t) /\
       PyStr.contains "csesidx=" url && PyStr.contains "/cid/" url = false) ->
   (forall w, exists w' t, drv_refresh w = (inr tt, w', t)) ->
   fst (flow_await_business_params email s) = Ret (failure "URL parameters not found") /\
   exists diag,
     trace (snd (flow_await_business_params email s))
     = (trace s ++ repeat EvCurrentUrl 30 ++ [EvRefresh] ++ repeat EvCurrentUrl 30 ++ diag)%list /\
     forallb is_diagnostic diag = true).
Proof.
  assert (Htail : forall s2,
             extends no_refresh s2
               (snd ((sleep 3000;;
                      ready_again <- _wait_for_business_params 30;;
                      if negb ready_again
                      then _log "error" "URL parameters generation failed";;
                           _save_screenshot "params_missing";;
                           ret (failure "URL parameters not found")
                      else flow_extract email) s2))).
  { intros s2. apply safe_bind; [apply safe_sleep|]. intro.
    apply safe_bind; [apply safe_wait_for_business_params, no_refresh_ok|]. intros [|]; cbn [negb].
    - unfold flow_extract. apply safe_bind; [apply safe_log|]. intro.
      apply safe_extract_config, no_refresh_ok.
    - apply safe_bind; [apply safe_log|]. intro.
      apply safe_bind; [apply safe_save_screenshot, no_refresh_ok|]. intro. apply safe_ret. }
  assert (Hrefresh : forall s1,
             exists evs,
               trace (snd ((_log "warning" "URL parameters not generated, trying refresh";;
                            refresh;;
                            sleep 3000;;
                            ready_again <- _wait_for_business_params 30;;
                            if negb ready_again
                            then _log "error" "URL parameters generation failed";;
                                 _save_screenshot "params_missing";;
                                 ret (failure "URL parameters not found")
                            else flow_extract email) s1))
               = (trace s1 ++ EvRefresh :: evs)%list /\ filter is_refresh evs = []).
  { intros s1. erewrite bind_ret_eq; [| apply log_run | reflexivity].
    set (s1' := snd (_log "warning" "URL parameters not generated, trying refresh" s1)).
    assert (Ht1 : trace s1' = trace s1).
    { unfold s1', _log. cbn [snd]. destruct (log_callback (self s1)); reflexivity. }
    unfold bind at 1, refresh at 1, call at 1. cbn [clock self logs trace world fst snd].
    set (r := drv_refresh (world s1')).
    set (s2 := mk_st (snd (fst r)) (clock s1' + snd r)%N (self s1') (logs s1')
                 (trace s1' ++ [EvRefresh])).
    destruct (fst (fst r)) as [e|[]]; cbn [snd].
    - exists []. unfold s2. cbn [trace]. rewrite Ht1. auto.
    - specialize (Htail s2). apply (extends_none is_refresh) in Htail.
      destruct Htail as (evs & T & F). exists evs. split; [|exact F].
      rewrite T. unfold s2. cbn [trace]. rewrite Ht1, <- app_assoc. reflexivity. }
  split; [|split].
  - unfold flow_await_business_params.
    apply (bind_once is_refresh EvRefresh); [apply (safe_log no_refresh)|]. intros _ s0.
    apply (bind_once is_refresh EvRefresh);
      [apply safe_wait_for_business_params, no_refresh_ok|].
    intros [|] s1; cbn [negb].
    + apply safe_once. unfold flow_extract. apply safe_bind; [apply safe_log|]. intro.
      apply safe_extract_config, no_refresh_ok.
    + destruct (Hrefresh s1) as (evs & T & F). exists (EvRefresh :: evs).
      split; [exact T|]. right. simpl. rewrite F. reflexivity.
  - intros s1 Hwait. unfold flow_await_business_params.
    erewrite bind_ret_eq; [| apply log_run | reflexivity].
    erewrite bind_ret_eq; [| exact Hwait | reflexivity]. cbn [negb].
    apply Hrefresh.
  - intros Hnever Hrefr. unfold flow_await_business_params.
    erewrite bind_ret_eq; [| apply log_run | reflexivity].
    set (s0 := snd (_log "info" "waiting for URL parameters" s)).
    assert (Ht0 : trace s0 = trace s).
    { unfold s0, _log. cbn [snd]. destruct (log_callback (self s)); reflexivity. }
    destruct (wait_for_business_params_never Hnever 30 s0) as (s1 & Hw1 & Tr1).
    erewrite bind_ret_eq; [| exact Hw1 | reflexivity]. cbn [negb].
    erewrite bind_ret_eq; [| apply log_run | reflexivity].
    set (s1' := snd (_log "warning" "URL parameters not generated, trying refresh" s1)).
    assert (Ht1 : trace s1' = trace s1).
    { unfold s1', _log. cbn [snd]. destruct (log_callback (self s1)); reflexivity. }
    destruct (Hrefr (world s1')) as (w' & t & Hr).
    erewrite bind_ret_eq; [| apply call_ok; exact Hr | reflexivity].
    erewrite bind_ret_eq; [| reflexivity | reflexivity].
    match goal with
    | |- context [bind (_wait_for_business_params 30) _ ?st] =>
        destruct (wait_for_business_params_never Hnever 30 st) as (s3 & Hw3 & Tr3)
    end.
    erewrite bind_ret_eq; [| exact Hw3 | reflexivity]. cbn [negb].
    erewrite bind_ret_eq; [| apply log_run | reflexivity].
    set (s3' := snd (_log "error" "URL parameters generation failed" s3)).
    assert (Ht3 : trace s3' = trace s3).
    { unfold s3', _log. cbn [snd]. destruct (log_callback (self s3)); reflexivity. }
    erewrite bind_ret_eq; [| apply save_screenshot_run | reflexivity].
    split; [reflexivity|]. cbn [snd ret].
    destruct (safe_save_screenshot_diag "params_missing" s3') as [_ [_ [(diag & T & F) _]]].
    exists diag. split; [|exact F].
    rewrite T, Ht3, Tr3. cbn [trace]. rewrite Ht1, Tr1, Ht0, <- !app_assoc. reflexivity.
Qed.

Lemma C5_witness :
  fst (flow_await_business_params (P:=Blank.platform) "a@b.c" Blank.start)
  = Ret (failure "URL parameters not found") /\
  exists diag,
    trace (snd (flow_await_business_params (P:=Blank.platform) "a@b.c" Blank.start))
    = ([] ++ repeat EvCurrentUrl 30 ++ [EvRefresh] ++ repeat EvCurrentUrl 30 ++ diag)%list /\
    forallb is_diagnostic diag = true.
Proof.
  apply (proj2 (proj2 (C5_one_refresh_then_failure _ Blank.platform "a@b.c" Blank.start))).
  - intros []. exists AUTH_HOME_URL, tt, 0%N. split; reflexivity.
  - intros []. exists tt, 0%N. reflexivity.
Defined.

(** ** C2 *)

(** C2 (as amended): when the first look for a code-entry field finds none and
    the first probe of the loop finds a challenge widget, the flow returns at
    once, with the same failure "send code button not found" as when no button
    is ever found; the challenge shows only in a warning handed to the log
    callback; after the probe the flow only takes a screenshot. *)
Theorem C2_challenge_stops_flow
    (W : Type) (P : Platform W) (mail_client : MailClient W)
    (fuel : nat) (email : string) (s s2 s3 : st W) :
  1 <= fuel ->
  send_code_find_code_input
    (snd (sleep 1000 (snd (_log "info" "clicking send verification code button" s))))
  = (Ret None, s2) ->
  _has_captcha s2 = (Ret true, s3) ->
  fst (flow_request_code fuel email mail_client s)
  = Ret (failure "send code button not found") /\
  extends is_diagnostic s3 (snd (flow_request_code fuel email mail_client s)) /\
  (log_callback (self s3) = true ->
   In ("warning", CAPTCHA_WARNING) (logs (snd (flow_request_code fuel email mail_client s)))).
Proof.
  intros Hfuel Hinput Hcaptcha.
  set (s4 := snd (_log "warning" CAPTCHA_WARNING s3)).
  set (s5 := snd (_log "error" "send code button not found" s4)).
  set (s6 := snd (_save_screenshot "send_code_button_missing" s5)).
  assert (Hattempt : send_code_attempt s2 = (Ret (Some false), s4)).
  { unfold send_code_attempt.
    eapply bind_ret_eq; [exact Hcaptcha|].
    eapply bind_ret_eq; [apply log_run|]. reflexivity. }
  assert (Hloop : send_code_loop fuel (clock s2) (25 * 1000)%N s2 = (Ret (Some false), s4)).
  { rewrite send_code_loop_unfold.
    eapply bind_ret_eq; [reflexivity|].
    rewrite N.sub_diag. cbn [N.ltb N.compare N.mul Pos.mul Pos.add].
    destruct fuel as [|k]; [lia|].
    eapply bind_ret_eq; [exact Hattempt|]. reflexivity. }
  assert (Hclick : _click_send_code_button fuel
                     (snd (_log "info" "clicking send verification code button" s))
                   = (Ret false, s4)).
  { unfold _click_send_code_button.
    eapply bind_ret_eq; [reflexivity|].
    eapply bind_ret_eq; [exact Hinput|].
    eapply bind_ret_eq; [reflexivity|].
    eapply bind_ret_eq; [exact Hloop|]. reflexivity. }
  assert (Hrun : flow_request_code fuel email mail_client s
                 = (Ret (failure "send code button not found"), s6)).
  { unfold flow_request_code.
    eapply bind_ret_eq; [reflexivity|].
    eapply bind_ret_eq; [apply log_run|].
    eapply bind_ret_eq; [exact Hclick|]. cbn [negb].
    eapply bind_ret_eq; [apply log_run|].
    eapply bind_ret_eq; [apply save_screenshot_run|]. reflexivity. }
  rewrite Hrun. cbn [fst snd].
  assert (H34 : extends is_diagnostic s3 s4) by apply (safe_log is_diagnostic).
  assert (H46 : extends is_diagnostic s4 s6).
  { eapply extends_trans; [apply (safe_log is_diagnostic)|].
    apply safe_save_screenshot_diag. }
  split; [reflexivity|]. split; [eapply extends_trans; eauto|].
  intros Hcb. destruct H46 as [_ [_ (entries & Hlogs)]]. rewrite Hlogs.
  apply in_or_app. left. unfold s4, _log. cbn [snd]. rewrite Hcb. cbn [logs].
  apply in_or_app. right. left. reflexivity.
Qed.

Lemma C2_witness :
  fst (flow_request_code (P:=Sim.platform) 100 "a@b.c" Sim.mail
         (Sim.start Sim.live (Sim.mk_browser Sim.captcha_page [] None)))
  = Ret (failure "send code button not found").
Proof.
  pose (s := Sim.start Sim.live (Sim.mk_browser Sim.captcha_page [] None)).
  pose (s2 := snd (send_code_find_code_input (P:=Sim.platform)
                     (snd (sleep 1000
                             (snd (_log "info" "clicking send verification code button" s)))))).
  pose (s3 := snd (_has_captcha (P:=Sim.platform) s2)).
  refine (proj1 (C2_challenge_stops_flow _ Sim.platform Sim.mail 100 "a@b.c" s s2 s3 _ _ _)).
  - apply Nat.leb_le. reflexivity.
  - vm_compute. reflexivity.
  - vm_compute. reflexivity.
Defined.

(** C2, as stated, fails: with a challenge widget on the page the flow returns
    the very failure it returns when no send-code button ever shows up. *)
Lemma C2_counterexample :
  fst (flow_request_code (P:=Sim.platform) 100 "a@b.c" Sim.mail
         (Sim.start Sim.live (Sim.mk_browser Sim.captcha_page [] None)))
  = Ret (failure "send code button not found") /\
  fst (flow_request_code (P:=Sim.platform) 100 "a@b.c" Sim.mail
         (Sim.start Sim.live (Sim.mk_browser (Sim.blank_page LOGIN_URL) [] None)))
  = fst (flow_request_code (P:=Sim.platform) 100 "a@b.c" Sim.mail
           (Sim.start Sim.live (Sim.mk_browser Sim.captcha_page [] None))).
Proof. vm_compute. split; reflexivity. Qed.

(** ** C8 *)

Section Verify.
Context {W : Type} {P : Platform W}.

Lemma quiet_sleep ms : quiet (W:=W) (sleep ms).
Proof. intros s e. discriminate. Qed.

Lemma quiet_click_verify : quiet click_verify.
Proof.
  unfold click_verify. apply quiet_bind; [apply quiet_sleep|]. intros _.
  apply quiet_try_except. intros _. apply quiet_try_except. intros e. apply quiet_log.
Qed.

Lemma click_verify_run (s : st W) : click_verify s = (Ret tt, snd (click_verify s)).
Proof.
  apply (runs_unit any_event); [apply quiet_click_verify|apply passes_click_verify|].
  apply safe_click_verify. exact any_event_ok.
Qed.

(** The scan of the buttons, their labels being [label] in the world [w]:
    the only script it runs is a click on the first button whose label
    contains the Chinese word. *)
Lemma click_first_verify_scan (label : elem -> string) (w : W) buttons :
  (forall el, In el buttons -> exists t, el_text el w = (inr (label el), w, t)) ->
  forall s, world s = w ->
  exists evs,
    trace (snd (click_first_verify buttons s)) = (trace s ++ evs)%list /\
    logs (snd (click_first_verify buttons s)) = logs s /\
    filter is_script evs
    = match find (fun el => PyStr.contains VERIFY_TEXT (label el)) buttons with
      | Some el => [EvExecuteScript JS_CLICK el]
      | None => []
      end.
Proof.
  induction buttons as [|btn rest IH]; intros Hlab s Hw.
  - exists []. cbn. rewrite app_nil_r. auto.
  - destruct (Hlab btn (or_introl eq_refl)) as (t & Ht).
    cbn [click_first_verify find].
    erewrite bind_ret_eq; [| apply call_ok; rewrite Hw; exact Ht | reflexivity].
    destruct (PyStr.contains VERIFY_TEXT (label btn)).
    + exists [EvText btn; EvExecuteScript JS_CLICK btn].
      unfold bind, execute_script, call, ret. cbn [world clock self logs trace fst snd].
      destruct (fst (fst (drv_execute_script JS_CLICK btn w))); cbn [snd trace logs];
        rewrite <- app_assoc; auto.
    + match goal with
      | |- context [click_first_verify rest ?st] =>
          destruct (IH (fun el H => Hlab el (or_intror H)) st eq_refl) as (evs & T & L & F)
      end.
      exists (EvText btn :: evs). rewrite T, L. cbn [trace logs].
      rewrite <- app_assoc. auto.
Qed.

End Verify.

(** C8 (as amended): ClickVerify never fails the flow, which always goes on
    to the next steps; and when the fixed control is absent, the scan of the
    buttons clicks, by script, the first one whose text contains the Chinese
    word for "verify" and no other (an English label is not looked for). *)
Theorem C8_click_verify_never_fatal
    (W : Type) (P : Platform W) (email : string) (s : st W) :
  (click_verify s = (Ret tt, snd (click_verify s)) /\
   flow_click_verify email s = flow_after_verify email (snd (click_verify s))) /\
  (forall e s1 buttons s2 (label : elem -> string),
      find_element XPATH VERIFY_BUTTON_XPATH (snd (sleep 500 s)) = (Raise e, s1) ->
      find_elements TAG_NAME "button" s1 = (Ret buttons, s2) ->
      (forall el, In el buttons ->
                  exists t, el_text el (world s2) = (inr (label el), world s2, t)) ->
      exists evs,
        trace (snd (click_verify s)) = (trace s2 ++ evs)%list /\
        filter is_script evs
        = match find (fun el => PyStr.contains VERIFY_TEXT (label el)) buttons with
          | Some el => [EvExecuteScript JS_CLICK el]
          | None => []
          end).
Proof.
  split.
  - split; [apply click_verify_run|].
    unfold flow_click_verify. eapply bind_ret_eq; [apply click_verify_run | reflexivity].
  - intros e s1 buttons s2 label Hfixed Hbuttons Hlabels.
    destruct (click_first_verify_scan label (world s2) buttons Hlabels s2 eq_refl)
      as (evs & T & L & F).
    exists evs. split; [|exact F]. rewrite <- T.
    unfold click_verify.
    erewrite bind_ret_eq; [| reflexivity | reflexivity].
    erewrite try_raise_step; [|eapply bind_raise_step; exact Hfixed].
    unfold try_except at 1.
    erewrite bind_ret_eq; [| exact Hbuttons | reflexivity].
    destruct (click_first_verify buttons s2) as [[[]|e'| |?] s3]; cbn [snd]; try reflexivity.
    unfold _log. cbn [snd]. destruct (log_callback (self s3)); reflexivity.
Qed.

Lemma C8_witness :
  exists evs,
    trace (snd (click_verify (P:=Sim.platform)
                  (Sim.start Sim.live (Sim.mk_browser Sim.chinese_verify_page [] None))))
    = ([EvFindElement XPATH VERIFY_BUTTON_XPATH; EvFindElements TAG_NAME "button"] ++ evs)%list /\
    filter is_script evs = [EvExecuteScript JS_CLICK 4].
Proof.
  refine (proj2 (C8_click_verify_never_fatal _ Sim.platform "a@b.c"
                   (Sim.start Sim.live (Sim.mk_browser Sim.chinese_verify_page [] None)))
            _ _ [3; 4] _
            (fun el => Sim.text_of el (Sim.mk_browser Sim.chinese_verify_page [] None))
            eq_refl eq_refl _).
  intros el _. exists 0%N. reflexivity.
Defined.

(** C8, as stated, fails: a button labelled "Verify" in English is not
    clicked. *)
Lemma C8_counterexample :
  Sim.text_of 3 (Sim.mk_browser Sim.english_verify_page [] None) = "Verify" /\
  trace (snd (click_verify (P:=Sim.platform)
                (Sim.start Sim.live (Sim.mk_browser Sim.english_verify_page [] None))))
  = [EvFindElement XPATH VERIFY_BUTTON_XPATH; EvFindElements TAG_NAME "button"; EvText 3] /\
  filter is_script
    (trace (snd (click_verify (P:=Sim.platform)
                   (Sim.start Sim.live (Sim.mk_browser Sim.english_verify_page [] None))))) = [].
Proof. vm_compute. repeat split; reflexivity. Qed.

(** ** C9 *)

Section NeverThere.
Context {W : Type} {P : Platform W}.

Hypothesis no_element :
  forall b sel w, exists e w' t, drv_find_element b sel w = (inl e, w', t).
Hypothesis no_elements :
  forall b sel w, exists w' t, drv_find_elements b sel w = (inr [], w', t).
Hypothesis no_wait :
  forall t c w, exists e w' dt, drv_wait_until t c w = (inl e, w', dt).

Lemma find_element_never b sel (s : st W) :
  exists e s', find_element b sel s = (Raise e, s').
Proof.
  destruct (no_element b sel (world s)) as (e & w' & t & H).
  exists e. eexists. apply call_raise. exact H.
Qed.

Lemma find_elements_never b sel (s : st W) :
  exists s', find_elements b sel s = (Ret [], s').
Proof.
  destruct (no_elements b sel (world s)) as (w' & t & H).
  eexists. apply call_ok. exact H.
Qed.

Lemma find_first_selector_never sels (s : st W) :
  exists s', find_first_selector sels s = (Ret None, s').
Proof.
  revert s. induction sels as [|sel sels IH]; intros s; [eexists; reflexivity|].
  destruct (find_element_never CSS_SELECTOR sel s) as (e & s1 & H).
  destruct (IH s1) as (s' & H'). exists s'. cbn [find_first_selector].
  eapply bind_ret_eq;
    [erewrite try_raise_step; [reflexivity|]; eapply bind_raise_step; exact H | exact H'].
Qed.

Lemma code_input_loop_never fuel deadline (s : st W) :
  (deadline <= clock s + 300 * N.of_nat fuel)%N ->
  exists s', code_input_loop fuel deadline s = (Ret None, s').
Proof.
  revert s. induction fuel as [|k IH]; intros s L; rewrite code_input_loop_unfold;
    unfold bind at 1, time_time at 1; destruct (N.ltb_spec (clock s) deadline).
  - lia.
  - eexists; reflexivity.
  - destruct (find_first_selector_never code_input_selectors s) as (s1 & H1).
    pose proof (run_clock any_event _ _ _ _ (safe_find_first_selector _ any_event_ok' _) H1) as C1.
    destruct (IH (mk_st (world s1) (clock s1 + 300)%N (self s1) (logs s1) (trace s1)))
      as (s' & H'); [cbn [clock]; lia|].
    exists s'. eapply bind_ret_eq; [exact H1|]. eapply bind_ret_eq; [reflexivity | exact H'].
  - eexists; reflexivity.
Qed.

Lemma wait_for_code_input_never fuel (s : st W) :
  100 <= fuel -> exists s', _wait_for_code_input fuel 30 s = (Ret None, s').
Proof.
  intros Hf. destruct (code_input_loop_never fuel (clock s + 30 * 1000)%N s) as (s' & H); [lia|].
  exists s'. unfold _wait_for_code_input, try_except_class. apply try_ret_step.
  eapply bind_ret_eq; [reflexivity | exact H].
Qed.

Lemma has_captcha_never (s : st W) : exists s', _has_captcha s = (Ret false, s').
Proof.
  destruct (find_elements_never CSS_SELECTOR CAPTCHA_SELECTOR s) as (s' & H).
  exists s'. unfold _has_captcha. apply try_ret_step. eapply bind_ret_eq; [exact H | reflexivity].
Qed.

Lemma button_like_elements_never (s : st W) :
  exists s', button_like_elements s = (Ret [], s').
Proof.
  destruct (find_elements_never TAG_NAME "button" s) as (s1 & H1).
  destruct (find_elements_never CSS_SELECTOR "[role='button']" s1) as (s2 & H2).
  exists s2. unfold button_like_elements.
  eapply bind_ret_eq; [apply try_ret_step; exact H1|].
  eapply bind_ret_eq; [apply try_ret_step; exact H2|]. reflexivity.
Qed.

Lemma send_code_attempt_never (s : st W) :
  exists s', send_code_attempt s = (Ret None, s').
Proof.
  destruct (has_captcha_never s) as (s1 & H1).
  destruct (find_first_selector_never code_input_selectors s1) as (s2 & H2).
  destruct (no_wait 2 (element_to_be_clickable ID "sign-in-with-email") (world s2))
    as (e & w' & dt & H3).
  match type of H3 with
  | _ = (_, ?w, ?t) =>
      set (s3 := mk_st w (clock s2 + t)%N (self s2) (logs s2)
                   (trace s2 ++ [EvWaitUntil 2 (element_to_be_clickable ID "sign-in-with-email")]))
  end.
  destruct (button_like_elements_never s3) as (s4 & H4).
  eexists. unfold send_code_attempt, send_code_find_code_input.
  eapply bind_ret_eq; [exact H1|].
  eapply bind_ret_eq; [exact H2|].
  eapply bind_ret_eq.
  { erewrite try_raise_step; [reflexivity|]. eapply bind_raise_step. apply call_raise. exact H3. }
  fold s3. eapply bind_ret_eq; [exact H4|].
  eapply bind_ret_eq; [reflexivity|].
  eapply bind_ret_eq; [reflexivity|]. reflexivity.
Qed.

Lemma send_code_loop_never fuel start T (s : st W) :
  (start + T <= clock s + 500 * N.of_nat fuel)%N ->
  exists s', send_code_loop fuel start T s = (Ret None, s').
Proof.
  revert s. induction fuel as [|k IH]; intros s L; rewrite send_code_loop_unfold;
    unfold bind at 1, time_time at 1; destruct (N.ltb_spec (clock s - start) T).
  - lia.
  - eexists; reflexivity.
  - destruct (send_code_attempt_never s) as (s1 & H1).
    pose proof (send_code_attempt_pause any_event any_event_ok' _ _ H1) as C1.
    destruct (IH s1) as (s' & H'); [lia|].
    exists s'. eapply bind_ret_eq; [exact H1 | exact H'].
  - eexists; reflexivity.
Qed.

Lemma quiet_log_candidate_buttons : quiet log_candidate_buttons.
Proof. unfold log_candidate_buttons. apply quiet_try_except. intro. apply quiet_ret. Qed.

Lemma click_send_code_button_never fuel (s : st W) :
  50 <= fuel -> exists s', _click_send_code_button fuel s = (Ret false, s').
Proof.
  intros Hf.
  set (s0 := mk_st (world s) (clock s + 1000)%N (self s) (logs s) (trace s)).
  destruct (find_first_selector_never code_input_selectors s0) as (s1 & H1).
  destruct (send_code_loop_never fuel (clock s1) (25 * 1000)%N s1) as (s2 & H2); [lia|].
  eexists. unfold _click_send_code_button, send_code_find_code_input.
  eapply bind_ret_eq; [reflexivity|]. fold s0.
  eapply bind_ret_eq; [exact H1|].
  eapply bind_ret_eq; [reflexivity|].
  eapply bind_ret_eq; [exact H2|].
  eapply bind_ret_eq; [|reflexivity].
  apply (runs_unit any_event);
    [apply quiet_log_candidate_buttons|apply passes_log_candidate_buttons|].
  apply safe_log_candidate_buttons, any_event_ok'.
Qed.

Lemma scan_username_selectors_never sels (s : st W) :
  exists s', scan_username_selectors sels None s = (Ret None, s').
Proof.
  revert s. induction sels as [|sel sels IH]; intros s; [eexists; reflexivity|].
  destruct (find_element_never CSS_SELECTOR sel s) as (e & s1 & H).
  destruct (IH s1) as (s' & H'). exists s'. cbn [scan_username_selectors].
  eapply bind_ret_eq;
    [erewrite try_raise_step; [reflexivity|]; eapply bind_raise_step; exact H | exact H'].
Qed.

Lemma probe_username_input_never n (s : st W) :
  exists s', probe_username_input n None s = (Ret None, s').
Proof.
  revert s. induction n as [|n IH]; intros s; [eexists; reflexivity|].
  destruct (scan_username_selectors_never username_selectors s) as (s1 & H1).
  destruct (IH (mk_st (world s1) (clock s1 + 1000)%N (self s1) (logs s1) (trace s1)))
    as (s' & H').
  exists s'. cbn [probe_username_input].
  eapply bind_ret_eq; [exact H1|].
  eapply bind_ret_eq; [reflexivity|].
  eapply bind_ret_eq; [reflexivity | exact H'].
Qed.

End NeverThere.

Section NeverReady.
Context {W : Type} {P : Platform W}.

Hypothesis no_cid :
  forall w, exists url w' t,
    drv_current_url w = (inr url, w', t) /\ PyStr.contains "cid" url = false.

Lemma wait_for_cid_never n (s : st W) :
  exists s', _wait_for_cid n s = (Ret false, s') /\
             trace s' = (trace s ++ repeat EvCurrentUrl n)%list.
Proof.
  revert s. induction n as [|n IH]; intros s.
  - exists s. split; [reflexivity|]. simpl. rewrite app_nil_r. reflexivity.
  - destruct (no_cid (world s)) as (url & w' & t & Hurl & Hno).
    set (s1 := mk_st w' (clock s + t + 1000)%N (self s) (logs s) (trace s ++ [EvCurrentUrl])).
    destruct (IH s1) as (s' & Hrun & Htrace). exists s'. split.
    + cbn [_wait_for_cid].
      eapply bind_ret_eq; [apply call_ok; exact Hurl|]. rewrite Hno.
      eapply bind_ret_eq; [reflexivity|]. exact Hrun.
    + rewrite Htrace. unfold s1. cbn [trace repeat]. rewrite <- app_assoc. reflexivity.
Qed.

End NeverReady.

Section NeverShown.
Context {W : Type} {P : Platform W}.

Hypothesis hidden :
  forall el w, exists w' t, el_is_displayed el w = (inr false, w', t).

Lemma is_displayed_hidden el (s : st W) :
  exists s', is_displayed el s = (Ret false, s').
Proof.
  destruct (hidden el (world s)) as (w' & t & H). eexists. apply call_ok. exact H.
Qed.

Lemma scan_username_selectors_hidden sels cur (s : st W) :
  exists cur' s', scan_username_selectors sels cur s = (Ret cur', s').
Proof.
  revert cur s. induction sels as [|sel sels IH]; intros cur s; [do 2 eexists; reflexivity|].
  cbn [scan_username_selectors].
  destruct (drv_find_element CSS_SELECTOR sel (world s)) as [[[e|el] w] dt] eqn:Hf.
  - set (s1 := mk_st w (clock s + dt)%N (self s) (logs s)
                 (trace s ++ [EvFindElement CSS_SELECTOR sel])).
    destruct (IH cur s1) as (cur' & s' & H'). exists cur', s'.
    eapply bind_ret_eq;
      [erewrite try_raise_step; [reflexivity|]; eapply bind_raise_step;
       apply call_raise; exact Hf
      | exact H'].
  - set (s1 := mk_st w (clock s + dt)%N (self s) (logs s)
                 (trace s ++ [EvFindElement CSS_SELECTOR sel])).
    destruct (is_displayed_hidden el s1) as (s2 & H2).
    destruct (IH (Some el) s2) as (cur' & s' & H'). exists cur', s'.
    eapply bind_ret_eq.
    { apply try_ret_step. eapply bind_ret_eq; [apply call_ok; exact Hf | reflexivity]. }
    fold s1. eapply bind_ret_eq; [apply try_ret_step; exact H2 | exact H'].
Qed.

Lemma probe_username_input_hidden n cur (s : st W) :
  exists cur' s', probe_username_input n cur s = (Ret cur', s').
Proof.
  revert cur s. induction n as [|n IH]; intros cur s; [do 2 eexists; reflexivity|].
  cbn [probe_username_input].
  destruct (scan_username_selectors_hidden username_selectors cur s) as (cur1 & s1 & H1).
  destruct cur1 as [el|].
  - destruct (is_displayed_hidden el s1) as (s2 & H2).
    destruct (IH (Some el) (mk_st (world s2) (clock s2 + 1000)%N (self s2) (logs s2) (trace s2)))
      as (cur' & s' & H'). exists cur', s'.
    eapply bind_ret_eq; [exact H1|].
    eapply bind_ret_eq; [exact H2|].
    eapply bind_ret_eq; [reflexivity | exact H'].
  - destruct (IH None (mk_st (world s1) (clock s1 + 1000)%N (self s1) (logs s1) (trace s1)))
      as (cur' & s' & H'). exists cur', s'.
    eapply bind_ret_eq; [exact H1|].
    eapply bind_ret_eq; [reflexivity|].
    eapply bind_ret_eq; [reflexivity | exact H'].
Qed.

Lemma handle_username_setup_hidden (s : st W) url w t :
  drv_current_url (world s) = (inr url, w, t) ->
  fst (_handle_username_setup s) = Ret false.
Proof.
  intros Hurl. unfold _handle_username_setup.
  erewrite bind_ret_eq; [| apply call_ok; exact Hurl | reflexivity].
  destruct (PyStr.contains "auth.business.gemini.google/login" url); [reflexivity|].
  match goal with
  | |- context [bind (probe_username_input 30 None) _ ?st] =>
      destruct (probe_username_input_hidden 30 None st) as (cur & s1 & H1)
  end.
  erewrite bind_ret_eq; [| exact H1 | reflexivity].
  destruct cur as [el|]; [|reflexivity].
  destruct (is_displayed_hidden el s1) as (s2 & H2).
  erewrite bind_ret_eq; [| exact H2 | reflexivity]. reflexivity.
Qed.

End NeverShown.

Section Within.
Context {W : Type} {P : Platform W}.

Section Lookups.
Variable d : N.
Hypothesis lookup_within : forall b sel w, (snd (drv_find_element b sel w) <= d)%N.

Lemma find_first_selector_within sels (s : st W) :
  (clock (snd (find_first_selector sels s)) <= clock s + d * N.of_nat (List.length sels))%N.
Proof.
  revert s. induction sels as [|sel sels IH]; intros s; [cbn; lia|].
  cbn [find_first_selector].
  pose proof (lookup_within CSS_SELECTOR sel (world s)) as Hd.
  destruct (drv_find_element CSS_SELECTOR sel (world s)) as [[[e|el] w] dt] eqn:Hf;
    cbn [snd] in Hd;
    set (s1 := mk_st w (clock s + dt)%N (self s) (logs s)
                 (trace s ++ [EvFindElement CSS_SELECTOR sel])).
  - erewrite bind_ret_eq; [| | reflexivity].
    2:{ erewrite try_raise_step; [reflexivity|]. eapply bind_raise_step.
        apply call_raise. exact Hf. }
    fold s1. specialize (IH s1). subst s1. cbn [clock] in IH.
    cbn [List.length].
    replace (N.of_nat (S (List.length sels))) with (N.of_nat (List.length sels) + 1)%N by lia.
    lia.
  - erewrite bind_ret_eq; [| | reflexivity].
    2:{ apply try_ret_step. eapply bind_ret_eq; [apply call_ok; exact Hf | reflexivity]. }
    unfold ret. cbn [snd clock List.length].
    replace (N.of_nat (S (List.length sels))) with (N.of_nat (List.length sels) + 1)%N by lia.
    lia.
Qed.

Lemma code_input_loop_within fuel deadline (s : st W) :
  (clock (snd (code_input_loop fuel deadline s))
   <= N.max (clock s) (deadline + 5 * d + 300))%N.
Proof.
  revert s. induction fuel as [|k IH]; intros s; rewrite code_input_loop_unfold;
    unfold bind at 1, time_time at 1; destruct (N.ltb_spec (clock s) deadline);
    try (unfold ret; cbn [snd]; lia).
  pose proof (find_first_selector_within code_input_selectors s) as H1.
  change (N.of_nat (List.length code_input_selectors)) with 5%N in H1.
  unfold bind at 1.
  destruct (find_first_selector code_input_selectors s) as [[[el|]|e| |b] s1];
    unfold ret; cbn [snd] in *; try lia.
  unfold bind at 1, sleep at 1. cbn [clock world self logs trace].
  match goal with
  | |- context [code_input_loop k deadline ?st] => specialize (IH st)
  end.
  cbn [clock] in IH. lia.
Qed.

Lemma wait_for_code_input_within fuel t (s : st W) :
  (clock (snd (_wait_for_code_input fuel t s)) <= clock s + t * 1000 + 5 * d + 300)%N.
Proof.
  unfold _wait_for_code_input, try_except_class, try_except.
  unfold bind at 1, time_time at 1. cbv zeta.
  pose proof (code_input_loop_within fuel (clock s + t * 1000)%N s) as H.
  destruct (code_input_loop fuel (clock s + t * 1000)%N s) as [[r|e| |b] s1];
    cbn [snd] in *; try lia.
  destruct (is_class TimeoutException e); unfold ret, raise; cbn [snd]; lia.
Qed.

End Lookups.

Section Reads.
Variable d : N.
Hypothesis read_within : forall w, (snd (drv_current_url w) <= d)%N.

Lemma wait_for_cid_within n (s : st W) :
  (clock (snd (_wait_for_cid n s)) <= clock s + N.of_nat n * (d + 1000))%N.
Proof.
  revert s. induction n as [|n IH]; intros s; [cbn; lia|].
  cbn [_wait_for_cid]. unfold bind at 1, current_url, call.
  pose proof (read_within (world s)) as Hd.
  destruct (drv_current_url (world s)) as [[[e|url] w] dt]; cbn [fst snd] in *;
    replace (N.of_nat (S n)) with (N.of_nat n + 1)%N by lia.
  - cbn [clock]. lia.
  - destruct (PyStr.contains "cid" url); [cbn [snd clock ret]; unfold ret; cbn; lia|].
    unfold bind at 1, sleep at 1. cbn [clock world self logs trace].
    match goal with
    | |- context [_wait_for_cid n ?st] => specialize (IH st)
    end.
    cbn [clock] in IH. lia.
Qed.

Lemma wait_for_business_params_within n (s : st W) :
  (clock (snd (_wait_for_business_params n s)) <= clock s + N.of_nat n * (d + 1000))%N.
Proof.
  revert s. induction n as [|n IH]; intros s; [cbn; lia|].
  cbn [_wait_for_business_params]. unfold bind at 1, current_url, call.
  pose proof (read_within (world s)) as Hd.
  destruct (drv_current_url (world s)) as [[[e|url] w] dt]; cbn [fst snd] in *;
    replace (N.of_nat (S n)) with (N.of_nat n + 1)%N by lia.
  - cbn [clock]. lia.
  - destruct (PyStr.contains "csesidx=" url && PyStr.contains "/cid/" url).
    + unfold bind, _log, ret. cbn [fst snd self].
      destruct (log_callback (self s)); cbn [snd clock]; lia.
    + unfold bind at 1, sleep at 1. cbn [clock world self logs trace].
      match goal with
      | |- context [_wait_for_business_params n ?st] => specialize (IH st)
      end.
      cbn [clock] in IH. lia.
Qed.

End Reads.
End Within.




(** * More of the code *)

(** ** The Chrome binary *)

Section ChromeBinary.
Context {W : Type} {P : Platform W}.

Lemma usable_candidate_spec (w : W) c :
  usable_candidate w c = true ->
  exists x, c = Some x /\ x <> "" /\ os_path_exists x w = true /\ os_access_x x w = true.
Proof.
  destruct c as [x|]; [|discriminate]. cbn [usable_candidate]. intros H.
  apply andb_prop in H as [H Hacc]. apply andb_prop in H as [Hne Hex].
  exists x. repeat split; auto. intros ->. discriminate.
Qed.

Lemma usable_candidate_intro (w : W) x :
  x <> "" -> os_path_exists x w = true -> os_access_x x w = true ->
  usable_candidate w (Some x) = true.
Proof.
  intros Hne Hex Hacc. cbn [usable_candidate]. rewrite Hex, Hacc.
  destruct (String.eqb_spec x ""); [contradiction | reflexivity].
Qed.

Lemma fixed_candidates_nonempty x : In x fixed_candidates -> x <> "".
Proof. intros H. repeat (destruct H as [<-|H]; [discriminate|]). destruct H. Qed.

End ChromeBinary.

(** X1: the Chrome binary that [_create_driver] settles on is never empty and
    always names an existing executable file; an executable [CHROME_BIN] is
    taken before anything else; and when no binary is settled on, none of the
    five fixed paths is an existing executable. *)
Theorem find_chrome_bin_usable (W : Type) (P : Platform W) (w : W) :
  (forall x, find_chrome_bin w = Some x ->
             x <> "" /\ os_path_exists x w = true /\ os_access_x x w = true) /\
  (forall x, os_getenv "CHROME_BIN" w = Some x -> x <> "" ->
             os_path_exists x w = true -> os_access_x x w = true ->
             find_chrome_bin w = Some x) /\
  (find_chrome_bin w = None ->
   forall x, In x fixed_candidates -> os_path_exists x w && os_access_x x w = false).
Proof.
  unfold find_chrome_bin. split; [|split].
  - intros x H. destruct (find (usable_candidate w) (chrome_candidates w)) as [c|] eqn:F;
      [|discriminate].
    apply find_some in F as [_ F]. apply usable_candidate_spec in F as (y & -> & Hy).
    inversion H; subst. exact Hy.
  - intros x Henv Hne Hex Hacc. unfold chrome_candidates, py_or. rewrite Henv.
    destruct (String.eqb_spec x ""); [contradiction|].
    cbn [app find]. rewrite (usable_candidate_intro w x Hne Hex Hacc). reflexivity.
  - intros H x Hin.
    destruct (find (usable_candidate w) (chrome_candidates w)) as [c|] eqn:F.
    + apply find_some in F as [_ F]. apply usable_candidate_spec in F as (y & -> & _).
      discriminate.
    + assert (Hc : In (Some x) (chrome_candidates w)).
      { unfold chrome_candidates. apply in_or_app. right. apply in_or_app. left.
        apply in_map. exact Hin. }
      pose proof (find_none _ _ F _ Hc) as U. cbn [usable_candidate] in U.
      destruct (String.eqb_spec x "") as [->|_].
      * exfalso. exact (fixed_candidates_nonempty "" Hin eq_refl).
      * cbn [negb andb] in U. exact U.
Qed.

Lemma find_chrome_bin_usable_witness :
  find_chrome_bin (P:=Lab.platform) (Lab.plain LOGIN_URL) = Some "/opt/chrome/chrome".
Proof.
  apply (proj1 (proj2 (find_chrome_bin_usable _ Lab.platform (Lab.plain LOGIN_URL)))).
  - reflexivity.
  - discriminate.
  - reflexivity.
  - reflexivity.
Defined.

(** ** Cleaning up *)

Section Cleanup.
Context {W : Type} {P : Platform W}.

(** [_cleanup] returns, whatever [quit] and [rmtree] raise; it leaves the
    object and the log alone; it quits the driver when there is one, and after
    that at most removes the profile directory. *)
Lemma cleanup_run (s : st W) :
  exists evs,
    _cleanup s = (Ret tt, snd (_cleanup s)) /\
    self (snd (_cleanup s)) = self s /\
    logs (snd (_cleanup s)) = logs s /\
    trace (snd (_cleanup s)) = (trace s ++ evs)%list /\
    forallb (is_cleanup (self s)) evs = true /\
    filter is_quit evs = (if driver (self s) then [EvQuit] else []).
Proof.
  assert (H : exists s' evs,
             _cleanup s = (Ret tt, s') /\ self s' = self s /\ logs s' = logs s /\
             trace s' = (trace s ++ evs)%list /\
             forallb (is_cleanup (self s)) evs = true /\
             filter is_quit evs = (if driver (self s) then [EvQuit] else [])).
  { destruct s as [w c o l t]. destruct o as [ua px hl to cb dr dir].
    unfold _cleanup.
    cbv beta iota zeta delta [bind get_self try_except quit call observe ret
                                self driver user_data_dir world clock logs trace fst snd].
    destruct dr; [destruct (drv_quit w) as [[[e|[]] w1] t1]|];
      (destruct dir as [d|]; [destruct (String.eqb_spec d "") as [->|Hd]|]);
      cbv beta iota zeta delta [self driver user_data_dir world clock logs trace fst snd];
      repeat match goal with
        | |- context [os_path_exists ?d ?w] => destruct (os_path_exists d w)
        | |- context [shutil_rmtree ?d ?w] =>
            destruct (shutil_rmtree d w) as [[[?|[]] ?] ?]
        end;
      cbv beta iota zeta delta [self driver user_data_dir world clock logs trace fst snd];
      eexists; eexists; (split; [reflexivity|]);
      (split; [reflexivity|]); (split; [reflexivity|]);
      (split; [first [ reflexivity | rewrite <- app_assoc; reflexivity
                     | symmetry; apply app_nil_r ]|]);
      cbn; rewrite ?String.eqb_refl;
      try (apply String.eqb_neq in Hd; rewrite Hd); cbn; auto. }
  destruct H as (s' & evs & Hrun & H). exists evs. rewrite Hrun. exact (conj eq_refl H).
Qed.

(** The operations of [_cleanup], one by one: [quit] when the object holds a
    driver, then [rmtree] on the profile directory the object holds when the
    directory is there at that moment. *)
Lemma cleanup_exact (s : st W) :
  exists w1,
    trace (snd (_cleanup s))
    = (trace s ++ (if driver (self s) then [EvQuit] else [])
       ++ match user_data_dir (self s) with
          | Some d =>
              if (d =? "") then []
              else if os_path_exists d w1 then [EvRmtree d] else []
          | None => []
          end)%list.
Proof.
  destruct s as [w c o l t]. destruct o as [ua px hl to cb dr dir].
  unfold _cleanup.
  cbv beta iota zeta delta [bind get_self try_except quit call observe ret
                              self driver user_data_dir world clock logs trace fst snd].
  destruct dr; [destruct (drv_quit w) as [[[e|[]] w1] t1]|];
    (destruct dir as [d|]; [destruct (d =? "")|]);
    cbv beta iota zeta delta [self driver user_data_dir world clock logs trace fst snd];
    lazymatch goal with
    | |- context [os_path_exists ?d ?w'] =>
        exists w'; destruct (os_path_exists d w');
        try (destruct (shutil_rmtree d w') as [[[?|[]] ?] ?])
    | |- _ => exists w
    end;
    cbv beta iota zeta delta [self driver user_data_dir world clock logs trace fst snd];
    cbn [app]; rewrite <- ?app_assoc, ?app_nil_r; reflexivity.
Qed.

End Cleanup.

(** X2: [_cleanup] never raises, even when [quit] or [rmtree] do; it changes
    neither the object nor the log; it quits the driver exactly when the
    object holds one; and what it does besides is at most the removal of the
    profile directory the object holds. *)
Theorem cleanup_never_fails (W : Type) (P : Platform W) (s : st W) :
  exists evs,
    _cleanup s = (Ret tt, snd (_cleanup s)) /\
    self (snd (_cleanup s)) = self s /\
    logs (snd (_cleanup s)) = logs s /\
    trace (snd (_cleanup s)) = (trace s ++ evs)%list /\
    forallb (is_cleanup (self s)) evs = true /\
    filter is_quit evs = (if driver (self s) then [EvQuit] else []).
Proof. apply cleanup_run. Qed.

(** ** The object during the flow *)

Create HintDb keep_db.

Section Keeping.
Context {W : Type}.

Lemma keeps_ret {A} (a : A) : keeps (W:=W) (ret a).
Proof. intros s. reflexivity. Qed.

Lemma keeps_raise {A} e : keeps (W:=W) (A:=A) (raise e).
Proof. intros s. reflexivity. Qed.

Lemma keeps_sleep ms : keeps (W:=W) (sleep ms).
Proof. intros s. reflexivity. Qed.

Lemma keeps_time_time : keeps (W:=W) time_time.
Proof. intros s. reflexivity. Qed.

Lemma keeps_get_self : keeps (W:=W) get_self.
Proof. intros s. reflexivity. Qed.

Lemma keeps_log level message : keeps (W:=W) (_log level message).
Proof. intros s. unfold _log. cbn [snd]. destruct (log_callback (self s)); reflexivity. Qed.

Lemma keeps_observe {A} (f : W -> A) : keeps (observe f).
Proof. intros s. reflexivity. Qed.

Lemma keeps_py_index {A} (l : list A) i : keeps (W:=W) (py_index l i).
Proof. intros s. unfold py_index. destruct (nth_error l i); reflexivity. Qed.

Lemma keeps_call {A} ev (op : W -> reply W A) : keeps (call ev op).
Proof.
  intros s. unfold call. destruct (op (world s)) as [[[e|a] w] dt]; reflexivity.
Qed.

Lemma keeps_call_out {A} ev (op : W -> answer A * W * N) : keeps (call_out ev op).
Proof.
  intros s. unfold call_out. destruct (op (world s)) as [[[a|e|b] w] dt]; reflexivity.
Qed.

Lemma keeps_bind {A B} (m : M W A) (k : A -> M W B) :
  keeps m -> (forall a, keeps (k a)) -> keeps (bind m k).
Proof.
  intros Hm Hk s. unfold bind. specialize (Hm s).
  destruct (m s) as [[a|e| |?] s1]; cbn [snd] in *; [|exact Hm..].
  rewrite (Hk a s1). exact Hm.
Qed.

Lemma keeps_try_except {A} (m : M W A) h :
  keeps m -> (forall e, keeps (h e)) -> keeps (try_except m h).
Proof.
  intros Hm Hh s. unfold try_except. specialize (Hm s).
  destruct (m s) as [[a|e| |?] s1]; cbn [snd] in *; [exact Hm| |exact Hm..].
  rewrite (Hh e s1). exact Hm.
Qed.

Lemma keeps_try_except_class {A} c (m h : M W A) :
  keeps m -> keeps h -> keeps (try_except_class c m h).
Proof.
  intros Hm Hh. apply keeps_try_except; [exact Hm|].
  intros e. destruct (is_class c e); [exact Hh | apply keeps_raise].
Qed.

Lemma keeps_try_finally {A} (m : M W A) f :
  keeps m -> keeps f -> keeps (try_finally m f).
Proof.
  intros Hm Hf s. unfold try_finally. specialize (Hm s).
  destruct (m s) as [[a|e| |?] s1]; cbn [snd] in *; [| |exact Hm|];
    specialize (Hf s1); destruct (f s1) as [[[]|e'| |?] s2]; cbn [snd] in *; congruence.
Qed.

End Keeping.

Ltac keep_leaf :=
  first
    [ solve [ auto with keep_db ]
    | apply keeps_ret
    | apply keeps_raise
    | apply keeps_sleep
    | apply keeps_time_time
    | apply keeps_get_self
    | apply keeps_log
    | apply keeps_observe
    | apply keeps_py_index
    | apply keeps_call
    | apply keeps_call_out ].

Ltac keep_step :=
  lazymatch goal with
  | |- keeps (bind _ _) => apply keeps_bind; [ | intro ]
  | |- keeps (try_except_class _ _ _) => apply keeps_try_except_class
  | |- keeps (try_except _ _) => apply keeps_try_except; [ | intro ]
  | |- keeps (try_finally _ _) => apply keeps_try_finally
  | |- keeps (if ?b then _ else _) => destruct b
  | |- keeps (match ?x with _ => _ end) => destruct x
  | |- keeps (let _ := _ in _) => cbv zeta
  | |- _ => keep_leaf
  end.

Ltac keep_tac := autounfold with flow_ops; repeat keep_step.

Section KeepingFlow.
Context {W : Type} {P : Platform W}.

Lemma keeps_datetime_now : keeps datetime_now.
Proof. intros s. reflexivity. Qed.
Local Hint Resolve keeps_datetime_now : keep_db.

Lemma keeps_save_screenshot name : keeps (_save_screenshot name).
Proof. unfold _save_screenshot. keep_tac. Qed.

Lemma keeps_extract_config email : keeps (_extract_config email).
Proof. unfold _extract_config. keep_tac. Qed.
Local Hint Resolve keeps_save_screenshot keeps_extract_config : keep_db.

Lemma keeps_type_keys el keys delay : keeps (type_keys el keys delay).
Proof. induction keys; simpl; keep_tac. Qed.

Lemma keeps_type_chars el txt delay : keeps (type_chars el txt delay).
Proof. apply keeps_type_keys. Qed.
Local Hint Resolve keeps_type_chars : keep_db.

Lemma keeps_wait_for_business_params n : keeps (_wait_for_business_params n).
Proof. induction n; simpl; keep_tac. Qed.

Lemma keeps_handle_agreement_page : keeps _handle_agreement_page.
Proof. unfold _handle_agreement_page. keep_tac. Qed.

Lemma keeps_scan_username_selectors sels cur : keeps (scan_username_selectors sels cur).
Proof. revert cur; induction sels; intros cur; simpl; keep_tac. Qed.
Local Hint Resolve keeps_scan_username_selectors : keep_db.

Lemma keeps_probe_username_input n cur : keeps (probe_username_input n cur).
Proof. revert cur; induction n; intros cur; simpl; keep_tac. Qed.
Local Hint Resolve keeps_probe_username_input : keep_db.

Lemma keeps_handle_username_setup : keeps _handle_username_setup.
Proof. unfold _handle_username_setup. keep_tac. Qed.

Lemma keeps_element_text el : keeps (_element_text el).
Proof. unfold _element_text. keep_tac. Qed.
Local Hint Resolve keeps_element_text : keep_db.

Lemma keeps_find_first_selector sels : keeps (find_first_selector sels).
Proof. induction sels; simpl; keep_tac. Qed.
Local Hint Resolve keeps_find_first_selector : keep_db.

Lemma keeps_has_captcha : keeps _has_captcha.
Proof. unfold _has_captcha. keep_tac. Qed.

Lemma keeps_button_like_elements : keeps button_like_elements.
Proof. unfold button_like_elements. keep_tac. Qed.

Lemma keeps_click_first_candidate els : keeps (click_first_candidate els).
Proof. induction els; simpl; keep_tac. Qed.

Lemma keeps_sample_buttons pool : keeps (sample_buttons pool).
Proof. induction pool; simpl; keep_tac. Qed.
Local Hint Resolve keeps_has_captcha keeps_button_like_elements keeps_click_first_candidate
  keeps_sample_buttons : keep_db.

Lemma keeps_log_candidate_buttons : keeps log_candidate_buttons.
Proof. unfold log_candidate_buttons. keep_tac. Qed.

Lemma keeps_send_code_attempt : keeps send_code_attempt.
Proof. unfold send_code_attempt, send_code_find_code_input. keep_tac. Qed.
Local Hint Resolve keeps_log_candidate_buttons keeps_send_code_attempt : keep_db.

Lemma keeps_out_of_fuel {A} : keeps (W:=W) (A:=A) (fun s => (OutOfFuel, s)).
Proof. intros s. reflexivity. Qed.

Lemma keeps_send_code_loop fuel start T : keeps (send_code_loop fuel start T).
Proof.
  induction fuel as [|k IH]; rewrite send_code_loop_unfold.
  - apply keeps_bind; [apply keeps_time_time|]. intros now.
    destruct (now - start <? T)%N; [apply keeps_out_of_fuel | apply keeps_ret].
  - apply keeps_bind; [apply keeps_time_time|]. intros now.
    destruct (now - start <? T)%N; [|apply keeps_ret].
    apply keeps_bind; [apply keeps_send_code_attempt|]. intros [b|]; [apply keeps_ret | exact IH].
Qed.
Local Hint Resolve keeps_send_code_loop : keep_db.

Lemma keeps_click_send_code_button fuel : keeps (_click_send_code_button fuel).
Proof. unfold _click_send_code_button, send_code_find_code_input. keep_tac. Qed.

Lemma keeps_code_input_loop fuel deadline : keeps (code_input_loop fuel deadline).
Proof.
  induction fuel as [|k IH]; rewrite code_input_loop_unfold.
  - apply keeps_bind; [apply keeps_time_time|]. intros now.
    destruct (now <? deadline)%N; [apply keeps_out_of_fuel | apply keeps_ret].
  - apply keeps_bind; [apply keeps_time_time|]. intros now.
    destruct (now <? deadline)%N; [|apply keeps_ret].
    apply keeps_bind; [apply keeps_find_first_selector|]. intros [el|]; [apply keeps_ret|].
    apply keeps_bind; [apply keeps_sleep | intros _; exact IH].
Qed.
Local Hint Resolve keeps_code_input_loop : keep_db.

Lemma keeps_wait_for_code_input fuel t : keeps (_wait_for_code_input fuel t).
Proof. unfold _wait_for_code_input. keep_tac. Qed.
Local Hint Resolve keeps_click_send_code_button keeps_wait_for_code_input
  keeps_wait_for_business_params keeps_handle_agreement_page
  keeps_handle_username_setup : keep_db.

Lemma keeps_flow_extract email : keeps (flow_extract email).
Proof. unfold flow_extract. keep_tac. Qed.
Local Hint Resolve keeps_flow_extract : keep_db.

Lemma keeps_flow_await_business_params email : keeps (flow_await_business_params email).
Proof. unfold flow_await_business_params. keep_tac. Qed.
Local Hint Resolve keeps_flow_await_business_params : keep_db.

Lemma keeps_flow_after_verify email : keeps (flow_after_verify email).
Proof. unfold flow_after_verify. keep_tac. Qed.
Local Hint Resolve keeps_flow_after_verify : keep_db.

Lemma keeps_click_first_verify buttons : keeps (click_first_verify buttons).
Proof. induction buttons; simpl; keep_tac. Qed.
Local Hint Resolve keeps_click_first_verify : keep_db.

Lemma keeps_click_verify : keeps click_verify.
Proof. unfold click_verify. keep_tac. Qed.
Local Hint Resolve keeps_click_verify : keep_db.

Lemma keeps_flow_click_verify email : keeps (flow_click_verify email).
Proof. unfold flow_click_verify. keep_tac. Qed.
Local Hint Resolve keeps_flow_click_verify : keep_db.

Lemma keeps_enter_code code : keeps (enter_code code).
Proof. unfold enter_code. keep_tac. Qed.
Local Hint Resolve keeps_enter_code : keep_db.

Lemma keeps_flow_enter_code email code : keeps (flow_enter_code email code).
Proof. unfold flow_enter_code. keep_tac. Qed.

Lemma keeps_code_timeout : keeps code_timeout.
Proof. unfold code_timeout. keep_tac. Qed.
Local Hint Resolve keeps_flow_enter_code keeps_code_timeout : keep_db.

Lemma keeps_flow_retrieve_code email mc send_time :
  keeps (flow_retrieve_code email mc send_time).
Proof. unfold flow_retrieve_code. keep_tac. Qed.
Local Hint Resolve keeps_flow_retrieve_code : keep_db.

Lemma keeps_flow_await_code_input fuel email mc send_time :
  keeps (flow_await_code_input fuel email mc send_time).
Proof. unfold flow_await_code_input. keep_tac. Qed.
Local Hint Resolve keeps_flow_await_code_input : keep_db.

Lemma keeps_flow_request_code fuel email mc : keeps (flow_request_code fuel email mc).
Proof. unfold flow_request_code. keep_tac. Qed.
Local Hint Resolve keeps_flow_request_code : keep_db.

Lemma keeps_click_continue : keeps click_continue.
Proof. unfold click_continue. keep_tac. Qed.
Local Hint Resolve keeps_click_continue : keep_db.

Lemma keeps_flow_click_continue fuel email mc : keeps (flow_click_continue fuel email mc).
Proof. unfold flow_click_continue. keep_tac. Qed.
Local Hint Resolve keeps_flow_click_continue : keep_db.

Lemma keeps_enter_email email : keeps (enter_email email).
Proof. unfold enter_email. keep_tac. Qed.
Local Hint Resolve keeps_enter_email : keep_db.

Lemma keeps_flow_enter_email fuel email mc : keeps (flow_enter_email fuel email mc).
Proof. unfold flow_enter_email. keep_tac. Qed.
Local Hint Resolve keeps_flow_enter_email : keep_db.

Lemma keeps_run_flow fuel email mc : keeps (_run_flow fuel email mc).
Proof. unfold _run_flow. keep_tac. Qed.

Lemma keeps_cleanup : keeps _cleanup.
Proof. intros s. destruct (cleanup_run s) as (evs & _ & H & _). exact H. Qed.

End KeepingFlow.

(** ** Creating the driver *)

Section Driver.
Context {W : Type} {P : Platform W}.

Lemma run_trace {A} p (m : M W A) s r s' :
  safe p m -> m s = (r, s') ->
  exists evs, trace s' = (trace s ++ evs)%list /\ forallb p evs = true.
Proof.
  intros H E. destruct (H s) as [_ [_ [T _]]]. rewrite E in T. exact T.
Qed.

Lemma run_self {A} (m : M W A) s r s' : keeps m -> m s = (r, s') -> self s' = self s.
Proof. intros H E. specialize (H s). rewrite E in H. exact H. Qed.

Lemma keeps_log_chrome_discovery bin : keeps (log_chrome_discovery bin).
Proof.
  unfold log_chrome_discovery. generalize fixed_candidates; intro candidates.
  assert (Hprobes : keeps (log_probes candidates)).
  { induction candidates; simpl; keep_tac. }
  keep_tac.
Qed.

Lemma safe_log_chrome_discovery bin : safe any_event (log_chrome_discovery bin).
Proof.
  unfold log_chrome_discovery. generalize fixed_candidates; intro candidates.
  pose proof (safe_log_probes any_event candidates).
  safe_tac.
Qed.

Lemma set_driver_run (s s' : st W) :
  set_driver s = (Ret tt, s') ->
  trace s' = trace s /\
  self s' = mk_self (user_agent (self s)) (proxy (self s)) (headless (self s))
              (timeout (self s)) (log_callback (self s)) true (user_data_dir (self s)).
Proof. unfold set_driver, bind, get_self, set_self. intros H. inversion H. auto. Qed.

(** What has happened when [_create_driver] returns. *)
Lemma create_driver_returns (s s0 : st W) :
  _create_driver s = (Ret tt, s0) ->
  exists dir evs,
    fst (fst (tempfile_mkdtemp "uc-profile-" (world s))) = inr dir /\
    self s0 = mk_self (user_agent (self s)) (proxy (self s)) (headless (self s))
                (timeout (self s)) (log_callback (self s)) true (Some dir) /\
    trace s0 = (trace s ++ EvMkdtemp "uc-profile-" :: evs
                ++ [EvSetPageLoadTimeout (timeout (self s)); EvImplicitlyWait 10])%list /\
    (exists bin, In (EvChrome (build_options (self s) dir) bin) evs).
Proof.
  unfold _create_driver. intros H.
  apply bind_inv in H as (dir & s1 & E1 & H).
  assert (T1 : trace s1 = (trace s ++ [EvMkdtemp "uc-profile-"])%list /\ self s1 = self s /\
               fst (fst (tempfile_mkdtemp "uc-profile-" (world s))) = inr dir).
  { unfold call in E1. destruct (tempfile_mkdtemp "uc-profile-" (world s)) as [[[e|a] w] dt];
      inversion E1; subst; auto. }
  destruct T1 as (T1 & S1 & Hdir).
  apply bind_inv in H as ([] & s2 & E2 & H).
  assert (T2 : trace s2 = trace s1 /\
               self s2 = mk_self (user_agent (self s)) (proxy (self s)) (headless (self s))
                           (timeout (self s)) (log_callback (self s)) (driver (self s))
                           (Some dir)).
  { unfold set_user_data_dir, bind, get_self, set_self in E2. inversion E2; subst.
    cbn [trace self]. rewrite S1. auto. }
  destruct T2 as [T2 S2].
  apply bind_inv in H as (o & s3 & E3 & H). unfold get_self in E3. inversion E3; subst o s3.
  clear E3. cbv zeta in H.
  apply bind_inv in H as (bin & s4 & E4 & H). unfold observe in E4. inversion E4; subst s4.
  clear E4.
  apply bind_inv in H as ([] & s5 & E5 & H).
  destruct (run_trace any_event _ _ _ _ (safe_log_chrome_discovery bin) E5) as (ev5 & T5 & _).
  pose proof (run_self _ _ _ _ (keeps_log_chrome_discovery bin) E5) as S5.
  apply bind_inv in H as ([] & s6 & E6 & H).
  assert (T6 : exists ev6 b,
             trace s6 = (trace s5 ++ ev6)%list /\
             In (EvChrome (build_options (self s2) dir) b) ev6 /\
             self s6 = mk_self (user_agent (self s)) (proxy (self s)) (headless (self s))
                         (timeout (self s)) (log_callback (self s)) true (Some dir)).
  { unfold try_except in E6.
    destruct (bind (call (EvChrome (build_options (self s2) dir) bin)
                      (uc_Chrome (build_options (self s2) dir) bin))
                (fun _ => set_driver) s5) as [[[]|e| |?] s7] eqn:E7.
    - inversion E6; subst s7. apply bind_inv in E7 as ([] & s8 & E8 & E9).
      apply set_driver_run in E9 as [T9 S9].
      unfold call in E8.
      destruct (uc_Chrome (build_options (self s2) dir) bin (world s5)) as [[[e|[]] w] dt];
        inversion E8; subst s8.
      exists [EvChrome (build_options (self s2) dir) bin], bin.
      rewrite T9, S9. cbn [trace self]. rewrite S5, S2. cbn. auto.
    - unfold bind in E7.
      destruct (call (EvChrome (build_options (self s2) dir) bin)
                  (uc_Chrome (build_options (self s2) dir) bin) s5) as [[[]|e1| |?] s8] eqn:E8.
      + unfold set_driver, bind, get_self, set_self in E7. discriminate.
      + inversion E7; subst e1 s8.
        unfold call in E8.
        destruct (uc_Chrome (build_options (self s2) dir) bin (world s5)) as [[[e1|[]] w] dt];
          inversion E8; subst e1 s7.
        destruct (is_class TypeError e); [|discriminate].
        apply bind_inv in E6 as ([] & s9 & E9 & E6).
        assert (T9 : trace s9 = (trace s5 ++ [EvChrome (build_options (self s2) dir) bin])%list
                     /\ self s9 = self s5).
        { unfold _log in E9. inversion E9. cbn [self].
          destruct (log_callback (self s5)); auto. }
        destruct T9 as [T9 S9]. cbv zeta in E6.
        apply bind_inv in E6 as ([] & s10 & E10 & E11).
        apply set_driver_run in E11 as [T11 S11].
        unfold call in E10.
        destruct (uc_Chrome (build_options (self s2) dir) None (world s9)) as [[[e1|[]] w'] dt'];
          inversion E10; subst s10.
        exists [EvChrome (build_options (self s2) dir) bin;
                EvChrome (build_options (self s2) dir) None], bin.
        rewrite T11, S11. cbn [trace self]. rewrite T9, S9, S5, S2, <- app_assoc. cbn. auto.
      + discriminate.
      + discriminate.
    - discriminate.
    - discriminate. }
  destruct T6 as (ev6 & b & T6 & I6 & S6).
  apply bind_inv in H as ([] & s7 & E7 & E8).
  assert (T7 : trace s7 = (trace s6 ++ [EvSetPageLoadTimeout (timeout (self s2))])%list
               /\ self s7 = self s6).
  { unfold call in E7.
    destruct (drv_set_page_load_timeout (timeout (self s2)) (world s6)) as [[[e|[]] w] dt];
      inversion E7; subst; auto. }
  destruct T7 as [T7 S7].
  assert (T8 : trace s0 = (trace s7 ++ [EvImplicitlyWait 10])%list /\ self s0 = self s7).
  { unfold call in E8.
    destruct (drv_implicitly_wait 10 (world s7)) as [[[e|[]] w] dt];
      inversion E8; subst; auto. }
  destruct T8 as [T8 S8].
  exists dir, (ev5 ++ ev6)%list. split; [exact Hdir|]. split; [congruence|]. split.
  - rewrite T8, T7, T6, T5, T2, T1, S2. cbn [timeout].
    rewrite <- !app_assoc. reflexivity.
  - exists b. apply in_or_app. right. rewrite S2 in I6.
    replace (build_options (self s) dir)
      with (build_options
              (mk_self (user_agent (self s)) (proxy (self s)) (headless (self s))
                 (timeout (self s)) (log_callback (self s)) (driver (self s)) (Some dir)) dir)
      by reflexivity.
    exact I6.
Qed.

End Driver.

(** X3: when [_create_driver] returns, the object holds a driver and the
    profile directory that [tempfile.mkdtemp] answered with, its other fields
    unchanged; making the directory was the first operation, Chrome was
    started with the options built for that directory, and the last two
    operations set the page-load timeout to [self.timeout] and the implicit
    wait to ten seconds. *)
Theorem create_driver_postcondition
    (W : Type) (P : Platform W) (s s0 : st W) (dir : string) (w1 : W) (t1 : N) :
  tempfile_mkdtemp "uc-profile-" (world s) = (inr dir, w1, t1) ->
  _create_driver s = (Ret tt, s0) ->
  exists evs,
    self s0 = mk_self (user_agent (self s)) (proxy (self s)) (headless (self s))
                (timeout (self s)) (log_callback (self s)) true (Some dir) /\
    trace s0 = (trace s ++ EvMkdtemp "uc-profile-" :: evs
                ++ [EvSetPageLoadTimeout (timeout (self s)); EvImplicitlyWait 10])%list /\
    (exists bin, In (EvChrome (build_options (self s) dir) bin) evs).
Proof.
  intros Hmk Hrun.
  destruct (create_driver_returns s s0 Hrun) as (dir' & evs & Hdir & Hself & Htrace & Hchrome).
  rewrite Hmk in Hdir. cbn [fst] in Hdir. inversion Hdir; subst dir'.
  exists evs. auto.
Qed.

Lemma create_driver_postcondition_witness :
  exists evs,
    self (snd (_create_driver (P:=Lab.platform) (Lab.start (Lab.plain LOGIN_URL))))
    = mk_self (_get_ua "120.0.0.0") "" true 60 true true (Some "/tmp/uc-profile-0") /\
    trace (snd (_create_driver (P:=Lab.platform) (Lab.start (Lab.plain LOGIN_URL))))
    = ([] ++ EvMkdtemp "uc-profile-" :: evs
       ++ [EvSetPageLoadTimeout 60; EvImplicitlyWait 10])%list /\
    (exists bin,
        In (EvChrome (build_options (__init__ "120.0.0.0" "" "" true 60 true)
                        "/tmp/uc-profile-0") bin) evs).
Proof.
  apply (create_driver_postcondition _ Lab.platform (Lab.start (Lab.plain LOGIN_URL)) _
           "/tmp/uc-profile-0" (Lab.plain LOGIN_URL) 0%N).
  - vm_compute. reflexivity.
  - vm_compute. reflexivity.
Defined.

(** X4: nothing in [_run_flow] changes the object: after it, whether it
    returned, raised or ran out of fuel, every field of [self] is what it was
    before. *)
Theorem run_flow_keeps_object
    (W : Type) (P : Platform W) (mail_client : MailClient W)
    (fuel : nat) (email : string) (s : st W) :
  self (snd (_run_flow fuel email mail_client s)) = self s.
Proof. apply keeps_run_flow. Qed.

(** X5: with fuel for a hundred passes, a run of [login_and_extract] ends
    with the operations of [_cleanup] and nothing after them: the driver is
    quit once when the object holds one, and besides that at most the profile
    directory the object holds is removed.  When [_create_driver] returned, the
    object at the end still holds that driver and that directory, and both
    are released, however the flow ended: the last operations are [quit] and,
    when the directory has a name and is there at that moment, [rmtree] on
    it. *)
Theorem login_ends_with_cleanup
    (W : Type) (P : Platform W) (mail_client : MailClient W)
    (fuel : nat) (email : string) (s : st W) :
  100 <= fuel ->
  exists pre post,
    trace (snd (login_and_extract fuel email mail_client s)) = (trace s ++ pre ++ post)%list /\
    forallb (is_cleanup (self (snd (login_and_extract fuel email mail_client s)))) post = true /\
    filter is_quit post
    = (if driver (self (snd (login_and_extract fuel email mail_client s)))
       then [EvQuit] else []) /\
    (forall s0, _create_driver s = (Ret tt, s0) ->
                self (snd (login_and_extract fuel email mail_client s)) = self s0 /\
                driver (self s0) = true /\
                exists dir w1,
                  user_data_dir (self s0) = Some dir /\
                  post = EvQuit :: (if (dir =? "") then []
                                    else if os_path_exists dir w1 then [EvRmtree dir]
                                         else [])).
Proof.
  intros Hfuel.
  set (body := try_except
                 (_create_driver;; _run_flow fuel email mail_client)
                 (fun exc => _log "error" ("automation error: " ++ str_exn exc);;
                             ret (failure (str_exn exc)))).
  assert (Hsafe : safe any_event body).
  { unfold body. apply safe_try_except.
    - apply safe_bind; [apply safe_create_driver, any_event_ok'|].
      intros _. apply safe_run_flow, Hfuel.
    - intros e. apply safe_bind; [apply safe_log | intros _; apply safe_ret]. }
  destruct (body s) as [r s1] eqn:Ebody.
  destruct (run_trace any_event _ _ _ _ Hsafe Ebody) as (pre & Tpre & _).
  destruct (cleanup_run s1) as (post & Hrun & Hself & _ & Tpost & Hall & Hquit).
  destruct (cleanup_exact s1) as (w1 & Texact).
  assert (Hr : r <> OutOfFuel).
  { destruct (Hsafe s) as [Hf _]. rewrite Ebody in Hf. exact Hf. }
  assert (Hend : snd (login_and_extract fuel email mail_client s) = snd (_cleanup s1)).
  { unfold login_and_extract, try_finally. fold body. rewrite Ebody, Hrun.
    destruct r; try reflexivity. contradiction. }
  rewrite Hend, Hself. exists pre, post. split; [|split; [|split]].
  - rewrite Tpost, Tpre, app_assoc. reflexivity.
  - exact Hall.
  - exact Hquit.
  - intros s0 Hcreate.
    destruct (create_driver_returns s s0 Hcreate) as (dir & evs & _ & S0 & _).
    assert (S1 : self s1 = self s0).
    { unfold body, try_except in Ebody. unfold bind at 1 in Ebody. rewrite Hcreate in Ebody.
      destruct (_run_flow fuel email mail_client s0) as [[d|e| |?] s2] eqn:Eflow;
        pose proof (run_self _ _ _ _ (keeps_run_flow fuel email mail_client) Eflow) as S2.
      + inversion Ebody; subst. exact S2.
      + unfold bind, _log, ret in Ebody. inversion Ebody; subst. cbn [self].
        destruct (log_callback (self s2)); exact S2.
      + inversion Ebody; subst. exact S2.
      + inversion Ebody; subst. exact S2. }
    split; [exact S1|]. split; [rewrite S0; reflexivity|].
    exists dir, w1. split; [rewrite S0; reflexivity|].
    rewrite Tpost in Texact. apply app_inv_head in Texact.
    rewrite Texact, S1, S0. reflexivity.
Qed.

Lemma login_ends_with_cleanup_witness :
  100 <= 100 /\
  In (EvRmtree "/tmp/uc-profile-0")
     (trace (snd (login_and_extract (P:=Lab.platform) 100 "a@b.c" Lab.mail
                    (Lab.start Lab.login_form_with_profile)))) /\
  exists pre post,
    trace (snd (login_and_extract (P:=Lab.platform) 100 "a@b.c" Lab.mail
                  (Lab.start Lab.login_form_with_profile))) = ([] ++ pre ++ post)%list /\
    forallb (is_cleanup
               (self (snd (login_and_extract (P:=Lab.platform) 100 "a@b.c" Lab.mail
                             (Lab.start Lab.login_form_with_profile))))) post = true /\
    filter is_quit post
    = (if driver (self (snd (login_and_extract (P:=Lab.platform) 100 "a@b.c" Lab.mail
                               (Lab.start Lab.login_form_with_profile))))
       then [EvQuit] else []) /\
    (forall s0,
        _create_driver (P:=Lab.platform) (Lab.start Lab.login_form_with_profile)
        = (Ret tt, s0) ->
        self (snd (login_and_extract (P:=Lab.platform) 100 "a@b.c" Lab.mail
                     (Lab.start Lab.login_form_with_profile))) = self s0 /\
        driver (self s0) = true /\
        exists dir w1,
          user_data_dir (self s0) = Some dir /\
          post = EvQuit :: (if (dir =? "") then []
                            else if os_path_exists (Platform:=Lab.platform) dir w1
                                 then [EvRmtree dir] else [])).
Proof.
  split; [apply le_n|]. split.
  - vm_compute. repeat first [ left; reflexivity | right ].
  - exact (login_ends_with_cleanup _ Lab.platform Lab.mail 100 "a@b.c"
             (Lab.start Lab.login_form_with_profile) (le_n 100)).
Defined.

(** ** What the cuts leave *)

Section Cuts.

Lemma prefix_drop (sep x : string) :
  prefix sep x = true -> x = sep ++ PyStr.drop (String.length sep) x.
Proof.
  revert x; induction sep as [|d sep IH]; intros x Hp; [reflexivity|].
  destruct x as [|e x]; simpl in *; [discriminate|].
  destruct (ascii_dec d e); [subst|discriminate]. f_equal. apply IH, Hp.
Qed.

Lemma prefix_app_ext (a x y : string) : prefix a x = true -> prefix a (x ++ y) = true.
Proof.
  revert x; induction a as [|c a IH]; intros x H; [destruct (x ++ y); reflexivity|].
  destruct x as [|d x]; simpl in *; [discriminate|].
  destruct (ascii_dec c d); [apply IH, H | discriminate].
Qed.

(** [s.partition(sep)] cuts [s] at an occurrence of [sep]. *)
Lemma partition_app (sep s a b : string) :
  PyStr.partition sep s = Some (a, b) -> s = a ++ sep ++ b.
Proof.
  revert a b; induction s as [|c s IH]; intros a b; rewrite partition_unfold.
  - destruct (prefix sep "") eqn:Hp; [|discriminate].
    intros H; inversion H; subst. apply prefix_drop in Hp. exact Hp.
  - destruct (prefix sep (String c s)) eqn:Hp.
    + intros H; inversion H; subst. apply prefix_drop in Hp. exact Hp.
    + destruct (PyStr.partition sep s) as [[a' b']|]; [|discriminate].
      intros H; inversion H; subst. simpl. f_equal. apply IH. reflexivity.
Qed.

Lemma contains_app_l (sub a b : string) :
  PyStr.contains sub a = true -> PyStr.contains sub (a ++ b) = true.
Proof.
  induction a as [|c a IH]; rewrite contains_unfold.
  - destruct (prefix sub "") eqn:Hp; [|discriminate]. intros _.
    rewrite contains_unfold. rewrite (prefix_app_ext sub "" b Hp). reflexivity.
  - destruct (prefix sub (String c a)) eqn:Hp; intros H.
    + rewrite contains_unfold, (prefix_app_ext sub (String c a) b Hp). reflexivity.
    + cbn [append]. rewrite contains_unfold. destruct (prefix sub (String c (a ++ b))); auto.
Qed.

(** the occurrence is the first one *)
Lemma partition_clean (sep s a b : string) :
  sep <> "" -> PyStr.partition sep s = Some (a, b) -> PyStr.contains sep a = false.
Proof.
  intros Hsep. revert a b; induction s as [|c s IH]; intros a b; rewrite partition_unfold.
  - destruct (prefix sep "") eqn:Hp; [|discriminate].
    rewrite prefix_nil_r in Hp by assumption. discriminate.
  - destruct (prefix sep (String c s)) eqn:Hp.
    + intros H; inversion H; subst. rewrite contains_unfold, prefix_nil_r by assumption.
      reflexivity.
    + destruct (PyStr.partition sep s) as [[a' b']|] eqn:E; [|discriminate].
      intros H; inversion H; subst. rewrite contains_unfold.
      destruct (prefix sep (String c a')) eqn:Hp'.
      * apply (prefix_app_ext _ _ (sep ++ b)) in Hp'. cbn [append] in Hp'.
        rewrite <- (partition_app _ _ _ _ E) in Hp'. congruence.
      * eapply IH. reflexivity.
Qed.

Lemma before_clean (sep s : string) : sep <> "" -> PyStr.contains sep (before sep s) = false.
Proof.
  intros Hsep. unfold before. destruct (PyStr.partition sep s) as [[a b]|] eqn:E.
  - eapply partition_clean; eauto.
  - destruct (PyStr.contains sep s) eqn:C; [|reflexivity].
    apply partition_contains in C. destruct C as (a & b & C). congruence.
Qed.

Lemma before_keeps_clean (sub sep s : string) :
  PyStr.contains sub s = false -> PyStr.contains sub (before sep s) = false.
Proof.
  intros H. unfold before. destruct (PyStr.partition sep s) as [[a b]|] eqn:E; [|exact H].
  destruct (PyStr.contains sub a) eqn:C; [|reflexivity].
  apply (contains_app_l _ _ (sep ++ b)) in C. rewrite <- (partition_app _ _ _ _ E) in C.
  congruence.
Qed.

Lemma tenant_of_clean (url : string) :
  PyStr.contains "/" (tenant_of url) = false /\ PyStr.contains "?" (tenant_of url) = false.
Proof.
  unfold tenant_of. destruct (PyStr.partition "cid/" url) as [[a b]|]; [|split; reflexivity].
  split.
  - apply before_clean. discriminate.
  - apply before_keeps_clean, before_clean. discriminate.
Qed.

Lemma session_of_clean (url : string) : PyStr.contains "&" (session_of url) = false.
Proof.
  unfold session_of. destruct (PyStr.partition "csesidx=" url) as [[a b]|]; [|reflexivity].
  apply before_clean. discriminate.
Qed.

End Cuts.

(** ** The extractor, case by case *)

Section ExtractorCases.
Context {W : Type} {P : Platform W}.

Lemma success_not_failure config error : success config <> failure error.
Proof. discriminate. Qed.

Lemma failure_not_success error : ~ is_success (failure error).
Proof. intros (config & H & _). discriminate. Qed.

(** A success of the extractor was read off a URL with the tenant marker. *)
Lemma extract_config_success email (s s' : st W) d :
  _extract_config email s = (Ret d, s') -> is_success d ->
  exists url jar now,
    PyStr.contains "cid/" url = true /\
    d = success (bundle email (session_of url) (tenant_of url)
                   (cookie_value "__Secure-C_SES" jar) (cookie_value "__Host-C_OSES" jar)
                   (expiry_text jar now)) /\
    exists evs, trace s' = (trace s ++ evs ++ [EvCurrentUrl; EvGetCookies])%list.
Proof.
  unfold _extract_config, try_except. intros H Hd.
  match type of H with
  | (match ?m s with _ => _ end) = _ => destruct (m s) as [[d0|e| |?] s0] eqn:E
  end; [|inversion H; subst; exfalso; eapply failure_not_success; eauto
        | discriminate | discriminate].
  inversion H; subst d0 s0. clear H.
  apply bind_inv in E as (u & s1 & E1 & E).
  apply bind_inv in E as ([] & s2 & E2 & E).
  apply bind_inv in E as (url & s3 & E3 & E).
  destruct (PyStr.contains "cid/" url) eqn:Hcid; cbn [negb] in E;
    [|inversion E; subst; exfalso; eapply failure_not_success; eauto].
  pose proof Hcid as Hc. apply partition_contains in Hc. destruct Hc as (a & b & Hpart).
  erewrite bind_ret_step in E;
    [|apply py_index_ok; eapply split_1; [discriminate | exact Hpart]].
  erewrite bind_ret_step in E; [|apply py_index_ok, split_0; discriminate].
  erewrite bind_ret_step in E; [|apply py_index_ok, split_0; discriminate].
  erewrite bind_ret_step in E; [|apply session_run].
  apply bind_inv in E as (jar & s4 & E4 & E). cbv zeta in E.
  assert (T1 : exists ev1, trace s1 = (trace s ++ ev1)%list).
  { unfold current_url, call in E1.
    destruct (drv_current_url (world s)) as [[[e|x] w] dt]; inversion E1; subst;
      cbn [trace]; eauto. }
  assert (T2 : exists ev2, trace s2 = (trace s1 ++ ev2)%list).
  { destruct (negb (PyStr.contains "cid/" u)).
    - apply bind_inv in E2 as ([] & s5 & E5 & E6). unfold sleep in E6. inversion E6; subst.
      cbn [trace]. unfold get, call in E5.
      destruct (drv_get BUSINESS_URL (world s1)) as [[[e|x] w] dt]; inversion E5; subst;
        cbn [trace]; eauto.
    - inversion E2; subst. exists []. rewrite app_nil_r. reflexivity. }
  assert (T3 : trace s3 = (trace s2 ++ [EvCurrentUrl])%list).
  { unfold current_url, call in E3.
    destruct (drv_current_url (world s2)) as [[[e|x] w] dt]; inversion E3; subst;
      reflexivity. }
  assert (T4 : trace s4 = (trace s3 ++ [EvGetCookies])%list).
  { unfold get_cookies, call in E4.
    destruct (drv_get_cookies (world s3)) as [[[e|x] w] dt]; inversion E4; subst;
      reflexivity. }
  destruct T1 as (ev1 & T1). destruct T2 as (ev2 & T2).
  assert (T : forall s'' : st W, trace s'' = trace s4 ->
                exists evs, trace s'' = (trace s ++ evs ++ [EvCurrentUrl; EvGetCookies])%list).
  { intros s'' ->. exists (ev1 ++ ev2)%list. rewrite T4, T3, T2, T1, <- !app_assoc.
    reflexivity. }
  exists url, jar, (local_time (clock s4)). split; [exact Hcid|].
  unfold expiry_text, cookie_value, tenant_of. rewrite Hpart.
  destruct (find (cookie_named "__Secure-C_SES") jar) as [c|];
    [destruct (ck_expiry c) as [expiry|]|];
    unfold bind, datetime_now, ret in E; inversion E; subst; (split; [reflexivity|]);
    apply T; reflexivity.
Qed.

End ExtractorCases.

(** X6: a bundle returned by [_extract_config] carries the email it was asked
    for; its config_id contains neither [/] nor [?], its csesidx no [&]; and
    the last two operations before it were a read of the URL and a read of the
    cookie jar. *)
Theorem extract_config_bundle_well_formed
    (W : Type) (P : Platform W) (email : string) (s s' : st W) (d : dict) :
  _extract_config email s = (Ret d, s') -> is_success d ->
  exists csesidx config_id ses host expires_at,
    d = success (bundle email csesidx config_id ses host expires_at) /\
    PyStr.contains "/" config_id = false /\
    PyStr.contains "?" config_id = false /\
    PyStr.contains "&" csesidx = false /\
    exists evs, trace s' = (trace s ++ evs ++ [EvCurrentUrl; EvGetCookies])%list.
Proof.
  intros H Hd. destruct (extract_config_success email s s' d H Hd)
    as (url & jar & now & _ & -> & T).
  do 5 eexists. split; [reflexivity|].
  destruct (tenant_of_clean url) as [H1 H2]. pose proof (session_of_clean url). auto.
Qed.

Lemma extract_config_bundle_well_formed_witness :
  exists csesidx config_id ses host expires_at,
    success (bundle "a@b.c" "XYZ" "ACME123" (Some "ses-value") (Some "host-value")
               "2023-11-15 14:00:00")
    = success (bundle "a@b.c" csesidx config_id ses host expires_at) /\
    PyStr.contains "/" config_id = false /\
    PyStr.contains "?" config_id = false /\
    PyStr.contains "&" csesidx = false /\
    exists evs,
      trace (snd (_extract_config (P:=Sim.platform) "a@b.c"
                    (Sim.start Sim.live
                       (Sim.mk_browser
                          (Sim.console [Sim.ses_cookie 1700100000; Sim.host_cookie]) [] None))))
      = ([] ++ evs ++ [EvCurrentUrl; EvGetCookies])%list.
Proof.
  apply (extract_config_bundle_well_formed _ Sim.platform "a@b.c"
           (Sim.start Sim.live
              (Sim.mk_browser (Sim.console [Sim.ses_cookie 1700100000; Sim.host_cookie]) [] None))).
  - vm_compute. reflexivity.
  - eexists. split; reflexivity.
Defined.

(** X7: when the URL has no [cid/], [_extract_config] opens the business page,
    waits three seconds and reads the URL again; when [cid/] is still missing
    it returns the failure "cid not found", without reading the cookie jar. *)
Theorem extract_config_without_tenant
    (W : Type) (P : Platform W) (email : string) (s : st W)
    (u1 u2 : string) (w1 w2 w3 : W) (t1 t2 t3 : N) :
  drv_current_url (world s) = (inr u1, w1, t1) ->
  PyStr.contains "cid/" u1 = false ->
  drv_get BUSINESS_URL w1 = (inr tt, w2, t2) ->
  drv_current_url w2 = (inr u2, w3, t3) ->
  PyStr.contains "cid/" u2 = false ->
  _extract_config email s
  = (Ret (failure "cid not found"),
     mk_st w3 (clock s + t1 + t2 + 3000 + t3)%N (self s) (logs s)
       (trace s ++ [EvCurrentUrl; EvGet BUSINESS_URL; EvCurrentUrl])).
Proof.
  intros H1 C1 H2 H3 C3. unfold _extract_config. apply try_ret_step.
  eapply bind_ret_eq; [apply call_ok; exact H1|]. rewrite C1. cbn [negb].
  eapply bind_ret_eq.
  { eapply bind_ret_eq; [apply call_ok; exact H2 | reflexivity]. }
  eapply bind_ret_eq; [apply call_ok; exact H3|]. rewrite C3. cbn [negb].
  cbn [world clock self logs trace]. rewrite <- !app_assoc. reflexivity.
Qed.

Lemma extract_config_without_tenant_witness :
  _extract_config (P:=Blank.platform) "a@b.c" Blank.start
  = (Ret (failure "cid not found"),
     mk_st tt (1700000000000 + 0 + 0 + 3000 + 0)%N Sim.live []
       ([] ++ [EvCurrentUrl; EvGet BUSINESS_URL; EvCurrentUrl])).
Proof.
  exact (extract_config_without_tenant unit Blank.platform "a@b.c" Blank.start
           AUTH_HOME_URL AUTH_HOME_URL tt tt tt 0%N 0%N 0%N
           eq_refl eq_refl eq_refl eq_refl eq_refl).
Defined.

(** X8: [_extract_config] never raises: it returns a success or a failure
    dict; an exception raised by the first read of the URL, or by the read of
    the cookie jar on a URL with the tenant marker, comes back as the failure
    whose error is the text of the exception. *)
Theorem extract_config_reports_errors
    (W : Type) (P : Platform W) (email : string) (s : st W) :
  (exists d, fst (_extract_config email s) = Ret d /\ (is_success d \/ is_failure d)) /\
  (forall e w t,
      drv_current_url (world s) = (inl e, w, t) ->
      fst (_extract_config email s) = Ret (failure (str_exn e))) /\
  (forall url w1 t1 w2 t2 e w3 t3,
      drv_current_url (world s) = (inr url, w1, t1) ->
      drv_current_url w1 = (inr url, w2, t2) ->
      PyStr.contains "cid/" url = true ->
      drv_get_cookies w2 = (inl e, w3, t3) ->
      fst (_extract_config email s) = Ret (failure (str_exn e))).
Proof.
  split; [|split].
  - destruct (_extract_config email s) as [[d|e| |b] s'] eqn:E.
    + exists d. split; [reflexivity|]. exact (returns_extract_config email s d s' E).
    + exfalso. assert (Q : quiet (_extract_config email)).
      { unfold _extract_config. apply quiet_try_except. intro. apply quiet_ret. }
      apply (Q s e). rewrite E. reflexivity.
    + exfalso. destruct (safe_extract_config_only email s) as [H _]. apply H.
      rewrite E. reflexivity.
    + exfalso. apply (passes_extract_config (fun _ => False) email s b).
      rewrite E. reflexivity.
  - intros e w t H. unfold _extract_config.
    erewrite try_raise_step; [reflexivity|].
    eapply bind_raise_step. apply call_raise. exact H.
  - intros url w1 t1 w2 t2 e w3 t3 H1 H2 Hcid H3. unfold _extract_config.
    erewrite try_raise_step; [reflexivity|].
    eapply bind_ret_eq; [apply call_ok; exact H1|]. rewrite Hcid. cbn [negb].
    eapply bind_ret_eq; [reflexivity|].
    eapply bind_ret_eq; [apply call_ok; exact H2|]. rewrite Hcid. cbn [negb].
    pose proof Hcid as Hc. apply partition_contains in Hc. destruct Hc as (a & b & Hpart).
    eapply bind_ret_eq; [apply py_index_ok; eapply split_1; [discriminate | exact Hpart]|].
    eapply bind_ret_eq; [apply py_index_ok, split_0; discriminate|].
    eapply bind_ret_eq; [apply py_index_ok, split_0; discriminate|].
    eapply bind_ret_eq; [apply session_run|].
    eapply bind_raise_step. apply call_raise. exact H3.
Qed.

Lemma extract_config_reports_errors_witness :
  fst (_extract_config (P:=Lab.platform) "a@b.c"
         (Lab.start
            (Lab.mk_machine None [] [] Sim.console_url [] None
               (Some (mk_exn OtherException "invalid session id")))))
  = Ret (failure "invalid session id").
Proof.
  pose (w := Lab.mk_machine None [] [] Sim.console_url [] None
               (Some (mk_exn OtherException "invalid session id"))).
  apply (proj2 (proj2 (extract_config_reports_errors _ Lab.platform "a@b.c" (Lab.start w)))
           Sim.console_url w 0%N w 0%N (mk_exn OtherException "invalid session id") w 0%N);
    reflexivity.
Defined.

(** ** The agreement page *)

(** X9: [_handle_agreement_page] only reads the URL when it does not contain
    [/admin/create]; on the agreement page a time-out of the wait for the
    agree button is swallowed, nothing being clicked; any other exception, for
    example one raised by the click, leaves the method. *)
Theorem handle_agreement_page_cases (W : Type) (P : Platform W) (s : st W) :
  (forall url w t,
      drv_current_url (world s) = (inr url, w, t) ->
      PyStr.contains "/admin/create" url = false ->
      _handle_agreement_page s
      = (Ret tt, mk_st w (clock s + t)%N (self s) (logs s) (trace s ++ [EvCurrentUrl]))) /\
  (forall url w t e w' t',
      drv_current_url (world s) = (inr url, w, t) ->
      PyStr.contains "/admin/create" url = true ->
      drv_wait_until 5 (element_to_be_clickable CSS_SELECTOR "button.agree-button") w
      = (inl e, w', t') ->
      exn_cls e = TimeoutException ->
      _handle_agreement_page s
      = (Ret tt,
         mk_st w' (clock s + t + t')%N (self s) (logs s)
           (trace s ++ [EvCurrentUrl;
                        EvWaitUntil 5 (element_to_be_clickable CSS_SELECTOR "button.agree-button")]))) /\
  (forall url w t el w1 t1 e w2 t2,
      drv_current_url (world s) = (inr url, w, t) ->
      PyStr.contains "/admin/create" url = true ->
      drv_wait_until 5 (element_to_be_clickable CSS_SELECTOR "button.agree-button") w
      = (inr el, w1, t1) ->
      el_click el w1 = (inl e, w2, t2) ->
      exn_cls e <> TimeoutException ->
      fst (_handle_agreement_page s) = Raise e).
Proof.
  split; [|split].
  - intros url w t H C. unfold _handle_agreement_page.
    eapply bind_ret_eq; [apply call_ok; exact H|]. rewrite C. reflexivity.
  - intros url w t e w' t' H C Hw He. unfold _handle_agreement_page.
    eapply bind_ret_eq; [apply call_ok; exact H|]. rewrite C.
    unfold try_except_class. erewrite try_raise_step.
    2:{ eapply bind_raise_step. apply call_raise. exact Hw. }
    unfold is_class. rewrite He. cbn [world clock self logs trace].
    rewrite <- app_assoc. reflexivity.
  - intros url w t el w1 t1 e w2 t2 H C Hw Hc He. unfold _handle_agreement_page.
    erewrite bind_ret_eq; [| apply call_ok; exact H | reflexivity]. rewrite C.
    unfold try_except_class. erewrite try_raise_step.
    2:{ eapply bind_ret_eq; [apply call_ok; exact Hw|].
        eapply bind_raise_step. apply call_raise. exact Hc. }
    unfold is_class. destruct (exn_cls e); try reflexivity. contradiction.
Qed.

Lemma handle_agreement_page_cases_witness :
  fst (_handle_agreement_page (P:=Lab.platform)
         (Lab.start
            (Lab.mk_machine None [] [] "https://business.gemini.google/admin/create"
               [(CSS_SELECTOR, "button.agree-button", 9)]
               (Some (mk_exn OtherException "element click intercepted")) None)))
  = Raise (mk_exn OtherException "element click intercepted").
Proof.
  pose (w := Lab.mk_machine None [] [] "https://business.gemini.google/admin/create"
               [(CSS_SELECTOR, "button.agree-button", 9)]
               (Some (mk_exn OtherException "element click intercepted")) None).
  apply (proj2 (proj2 (handle_agreement_page_cases _ Lab.platform (Lab.start w)))
           "https://business.gemini.google/admin/create" w 0%N 9 w 0%N
           (mk_exn OtherException "element click intercepted") w 0%N);
    try reflexivity.
  discriminate.
Defined.

(** ** Asking for the code *)

(** X10: when a code-entry field is already on the page, [_click_send_code_button]
    waits a second, finds it at the first selector and returns [True]: it
    looks for no challenge and no button and clicks nothing. *)
Theorem click_send_code_button_skips
    (W : Type) (P : Platform W) (fuel : nat) (s : st W) (el : elem) (w : W) (t : N) :
  drv_find_element CSS_SELECTOR "input[name='pinInput']" (world s) = (inr el, w, t) ->
  _click_send_code_button fuel s
  = (Ret true,
     mk_st w (clock s + 1000 + t)%N (self s) (logs s)
       (trace s ++ [EvFindElement CSS_SELECTOR "input[name='pinInput']"])).
Proof.
  intros H. unfold _click_send_code_button, send_code_find_code_input.
  eapply bind_ret_eq; [reflexivity|].
  eapply bind_ret_eq.
  { unfold code_input_selectors. cbn [find_first_selector].
    eapply bind_ret_eq;
      [apply try_ret_step; eapply bind_ret_eq; [apply call_ok; exact H | reflexivity]|].
    reflexivity. }
  reflexivity.
Qed.

Lemma click_send_code_button_skips_witness :
  _click_send_code_button (P:=Sim.platform) 0
    (Sim.start Sim.live (Sim.mk_browser Sim.login_page [] None))
  = (Ret true,
     mk_st (Sim.mk_browser Sim.login_page [] None) (1700000000000 + 1000 + 0)%N Sim.live []
       ([] ++ [EvFindElement CSS_SELECTOR "input[name='pinInput']"])).
Proof.
  exact (click_send_code_button_skips _ Sim.platform 0
           (Sim.start Sim.live (Sim.mk_browser Sim.login_page [] None))
           5 (Sim.mk_browser Sim.login_page [] None) 0%N eq_refl).
Defined.

(** ** Typing *)

Section Typing.
Context {W : Type} {P : Platform W}.

Lemma call_inv {A} (ev : event) (op : W -> reply W A) (s s' : st W) a :
  call ev op s = (Ret a, s') ->
  trace s' = (trace s ++ [ev])%list /\ (clock s <= clock s')%N /\
  self s' = self s /\ logs s' = logs s.
Proof.
  unfold call. destruct (op (world s)) as [[[e|x] w] dt]; intros H; inversion H; subst.
  cbn. repeat split; auto. lia.
Qed.

Lemma log_inv level message (s s' : st W) :
  _log level message s = (Ret tt, s') -> trace s' = trace s /\ clock s' = clock s.
Proof.
  unfold _log. intros H. inversion H. destruct (log_callback (self s)); auto.
Qed.

Lemma sleep_inv ms (s s' : st W) :
  sleep ms s = (Ret tt, s') -> trace s' = trace s /\ clock s' = (clock s + ms)%N.
Proof. unfold sleep. intros H. inversion H. auto. Qed.

Lemma type_keys_run el keys delay (s s' : st W) :
  type_keys el keys delay s = (Ret tt, s') ->
  trace s' = (trace s ++ map (EvSendKeys el) keys)%list /\
  (clock s + delay * N.of_nat (List.length keys) <= clock s')%N.
Proof.
  revert s. induction keys as [|k keys IH]; intros s H.
  - inversion H; subst. cbn. rewrite app_nil_r. split; [reflexivity | lia].
  - cbn [type_keys] in H.
    apply bind_inv in H as ([] & s1 & E1 & H). apply call_inv in E1 as (T1 & C1 & _).
    apply bind_inv in H as ([] & s2 & E2 & H). apply sleep_inv in E2 as (T2 & C2).
    apply IH in H as (T & C). split.
    + rewrite T, T2, T1, <- app_assoc. reflexivity.
    + cbn [List.length]. lia.
Qed.

(** [type_chars] sends the characters one by one, in order, pausing after each. *)
Lemma type_chars_run el txt delay (s s' : st W) :
  type_chars el txt delay s = (Ret tt, s') ->
  trace s' = (trace s ++ keystrokes el txt)%list /\
  (clock s + delay * N.of_nat (PyStr.len txt) <= clock s')%N.
Proof. apply type_keys_run. Qed.

End Typing.

(** X11: when EnterEmail goes through, what was done is: wait for the email
    field, click it, clear it, and send the address to it one character (one
    code point, whatever the number of bytes of its encoding) at a time, in
    order; at least 20 ms per character and half a second have passed; when
    it does not go through, the result is a failure that begins
    "failed to enter email: " and is what the flow returns. *)
Theorem enter_email_types_the_address
    (W : Type) (P : Platform W) (mail_client : MailClient W)
    (fuel : nat) (email : string) (s s' : st W) :
  (enter_email email s = (Ret None, s') ->
   exists el,
     trace s' = (trace s
                 ++ [EvWaitUntil 30 (element_to_be_clickable XPATH EMAIL_INPUT_XPATH);
                     EvClick el; EvClear el]
                 ++ keystrokes el email)%list /\
     (clock s + 500 + 20 * N.of_nat (PyStr.len email) <= clock s')%N) /\
  (forall d, enter_email email s = (Ret (Some d), s') ->
             (exists e, d = failure ("failed to enter email: " ++ str_exn e)) /\
             flow_enter_email fuel email mail_client s = (Ret d, s')).
Proof.
  split.
  - unfold enter_email, try_except. intros H.
    match type of H with
    | (match ?m s with _ => _ end) = _ => destruct (m s) as [[r|e| |?] s0] eqn:E
    end.
    + inversion H; subst r s0. clear H.
      apply bind_inv in E as ([] & s1 & E1 & E). apply log_inv in E1 as (T1 & C1).
      apply bind_inv in E as (el & s2 & E2 & E). apply call_inv in E2 as (T2 & C2 & _).
      apply bind_inv in E as ([] & s3 & E3 & E). apply call_inv in E3 as (T3 & C3 & _).
      apply bind_inv in E as ([] & s4 & E4 & E). apply call_inv in E4 as (T4 & C4 & _).
      apply bind_inv in E as ([] & s5 & E5 & E). apply type_chars_run in E5 as (T5 & C5).
      apply bind_inv in E as ([] & s6 & E6 & E). apply sleep_inv in E6 as (T6 & C6).
      inversion E; subst s6. exists el. split.
      * rewrite T6, T5, T4, T3, T2, T1, <- !app_assoc. reflexivity.
      * lia.
    + apply bind_inv in H as (? & ? & _ & H). apply bind_inv in H as (? & ? & _ & H).
      inversion H.
    + discriminate.
    + discriminate.
  - intros d H. split.
    + unfold enter_email, try_except in H.
      match type of H with
      | (match ?m s with _ => _ end) = _ => destruct (m s) as [[r|e| |?] s0] eqn:E
      end.
      * inversion H; subst r s0.
        apply bind_inv in E as (? & ? & _ & E). apply bind_inv in E as (? & ? & _ & E).
        apply bind_inv in E as (? & ? & _ & E). apply bind_inv in E as (? & ? & _ & E).
        apply bind_inv in E as (? & ? & _ & E). apply bind_inv in E as (? & ? & _ & E).
        inversion E.
      * apply bind_inv in H as (? & ? & _ & H). apply bind_inv in H as (? & ? & _ & H).
        inversion H; subst. eexists. reflexivity.
      * discriminate.
      * discriminate.
    + unfold flow_enter_email. eapply bind_ret_eq; [exact H | reflexivity].
Qed.

Lemma enter_email_types_the_address_witness :
  keystrokes 1 "ü@b.c"
  = [EvSendKeys 1 "ü"; EvSendKeys 1 "@"; EvSendKeys 1 "b"; EvSendKeys 1 "."; EvSendKeys 1 "c"] /\
  exists el,
    trace (snd (enter_email (P:=Sim.platform) "ü@b.c"
                  (Sim.start Sim.live (Sim.mk_browser Sim.login_page [] None))))
    = ([] ++ [EvWaitUntil 30 (element_to_be_clickable XPATH EMAIL_INPUT_XPATH);
              EvClick el; EvClear el]
       ++ keystrokes el "ü@b.c")%list /\
    (1700000000000 + 500 + 20 * N.of_nat (PyStr.len "ü@b.c")
     <= clock (snd (enter_email (P:=Sim.platform) "ü@b.c"
                      (Sim.start Sim.live (Sim.mk_browser Sim.login_page [] None)))))%N.
Proof.
  split; [reflexivity|].
  apply (proj1 (enter_email_types_the_address _ Sim.platform Sim.mail 0 "ü@b.c"
                  (Sim.start Sim.live (Sim.mk_browser Sim.login_page [] None)) _)).
  vm_compute. reflexivity.
Defined.

(** ** Entering the code *)

Section Code.
Context {W : Type} {P : Platform W}.

Lemma safe_pin_input code :
  safe any_event
    (code_input <- wait_until 10
                     (presence_of_element_located CSS_SELECTOR "input[name='pinInput']");;
     click code_input;;
     sleep 100;;
     type_chars code_input code 50;;
     ret (@None dict)).
Proof.
  pose proof (fun el => safe_type_chars any_event any_event_ok' el code 50).
  safe_tac.
Qed.

End Code.

(** X12: when EnterCode goes through, the code went in one of two ways: one
    key per character, in order, into the pin input that was waited for and
    clicked; or,
    after that attempt raised, in a single [send_keys] to the focused element
    once the first digit cell was found and clicked.  When it does not go
    through, the result is a failure that begins "failed to input code: ". *)
Theorem enter_code_two_ways
    (W : Type) (P : Platform W) (code : string) (s s' : st W) :
  (enter_code code s = (Ret None, s') ->
   (exists el,
       trace s' = (trace s
                   ++ [EvWaitUntil 10
                         (presence_of_element_located CSS_SELECTOR "input[name='pinInput']");
                       EvClick el]
                   ++ keystrokes el code)%list) \/
   (exists pre span focused,
       trace s' = (trace s ++ pre
                   ++ [EvFindElement CSS_SELECTOR "span[data-index='0']"; EvClick span;
                       EvActiveElement; EvSendKeys focused code])%list)) /\
  (forall d, enter_code code s = (Ret (Some d), s') ->
             exists e, d = failure ("failed to input code: " ++ str_exn e)).
Proof.
  split.
  - unfold enter_code. intros H.
    apply bind_inv in H as ([] & s1 & E1 & H). apply log_inv in E1 as (T1 & _).
    apply bind_inv in H as ([] & s2 & E2 & H). apply sleep_inv in E2 as (T2 & _).
    unfold try_except at 1 in H.
    match type of H with
    | (match ?m s2 with _ => _ end) = _ => destruct (m s2) as [[r|e| |?] s3] eqn:E
    end; [| |discriminate|discriminate].
    + left. inversion H; subst r s3. clear H.
      apply bind_inv in E as (el & s4 & E4 & E). apply call_inv in E4 as (T4 & _).
      apply bind_inv in E as ([] & s5 & E5 & E). apply call_inv in E5 as (T5 & _).
      apply bind_inv in E as ([] & s6 & E6 & E). apply sleep_inv in E6 as (T6 & _).
      apply bind_inv in E as ([] & s7 & E7 & E). apply type_chars_run in E7 as (T7 & _).
      inversion E; subst s7. exists el.
      rewrite T7, T6, T5, T4, T2, T1, <- !app_assoc. reflexivity.
    + right.
      destruct (run_trace any_event _ _ _ _ (safe_pin_input code) E) as (pre & T3 & _).
      unfold try_except in H.
      match type of H with
      | (match ?m s3 with _ => _ end) = _ => destruct (m s3) as [[r|e'| |?] s4] eqn:E'
      end; [| |discriminate|discriminate].
      * inversion H; subst r s4. clear H.
        apply bind_inv in E' as (span & s5 & E5 & E'). apply call_inv in E5 as (T5 & _).
        apply bind_inv in E' as ([] & s6 & E6 & E'). apply call_inv in E6 as (T6 & _).
        apply bind_inv in E' as ([] & s7 & E7 & E'). apply sleep_inv in E7 as (T7 & _).
        apply bind_inv in E' as (focused & s8 & E8 & E'). apply call_inv in E8 as (T8 & _).
        apply bind_inv in E' as ([] & s9 & E9 & E'). apply call_inv in E9 as (T9 & _).
        inversion E'; subst s9. exists pre, span, focused.
        rewrite T9, T8, T7, T6, T5, T3, T2, T1, <- !app_assoc. reflexivity.
      * apply bind_inv in H as (? & ? & _ & H). apply bind_inv in H as (? & ? & _ & H).
        inversion H.
  - intros d H. unfold enter_code in H.
    apply bind_inv in H as ([] & s1 & _ & H).
    apply bind_inv in H as ([] & s2 & _ & H).
    unfold try_except at 1 in H.
    match type of H with
    | (match ?m s2 with _ => _ end) = _ => destruct (m s2) as [[r|e| |?] s3] eqn:E
    end; [| |discriminate|discriminate].
    + inversion H; subst r s3.
      apply bind_inv in E as (? & ? & _ & E). apply bind_inv in E as (? & ? & _ & E).
      apply bind_inv in E as (? & ? & _ & E). apply bind_inv in E as (? & ? & _ & E).
      inversion E.
    + unfold try_except in H.
      match type of H with
      | (match ?m s3 with _ => _ end) = _ => destruct (m s3) as [[r|e'| |?] s4] eqn:E'
      end; [| |discriminate|discriminate].
      * inversion H; subst r s4.
        apply bind_inv in E' as (? & ? & _ & E'). apply bind_inv in E' as (? & ? & _ & E').
        apply bind_inv in E' as (? & ? & _ & E'). apply bind_inv in E' as (? & ? & _ & E').
        apply bind_inv in E' as (? & ? & _ & E'). inversion E'.
      * apply bind_inv in H as (? & ? & _ & H). apply bind_inv in H as (? & ? & _ & H).
        inversion H; subst. eexists. reflexivity.
Qed.

Lemma enter_code_two_ways_witness :
  (exists el,
      trace (snd (enter_code (P:=Sim.platform) "123456"
                    (Sim.start Sim.live (Sim.mk_browser Sim.login_page [] None))))
      = ([] ++ [EvWaitUntil 10
                  (presence_of_element_located CSS_SELECTOR "input[name='pinInput']");
                EvClick el]
         ++ keystrokes el "123456")%list) \/
  (exists pre span focused,
      trace (snd (enter_code (P:=Sim.platform) "123456"
                    (Sim.start Sim.live (Sim.mk_browser Sim.login_page [] None))))
      = ([] ++ pre
         ++ [EvFindElement CSS_SELECTOR "span[data-index='0']"; EvClick span;
             EvActiveElement; EvSendKeys focused "123456"])%list).
Proof.
  apply (proj1 (enter_code_two_ways _ Sim.platform "123456"
                  (Sim.start Sim.live (Sim.mk_browser Sim.login_page [] None)) _)).
  vm_compute. reflexivity.
Defined.

(** ** The username page *)

(** X13: on the login page [_handle_username_setup] reads the URL and returns
    [False] without looking for a field; and when it returns [True], the last
    things it did were: see that the field is displayed, draw three random
    characters, click the field, clear it, type "Test" and the three
    characters one key at a time, and press Enter. *)
Theorem handle_username_setup_outcomes (W : Type) (P : Platform W) (s s' : st W) :
  (forall url w t,
      drv_current_url (world s) = (inr url, w, t) ->
      PyStr.contains "auth.business.gemini.google/login" url = true ->
      _handle_username_setup s
      = (Ret false, mk_st w (clock s + t)%N (self s) (logs s) (trace s ++ [EvCurrentUrl]))) /\
  (_handle_username_setup s = (Ret true, s') ->
   exists el suffix pre,
     trace s' = (trace s ++ pre
                 ++ [EvIsDisplayed el; EvRandomChoices 3; EvClick el; EvClear el]
                 ++ keystrokes el ("Test" ++ suffix)
                 ++ [EvSendKeys el Keys_ENTER])%list).
Proof.
  split.
  - intros url w t H C. unfold _handle_username_setup.
    eapply bind_ret_eq; [apply call_ok; exact H|]. rewrite C. reflexivity.
  - unfold _handle_username_setup. intros H.
    apply bind_inv in H as (url & s1 & E1 & H). apply call_inv in E1 as (T1 & _).
    destruct (PyStr.contains "auth.business.gemini.google/login" url); [inversion H|].
    apply bind_inv in H as (found & s2 & E2 & H).
    destruct (run_trace any_event _ _ _ _
                (safe_probe_username_input any_event any_event_ok' 30 None) E2)
      as (ev2 & T2 & _).
    destruct found as [el|]; [|inversion H].
    apply bind_inv in H as (shown & s3 & E3 & H). apply call_inv in E3 as (T3 & _).
    destruct shown; cbn [negb] in H; [|inversion H].
    apply bind_inv in H as (suffix & s4 & E4 & H). apply call_inv in E4 as (T4 & _).
    cbv zeta in H. unfold try_except in H.
    match type of H with
    | (match ?m s4 with _ => _ end) = _ => destruct (m s4) as [[r|e| |?] s5] eqn:E
    end; [|inversion H|discriminate|discriminate].
    inversion H; subst r s5. clear H.
    apply bind_inv in E as ([] & s6 & E6 & E). apply call_inv in E6 as (T6 & _).
    apply bind_inv in E as ([] & s7 & E7 & E). apply sleep_inv in E7 as (T7 & _).
    apply bind_inv in E as ([] & s8 & E8 & E). apply call_inv in E8 as (T8 & _).
    apply bind_inv in E as ([] & s9 & E9 & E). apply type_chars_run in E9 as (T9 & _).
    apply bind_inv in E as ([] & s10 & E10 & E). apply sleep_inv in E10 as (T10 & _).
    apply bind_inv in E as ([] & s11 & E11 & E). apply call_inv in E11 as (T11 & _).
    apply bind_inv in E as ([] & s12 & E12 & E). apply sleep_inv in E12 as (T12 & _).
    inversion E; subst s12.
    exists el, suffix, ([EvCurrentUrl] ++ ev2)%list.
    rewrite T12, T11, T10, T9, T8, T7, T6, T4, T3, T2, T1, <- !app_assoc. reflexivity.
Qed.

Lemma handle_username_setup_outcomes_witness :
  _handle_username_setup (P:=Sim.platform)
    (Sim.start Sim.live (Sim.mk_browser Sim.login_page [] None))
  = (Ret false,
     mk_st (Sim.mk_browser Sim.login_page [] None) (1700000000000 + 0)%N Sim.live []
       ([] ++ [EvCurrentUrl])).
Proof.
  exact (proj1 (handle_username_setup_outcomes _ Sim.platform
                  (Sim.start Sim.live (Sim.mk_browser Sim.login_page [] None))
                  (Sim.start Sim.live (Sim.mk_browser Sim.login_page [] None)))
           LOGIN_URL (Sim.mk_browser Sim.login_page [] None) 0%N eq_refl eq_refl).
Defined.

(** ** The waits *)

Section Polls.
Context {W : Type} {P : Platform W}.

Lemma wait_for_business_params_reads n (s : st W) :
  exists evs,
    trace (snd (_wait_for_business_params n s)) = (trace s ++ evs)%list /\
    forallb is_url_read evs = true /\ List.length evs <= n.
Proof.
  revert s. induction n as [|n IH]; intros s.
  - exists []. cbn. rewrite app_nil_r. auto.
  - cbn [_wait_for_business_params]. unfold bind at 1, current_url, call.
    destruct (drv_current_url (world s)) as [[[e|url] w] dt]; cbn [fst snd].
    + exists [EvCurrentUrl]. cbn. split; [reflexivity | split; [reflexivity | lia]].
    + destruct (PyStr.contains "csesidx=" url && PyStr.contains "/cid/" url).
      * exists [EvCurrentUrl]. unfold bind, _log, ret. cbn [fst snd].
        cbn [self]. destruct (log_callback (self s)); cbn;
          (split; [reflexivity | split; [reflexivity | lia]]).
      * unfold bind at 1, sleep. cbn [world clock self logs trace].
        match goal with
        | |- context [_wait_for_business_params n ?st] =>
            destruct (IH st) as (evs & T & A & L)
        end.
        exists (EvCurrentUrl :: evs). rewrite T. cbn [trace].
        rewrite <- app_assoc. cbn. rewrite A. split; [reflexivity | split; [reflexivity | lia]].
Qed.

Lemma wait_for_cid_reads n (s : st W) :
  exists evs,
    trace (snd (_wait_for_cid n s)) = (trace s ++ evs)%list /\
    forallb is_url_read evs = true /\ List.length evs <= n.
Proof.
  revert s. induction n as [|n IH]; intros s.
  - exists []. cbn. rewrite app_nil_r. auto.
  - cbn [_wait_for_cid]. unfold bind at 1, current_url, call.
    destruct (drv_current_url (world s)) as [[[e|url] w] dt]; cbn [fst snd].
    + exists [EvCurrentUrl]. cbn. split; [reflexivity | split; [reflexivity | lia]].
    + destruct (PyStr.contains "cid" url).
      * exists [EvCurrentUrl]. cbn. split; [reflexivity | split; [reflexivity | lia]].
      * unfold bind at 1, sleep. cbn [world clock self logs trace].
        match goal with
        | |- context [_wait_for_cid n ?st] => destruct (IH st) as (evs & T & A & L)
        end.
        exists (EvCurrentUrl :: evs). rewrite T. cbn [trace].
        rewrite <- app_assoc. cbn. rewrite A. split; [reflexivity | split; [reflexivity | lia]].
Qed.

Lemma wait_for_business_params_gives_up n (s s' : st W) :
  _wait_for_business_params n s = (Ret false, s') ->
  trace s' = (trace s ++ repeat EvCurrentUrl n)%list /\
  (clock s + 1000 * N.of_nat n <= clock s')%N.
Proof.
  revert s. induction n as [|n IH]; intros s H.
  - inversion H; subst. cbn. rewrite app_nil_r. split; [reflexivity | lia].
  - cbn [_wait_for_business_params] in H.
    apply bind_inv in H as (url & s1 & E1 & H). apply call_inv in E1 as (T1 & C1 & _).
    destruct (PyStr.contains "csesidx=" url && PyStr.contains "/cid/" url).
    + apply bind_inv in H as (? & ? & _ & H). inversion H.
    + apply bind_inv in H as ([] & s2 & E2 & H). apply sleep_inv in E2 as (T2 & C2).
      apply IH in H as (T & C). split.
      * rewrite T, T2, T1, <- app_assoc. reflexivity.
      * lia.
Qed.

Lemma wait_for_cid_gives_up n (s s' : st W) :
  _wait_for_cid n s = (Ret false, s') ->
  trace s' = (trace s ++ repeat EvCurrentUrl n)%list /\
  (clock s + 1000 * N.of_nat n <= clock s')%N.
Proof.
  revert s. induction n as [|n IH]; intros s H.
  - inversion H; subst. cbn. rewrite app_nil_r. split; [reflexivity | lia].
  - cbn [_wait_for_cid] in H.
    apply bind_inv in H as (url & s1 & E1 & H). apply call_inv in E1 as (T1 & C1 & _).
    destruct (PyStr.contains "cid" url); [inversion H|].
    apply bind_inv in H as ([] & s2 & E2 & H). apply sleep_inv in E2 as (T2 & C2).
    apply IH in H as (T & C). split.
    + rewrite T, T2, T1, <- app_assoc. reflexivity.
    + lia.
Qed.

End Polls.

(** X14: the two URL polls, [_wait_for_business_params] and [_wait_for_cid],
    do nothing but read the URL, at most [timeout] times, however the browser
    behaves; and when one of them answers [False] it has read the URL exactly
    [timeout] times and at least [timeout] seconds have passed. *)
Theorem url_polls_are_bounded (W : Type) (P : Platform W) (n : nat) (s : st W) :
  (exists evs,
      trace (snd (_wait_for_business_params n s)) = (trace s ++ evs)%list /\
      forallb is_url_read evs = true /\ List.length evs <= n) /\
  (exists evs,
      trace (snd (_wait_for_cid n s)) = (trace s ++ evs)%list /\
      forallb is_url_read evs = true /\ List.length evs <= n) /\
  (forall s', _wait_for_business_params n s = (Ret false, s') ->
              trace s' = (trace s ++ repeat EvCurrentUrl n)%list /\
              (clock s + 1000 * N.of_nat n <= clock s')%N) /\
  (forall s', _wait_for_cid n s = (Ret false, s') ->
              trace s' = (trace s ++ repeat EvCurrentUrl n)%list /\
              (clock s + 1000 * N.of_nat n <= clock s')%N).
Proof.
  split; [apply wait_for_business_params_reads|].
  split; [apply wait_for_cid_reads|].
  split; intros s'; [apply wait_for_business_params_gives_up | apply wait_for_cid_gives_up].
Qed.

Lemma url_polls_are_bounded_witness :
  trace (snd (_wait_for_cid (P:=Blank.platform) 10 Blank.start))
  = ([] ++ repeat EvCurrentUrl 10)%list /\
  (1700000000000 + 1000 * N.of_nat 10
   <= clock (snd (_wait_for_cid (P:=Blank.platform) 10 Blank.start)))%N.
Proof.
  apply (proj2 (proj2 (proj2 (url_polls_are_bounded unit Blank.platform 10 Blank.start)))).
  vm_compute. reflexivity.
Defined.

(** ** Waiting for the code field *)

Section CodeField.
Context {W : Type} {P : Platform W}.

Lemma quiet_time_time : quiet (W:=W) time_time.
Proof. intros s e. discriminate. Qed.

Lemma quiet_find_first_selector sels : quiet (find_first_selector sels).
Proof.
  induction sels as [|sel sels IH]; [apply quiet_ret|]. cbn [find_first_selector].
  apply quiet_bind; [apply quiet_try_except; intro; apply quiet_ret|].
  intros [el|]; [apply quiet_ret | exact IH].
Qed.

Lemma quiet_code_input_loop fuel deadline : quiet (code_input_loop fuel deadline).
Proof.
  induction fuel as [|k IH]; rewrite code_input_loop_unfold;
    (apply quiet_bind; [apply quiet_time_time|]); intros now;
    destruct (now <? deadline)%N; try apply quiet_ret.
  - intros s e. discriminate.
  - apply quiet_bind; [apply quiet_find_first_selector|].
    intros [el|]; [apply quiet_ret|].
    apply quiet_bind; [apply quiet_sleep | intros _; exact IH].
Qed.

Lemma find_first_selector_step sel (s s1 : st W) found :
  try_except (el <- find_element CSS_SELECTOR sel;; ret (Some el)) (fun _ => ret None) s
  = (Ret found, s1) ->
  trace s1 = (trace s ++ [EvFindElement CSS_SELECTOR sel])%list.
Proof.
  unfold try_except, bind, find_element, call, ret.
  destruct (drv_find_element CSS_SELECTOR sel (world s)) as [[[e|el] w] dt];
    intros H; inversion H; reflexivity.
Qed.

Lemma find_first_selector_found sels (s s' : st W) el :
  find_first_selector sels s = (Ret (Some el), s') ->
  exists pre sel,
    In sel sels /\ trace s' = (trace s ++ pre ++ [EvFindElement CSS_SELECTOR sel])%list.
Proof.
  revert s. induction sels as [|sel sels IH]; intros s H; [inversion H|].
  cbn [find_first_selector] in H. apply bind_inv in H as (found & s1 & E1 & H).
  apply find_first_selector_step in E1. destruct found as [el0|].
  - inversion H; subst. exists [], sel. split; [left; reflexivity | exact E1].
  - apply IH in H as (pre & sel' & Hin & T).
    exists (EvFindElement CSS_SELECTOR sel :: pre), sel'. split; [right; exact Hin|].
    rewrite T, E1, <- app_assoc. reflexivity.
Qed.

Lemma code_input_loop_found fuel deadline (s s' : st W) el :
  code_input_loop fuel deadline s = (Ret (Some el), s') ->
  exists pre sel,
    In sel code_input_selectors /\
    trace s' = (trace s ++ pre ++ [EvFindElement CSS_SELECTOR sel])%list.
Proof.
  revert s. induction fuel as [|k IH]; intros s H; rewrite code_input_loop_unfold in H;
    apply bind_inv in H as (now & s0 & E0 & H); inversion E0; subst now s0;
    destruct (clock s <? deadline)%N; try discriminate.
  apply bind_inv in H as (found & s1 & E1 & H). destruct found as [el0|].
  - inversion H; subst. eapply find_first_selector_found. exact E1.
  - destruct (run_trace any_event _ _ _ _
                (safe_find_first_selector any_event any_event_ok' code_input_selectors) E1)
      as (ev1 & T1 & _).
    apply bind_inv in H as ([] & s2 & E2 & H). apply sleep_inv in E2 as (T2 & _).
    apply IH in H as (pre & sel & Hin & T).
    exists (ev1 ++ pre)%list, sel. split; [exact Hin|].
    rewrite T, T2, T1, <- !app_assoc. reflexivity.
Qed.

Lemma code_input_loop_late fuel deadline (s s' : st W) :
  code_input_loop fuel deadline s = (Ret None, s') -> (deadline <= clock s')%N.
Proof.
  revert s. induction fuel as [|k IH]; intros s H; rewrite code_input_loop_unfold in H;
    apply bind_inv in H as (now & s0 & E0 & H); inversion E0; subst now s0;
    destruct (N.ltb_spec (clock s) deadline); try discriminate;
    try (inversion H; subst; assumption).
  apply bind_inv in H as (found & s1 & E1 & H). destruct found as [el0|]; [inversion H|].
  apply bind_inv in H as ([] & s2 & E2 & H). eapply IH. exact H.
Qed.

Lemma wait_for_code_input_loop fuel t (s : st W) :
  _wait_for_code_input fuel t s = code_input_loop fuel (clock s + t * 1000)%N s.
Proof.
  unfold _wait_for_code_input, try_except_class, try_except.
  unfold bind at 1, time_time. 
  pose proof (quiet_code_input_loop fuel (clock s + t * 1000)%N s) as Q.
  destruct (code_input_loop fuel (clock s + t * 1000)%N s) as [[r|e| |?] s1]; try reflexivity.
  exfalso. apply (Q e). reflexivity.
Qed.

End CodeField.

(** X15: [_wait_for_code_input] never raises; it answers [None] only once
    the deadline has passed on the clock; and the element it answers with was
    found by the lookup it made last, for one of the five selectors. *)
Theorem wait_for_code_input_outcomes
    (W : Type) (P : Platform W) (fuel : nat) (t : N) (s s' : st W) :
  (forall e, fst (_wait_for_code_input fuel t s) <> Raise e) /\
  (_wait_for_code_input fuel t s = (Ret None, s') -> (clock s + t * 1000 <= clock s')%N) /\
  (forall el,
      _wait_for_code_input fuel t s = (Ret (Some el), s') ->
      exists pre sel,
        In sel code_input_selectors /\
        trace s' = (trace s ++ pre ++ [EvFindElement CSS_SELECTOR sel])%list).
Proof.
  rewrite wait_for_code_input_loop. split; [|split].
  - intros e. apply quiet_code_input_loop.
  - apply code_input_loop_late.
  - intros el. apply code_input_loop_found.
Qed.

Lemma wait_for_code_input_outcomes_witness :
  (1700000000000 + 30 * 1000
   <= clock (snd (_wait_for_code_input (P:=Blank.platform) 100 30 Blank.start)))%N.
Proof.
  apply (proj1 (proj2 (wait_for_code_input_outcomes unit Blank.platform 100 30
                         Blank.start _))).
  vm_compute. reflexivity.
Defined.

(** ** The object and the options *)

Section Options.

Lemma get_ua_not_empty v : _get_ua v <> "".
Proof. discriminate. Qed.

Lemma headless_arg_only_from_headless o dir :
  In "--headless=new" (build_options o dir) -> headless o = true.
Proof.
  unfold build_options. intros H.
  repeat (apply in_app_or in H; destruct H as [H|H]).
  - repeat (destruct H as [H|H]; [discriminate H|]). destruct H.
  - destruct (proxy o =? ""); [destruct H|].
    destruct H as [H|[]]. discriminate H.
  - destruct (headless o); [reflexivity | destruct H].
  - destruct (user_agent o =? ""); [destruct H|].
    destruct H as [H|[]]. discriminate H.
Qed.

End Options.

(** X16: an object made by [__init__] never has an empty user agent (an
    empty argument is replaced by a generated one, a given one is kept), and
    holds neither a driver nor a profile directory; the Chrome options built
    from it begin with the profile directory, always carry its user agent,
    and carry [--headless=new] exactly when [headless] is set. *)
Theorem init_and_options
    (v ua px : string) (hl : bool) (to : nat) (cb : bool) (dir : string) :
  let o := __init__ v ua px hl to cb in
  user_agent o <> "" /\
  (ua <> "" -> user_agent o = ua) /\
  (ua = "" -> user_agent o = _get_ua v) /\
  driver o = false /\ user_data_dir o = None /\
  hd_error (build_options o dir) = Some ("--user-data-dir=" ++ dir) /\
  In ("--user-agent=" ++ user_agent o) (build_options o dir) /\
  (In "--headless=new" (build_options o dir) <-> hl = true).
Proof.
  cbv zeta. unfold __init__. cbn [user_agent driver user_data_dir].
  destruct (String.eqb_spec ua "") as [->|Hua].
  - split; [apply get_ua_not_empty|]. split; [congruence|]. split; [reflexivity|].
    split; [reflexivity|]. split; [reflexivity|]. split; [reflexivity|]. split.
    + unfold build_options. cbn [user_agent]. apply in_or_app. right.
      apply in_or_app. right. apply in_or_app. right. left. reflexivity.
    + split; [apply (headless_arg_only_from_headless (mk_self _ _ _ _ _ _ _))|].
      intros ->. unfold build_options. cbn [headless]. apply in_or_app. right.
      apply in_or_app. right. apply in_or_app. left. left. reflexivity.
  - split; [exact Hua|]. split; [reflexivity|]. split; [contradiction|].
    split; [reflexivity|]. split; [reflexivity|]. split; [reflexivity|]. split.
    + unfold build_options. cbn [user_agent]. apply in_or_app. right.
      apply in_or_app. right. apply in_or_app. right.
      destruct (String.eqb_spec ua ""); [contradiction|]. left. reflexivity.
    + split; [apply (headless_arg_only_from_headless (mk_self _ _ _ _ _ _ _))|].
      intros ->. unfold build_options. cbn [headless]. apply in_or_app. right.
      apply in_or_app. right. apply in_or_app. left. left. reflexivity.
Qed.

Lemma init_and_options_witness :
  user_agent (__init__ "121.0.0.0" "" "" true 60 false) = _get_ua "121.0.0.0".
Proof.
  apply (proj1 (proj2 (proj2 (init_and_options "121.0.0.0" "" "" true 60 false "/tmp/p")))).
  reflexivity.
Defined.

(** ** The boundary *)

(** X17: whatever instance of [Exception] leaves [_create_driver] or
    [_run_flow], [login_and_extract] returns the failure whose error is the
    text of that exception, after reporting "automation error: ..." to the log
    callback and running [_cleanup].  An exception that is not an instance of
    [Exception] is not turned into a result: it leaves [login_and_extract]
    as well, once [_cleanup] has run. *)
Theorem login_reports_escaping_exception
    (W : Type) (P : Platform W) (mail_client : MailClient W)
    (fuel : nat) (email : string) (s s1 : st W) :
  (forall e : exn,
      (_create_driver;; _run_flow fuel email mail_client) s = (Raise e, s1) ->
      fst (login_and_extract fuel email mail_client s) = Ret (failure (str_exn e)) /\
      snd (login_and_extract fuel email mail_client s)
      = snd (_cleanup (snd (_log "error" ("automation error: " ++ str_exn e) s1))) /\
      (log_callback (self s1) = true ->
       In ("error", "automation error: " ++ str_exn e)
          (logs (snd (login_and_extract fuel email mail_client s))))) /\
  (forall b : signal,
      (_create_driver;; _run_flow fuel email mail_client) s = (Interrupt b, s1) ->
      login_and_extract fuel email mail_client s = (Interrupt b, snd (_cleanup s1))).
Proof.
  split.
  - intros e H.
    set (s2 := snd (_log "error" ("automation error: " ++ str_exn e) s1)).
    destruct (cleanup_run s2) as (evs & Hrun & _ & Hlogs & _).
    assert (E : login_and_extract fuel email mail_client s
                = (Ret (failure (str_exn e)), snd (_cleanup s2))).
    { unfold login_and_extract, try_finally, try_except. rewrite H.
      unfold bind. change (_log "error" ("automation error: " ++ str_exn e) s1)
        with (Ret tt, s2). cbv beta iota. unfold ret at 1. rewrite Hrun. reflexivity. }
    rewrite E. cbn [fst snd]. split; [reflexivity|]. split; [reflexivity|].
    intros Hcb. rewrite Hlogs. unfold s2, _log. cbn [snd]. rewrite Hcb. cbn [logs].
    apply in_or_app. right. left. reflexivity.
  - intros b H. destruct (cleanup_run s1) as (evs & Hrun & _).
    unfold login_and_extract, try_finally, try_except. rewrite H, Hrun. reflexivity.
Qed.

Lemma login_reports_escaping_exception_witness :
  fst (login_and_extract (P:=Lab.platform) 100 "a@b.c" Lab.mail_down (Lab.start Lab.login_form))
  = Ret (failure "mailbox unreachable").
Proof.
  refine (proj1 (proj1 (login_reports_escaping_exception _ Lab.platform Lab.mail_down 100
                          "a@b.c" (Lab.start Lab.login_form)
                          (snd ((_create_driver (P:=Lab.platform);;
                                 _run_flow (P:=Lab.platform) 100 "a@b.c" Lab.mail_down)
                                  (Lab.start Lab.login_form))))
                   (mk_exn OtherException "mailbox unreachable") _)).
  vm_compute. reflexivity.
Defined.

(** ** Screenshots *)

(** X18: [_save_screenshot] never raises and touches nothing but the
    screenshot directory and the screenshot: when the directory can be made,
    the file asked for is [data/automation/<name>_<seconds>.png], the seconds
    being the clock after the directory is made; when it cannot, no
    screenshot is asked for. *)
Theorem save_screenshot_cases (W : Type) (P : Platform W) (name : string) (s : st W) :
  _save_screenshot name s = (Ret tt, snd (_save_screenshot name s)) /\
  (forall w t,
      os_makedirs "data/automation" (world s) = (inr tt, w, t) ->
      trace (snd (_save_screenshot name s))
      = (trace s ++ [EvMakedirs "data/automation";
                     EvSaveScreenshot ("data/automation/" ++ name ++ "_"
                                       ++ PyStr.of_N ((clock s + t) / 1000) ++ ".png")])%list) /\
  (forall e w t,
      os_makedirs "data/automation" (world s) = (inl e, w, t) ->
      trace (snd (_save_screenshot name s)) = (trace s ++ [EvMakedirs "data/automation"])%list).
Proof.
  split; [apply save_screenshot_run|]. split.
  - intros w t H.
    set (path := "data/automation/" ++ name ++ "_"
                 ++ PyStr.of_N ((clock s + t) / 1000) ++ ".png").
    destruct (drv_save_screenshot path w) as [[[e|b] w'] dt] eqn:Hs;
      unfold _save_screenshot; cbv zeta.
    + erewrite try_raise_step.
      2:{ eapply bind_ret_eq; [apply call_ok; exact H|].
          eapply bind_ret_eq; [reflexivity|].
          eapply bind_raise_step. apply call_raise. exact Hs. }
      cbn [snd trace]. rewrite <- app_assoc. reflexivity.
    + erewrite try_ret_step.
      2:{ eapply bind_ret_eq; [apply call_ok; exact H|].
          eapply bind_ret_eq; [reflexivity|].
          eapply bind_ret_eq; [apply call_ok; exact Hs|].
          apply log_run. }
      cbn [snd]. unfold _log. cbn [snd self].
      destruct (log_callback (self s)); cbn [trace]; rewrite <- app_assoc; reflexivity.
  - intros e w t H. unfold _save_screenshot, try_except. cbv zeta.
    unfold bind at 1. rewrite (call_raise _ _ _ _ _ _ H). reflexivity.
Qed.

Lemma save_screenshot_cases_witness :
  trace (snd (_save_screenshot (P:=Blank.platform) "code_timeout" Blank.start))
  = ([] ++ [EvMakedirs "data/automation";
            EvSaveScreenshot ("data/automation/" ++ "code_timeout" ++ "_"
                              ++ PyStr.of_N ((1700000000000 + 0) / 1000) ++ ".png")])%list.
Proof.
  exact (proj1 (proj2 (save_screenshot_cases unit Blank.platform "code_timeout" Blank.start))
           tt 0%N eq_refl).
Defined.

(** ** Looking for the send-code button *)

Section SendCode.
Context {W : Type} {P : Platform W}.

Lemma quiet_click_first_candidate cands : quiet (click_first_candidate cands).
Proof.
  induction cands as [|el rest IH]; [apply quiet_ret|]. cbn [click_first_candidate].
  apply quiet_bind; [apply quiet_try_except; intro; apply quiet_ret|].
  intros [|]; [apply quiet_ret | exact IH].
Qed.

Lemma quiet_has_captcha : quiet _has_captcha.
Proof. unfold _has_captcha. apply quiet_try_except. intro. apply quiet_ret. Qed.

Lemma quiet_button_like_elements : quiet button_like_elements.
Proof.
  unfold button_like_elements.
  apply quiet_bind; [apply quiet_try_except; intro; apply quiet_ret|]. intros buttons.
  apply quiet_bind; [apply quiet_try_except; intro; apply quiet_ret|]. intros roles.
  apply quiet_ret.
Qed.

Lemma quiet_send_code_attempt : quiet send_code_attempt.
Proof.
  unfold send_code_attempt, send_code_find_code_input.
  apply quiet_bind; [apply quiet_has_captcha|]. intros [|].
  { apply quiet_bind; [apply quiet_log | intro; apply quiet_ret]. }
  apply quiet_bind; [apply quiet_find_first_selector|]. intros [el|]; [apply quiet_ret|].
  apply quiet_bind; [apply quiet_try_except; intro; apply quiet_ret|].
  intros [|]; [apply quiet_ret|].
  apply quiet_bind; [apply quiet_button_like_elements|]. intros cands.
  apply quiet_bind; [apply quiet_click_first_candidate|].
  intros [|]; [apply quiet_ret|].
  apply quiet_bind; [apply quiet_sleep | intro; apply quiet_ret].
Qed.

Lemma quiet_send_code_loop fuel start T : quiet (send_code_loop fuel start T).
Proof.
  induction fuel as [|k IH]; rewrite send_code_loop_unfold;
    (apply quiet_bind; [apply quiet_time_time|]); intros now;
    destruct (now - start <? T)%N; try apply quiet_ret.
  - intros s e. discriminate.
  - apply quiet_bind; [apply quiet_send_code_attempt|].
    intros [b|]; [apply quiet_ret | exact IH].
Qed.

Lemma quiet_click_send_code_button fuel : quiet (_click_send_code_button fuel).
Proof.
  unfold _click_send_code_button, send_code_find_code_input.
  apply quiet_bind; [apply quiet_sleep|]. intros _.
  apply quiet_bind; [apply quiet_find_first_selector|]. intros [el|]; [apply quiet_ret|].
  apply quiet_bind; [apply quiet_time_time|]. intros start.
  apply quiet_bind; [apply quiet_send_code_loop|]. intros [b|]; [apply quiet_ret|].
  apply quiet_bind; [|intro; apply quiet_ret].
  unfold log_candidate_buttons. apply quiet_try_except. intro. apply quiet_ret.
Qed.

(** one candidate of the scan *)
Lemma safe_candidate el :
  safe any_event
    (try_except
       (txt <- _element_text el;;
        if (txt =? "") then ret false
        else
          let t := PyStr.lower txt in
          if existsb (fun k => PyStr.contains k t) keywords_lower
          then
            try_except (execute_script JS_SCROLL el;; ret tt) (fun _ => ret tt);;
            execute_script JS_CLICK el;;
            sleep 1000;;
            ret true
          else ret false)
       (fun _ => ret false)).
Proof.
  pose proof (safe_element_text any_event any_event_ok' el).
  generalize keywords_lower; intro keys. safe_tac.
Qed.

Lemma safe_scroll el :
  safe any_event (try_except (execute_script JS_SCROLL el;; ret tt) (fun _ => ret tt)).
Proof. safe_tac. Qed.

Lemma click_first_candidate_clicked cands (s s' : st W) :
  click_first_candidate cands s = (Ret true, s') ->
  exists pre el,
    In el cands /\
    trace s' = (trace s ++ pre ++ [EvExecuteScript JS_CLICK el])%list /\
    (clock s + 1000 <= clock s')%N.
Proof.
  revert s. induction cands as [|el rest IH]; intros s H; [inversion H|].
  cbn [click_first_candidate] in H. apply bind_inv in H as (clicked & s1 & E1 & H).
  destruct clicked.
  - inversion H; subst s1. clear H. unfold try_except at 1 in E1.
    match type of E1 with
    | (match ?m s with _ => _ end) = _ => destruct (m s) as [[r|e| |?] s0] eqn:E
    end; [|inversion E1|discriminate|discriminate].
    inversion E1; subst r s0. clear E1.
    apply bind_inv in E as (txt & s2 & E2 & E).
    destruct (run_trace any_event _ _ _ _ (safe_element_text any_event any_event_ok' el) E2)
      as (ev2 & T2 & _).
    apply (run_clock any_event) in E2; [|apply safe_element_text, any_event_ok'].
    destruct (txt =? ""); [inversion E|]. cbv zeta in E.
    destruct (existsb _ keywords_lower); [|inversion E].
    apply bind_inv in E as ([] & s3 & E3 & E).
    destruct (run_trace any_event _ _ _ _ (safe_scroll el) E3) as (ev3 & T3 & _).
    apply (run_clock any_event) in E3; [|apply safe_scroll].
    apply bind_inv in E as (v & s4 & E4 & E). apply call_inv in E4 as (T4 & C4 & _).
    apply bind_inv in E as ([] & s5 & E5 & E). apply sleep_inv in E5 as (T5 & C5).
    inversion E; subst s5.
    exists (ev2 ++ ev3)%list, el. split; [left; reflexivity|]. split.
    + rewrite T5, T4, T3, T2, <- !app_assoc. reflexivity.
    + lia.
  - destruct (run_trace any_event _ _ _ _ (safe_candidate el) E1) as (ev1 & T1 & _).
    apply (run_clock any_event) in E1; [|apply safe_candidate].
    apply IH in H as (pre & el' & Hin & T & C).
    exists (ev1 ++ pre)%list, el'. split; [right; exact Hin|]. split.
    + rewrite T, T1, <- !app_assoc. reflexivity.
    + lia.
Qed.

(** a pass answers [False] only after seeing a challenge *)
Lemma send_code_attempt_refused (s s' : st W) :
  send_code_attempt s = (Ret (Some false), s') ->
  exists s1, _has_captcha s = (Ret true, s1) /\ s' = snd (_log "warning" CAPTCHA_WARNING s1).
Proof.
  unfold send_code_attempt. intros H.
  apply bind_inv in H as (captcha & s1 & E1 & H). destruct captcha.
  - apply bind_inv in H as ([] & s2 & E2 & H). inversion H; subst s2.
    exists s1. split; [exact E1|]. rewrite E2. reflexivity.
  - apply bind_inv in H as (ci & s2 & _ & H). destruct ci; [inversion H|].
    apply bind_inv in H as (direct & s3 & _ & H). destruct direct; [inversion H|].
    apply bind_inv in H as (cands & s4 & _ & H).
    apply bind_inv in H as (clicked & s5 & _ & H). destruct clicked; [inversion H|].
    apply bind_inv in H as (? & ? & _ & H). inversion H.
Qed.

Lemma send_code_loop_refused fuel start T (s s' : st W) :
  send_code_loop fuel start T s = (Ret (Some false), s') ->
  exists s1 s2,
    (clock s <= clock s1)%N /\ _has_captcha s1 = (Ret true, s2) /\
    s' = snd (_log "warning" CAPTCHA_WARNING s2).
Proof.
  revert s. induction fuel as [|k IH]; intros s H; rewrite send_code_loop_unfold in H;
    apply bind_inv in H as (now & s0 & E0 & H); inversion E0; subst now s0;
    destruct (clock s - start <? T)%N; try discriminate.
  apply bind_inv in H as (r & s1 & E1 & H). destruct r as [b|].
  - inversion H; subst b s1. apply send_code_attempt_refused in E1 as (s2 & Hc & ->).
    exists s, s2. split; [lia | auto].
  - apply (run_clock any_event) in E1; [|apply safe_send_code_attempt, any_event_ok'].
    apply IH in H as (s2 & s3 & C & Hc & ->). exists s2, s3. split; [lia | auto].
Qed.

Lemma send_code_loop_late fuel start T (s s' : st W) :
  send_code_loop fuel start T s = (Ret None, s') ->
  (start <= clock s)%N -> (start + T <= clock s')%N.
Proof.
  revert s. induction fuel as [|k IH]; intros s H L; rewrite send_code_loop_unfold in H;
    apply bind_inv in H as (now & s0 & E0 & H); inversion E0; subst now s0;
    destruct (N.ltb_spec (clock s - start) T); try discriminate;
    try (inversion H; subst; lia).
  apply bind_inv in H as (r & s1 & E1 & H). destruct r as [b|]; [inversion H|].
  apply (run_clock any_event) in E1; [|apply safe_send_code_attempt, any_event_ok'].
  apply IH in H; lia.
Qed.

End SendCode.

(** X19: the scan of the button-like elements never raises; when it answers
    [True] the last operation was the script click on one of the candidates,
    at least a second ago; and a candidate whose text holds one of the
    keywords, in any letter case, is scrolled to and clicked without looking
    at the candidates after it. *)
Theorem click_first_candidate_outcomes
    (W : Type) (P : Platform W) (el : elem) (rest : list elem) (s s' : st W) :
  (forall cands e, fst (click_first_candidate cands s) <> Raise e) /\
  (forall cands,
      click_first_candidate cands s = (Ret true, s') ->
      exists pre el',
        In el' cands /\
        trace s' = (trace s ++ pre ++ [EvExecuteScript JS_CLICK el'])%list /\
        (clock s + 1000 <= clock s')%N) /\
  (forall txt s1 v w2 t2 v' w3 t3,
      _element_text el s = (Ret txt, s1) ->
      existsb (fun k => PyStr.contains k (PyStr.lower txt)) keywords_lower = true ->
      drv_execute_script JS_SCROLL el (world s1) = (inr v, w2, t2) ->
      drv_execute_script JS_CLICK el w2 = (inr v', w3, t3) ->
      click_first_candidate (el :: rest) s
      = (Ret true,
         mk_st w3 (clock s1 + t2 + t3 + 1000)%N (self s1) (logs s1)
           (trace s1 ++ [EvExecuteScript JS_SCROLL el; EvExecuteScript JS_CLICK el]))).
Proof.
  split; [|split].
  - intros cands e. apply quiet_click_first_candidate.
  - intros cands. apply click_first_candidate_clicked.
  - intros txt s1 v w2 t2 v' w3 t3 Htxt Hkey Hscroll Hclick.
    assert (Hne : (txt =? "") = false).
    { destruct (String.eqb_spec txt "") as [->|]; [|reflexivity].
      vm_compute in Hkey. discriminate. }
    cbn [click_first_candidate].
    eapply bind_ret_eq.
    { apply try_ret_step. eapply bind_ret_eq; [exact Htxt|]. rewrite Hne. cbv zeta.
      rewrite Hkey.
      eapply bind_ret_eq.
      { apply try_ret_step.
        eapply bind_ret_eq; [apply call_ok; exact Hscroll | reflexivity]. }
      eapply bind_ret_eq; [apply call_ok; exact Hclick|].
      eapply bind_ret_eq; [reflexivity|]. reflexivity. }
    cbn [world clock self logs trace]. rewrite <- app_assoc. reflexivity.
Qed.

(** X20: [_click_send_code_button] never raises; and it answers [False] in
    two cases only: a challenge was seen, and the last thing done was to log
    the warning about it; or the clock stands at least twenty-six seconds
    after the call (the second slept at the start and the twenty-five of the
    loop). *)
Theorem click_send_code_button_refusals
    (W : Type) (P : Platform W) (fuel : nat) (s s' : st W) :
  (forall e, fst (_click_send_code_button fuel s) <> Raise e) /\
  (_click_send_code_button fuel s = (Ret false, s') ->
   (exists s1 s2,
       (clock s + 1000 <= clock s1)%N /\ _has_captcha s1 = (Ret true, s2) /\
       s' = snd (_log "warning" CAPTCHA_WARNING s2)) \/
   (clock s + 26000 <= clock s')%N).
Proof.
  split; [intros e; apply quiet_click_send_code_button|].
  unfold _click_send_code_button, send_code_find_code_input. intros H.
  apply bind_inv in H as ([] & s1 & E1 & H). apply sleep_inv in E1 as (_ & C1).
  apply bind_inv in H as (ci & s2 & E2 & H).
  apply (run_clock any_event) in E2; [|apply safe_find_first_selector, any_event_ok'].
  destruct ci; [inversion H|].
  apply bind_inv in H as (start & s3 & E3 & H). inversion E3; subst start s3. cbv zeta in H.
  apply bind_inv in H as (r & s4 & E4 & H). destruct r as [b|].
  - inversion H; subst b s4. left.
    apply send_code_loop_refused in E4 as (s5 & s6 & C & Hc & ->).
    exists s5, s6. split; [lia | auto].
  - right. apply send_code_loop_late in E4; [|lia].
    apply bind_inv in H as ([] & s5 & E5 & H).
    apply (run_clock any_event) in E5; [|apply safe_log_candidate_buttons, any_event_ok'].
    inversion H; subst s5. lia.
Qed.

Lemma click_send_code_button_refusals_witness :
  (exists s1 s2,
      (1700000000000 + 1000 <= clock s1)%N /\
      _has_captcha (P:=Sim.platform) s1 = (Ret true, s2) /\
      snd (_click_send_code_button (P:=Sim.platform) 100
             (Sim.start Sim.live (Sim.mk_browser Sim.captcha_page [] None)))
      = snd (_log "warning" CAPTCHA_WARNING s2)) \/
  (1700000000000 + 26000
   <= clock (snd (_click_send_code_button (P:=Sim.platform) 100
                    (Sim.start Sim.live (Sim.mk_browser Sim.captcha_page [] None)))))%N.
Proof.
  apply (proj2 (click_send_code_button_refusals _ Sim.platform 100
                  (Sim.start Sim.live (Sim.mk_browser Sim.captcha_page [] None)) _)).
  vm_compute. reflexivity.
Defined.

Lemma click_first_candidate_outcomes_witness :
  exists pre el',
    In el' [3%nat] /\
    trace (snd (click_first_candidate (P:=Sim.platform) [3%nat]
                  (Sim.start Sim.live
                     (Sim.mk_browser
                        (Sim.mk_page LOGIN_URL [(TAG_NAME, "button", 3%nat)] [(3%nat, "Send Code")] [])
                        [] None))))
    = ([] ++ pre ++ [EvExecuteScript JS_CLICK el'])%list /\
    (1700000000000 + 1000
     <= clock (snd (click_first_candidate (P:=Sim.platform) [3%nat]
                      (Sim.start Sim.live
                         (Sim.mk_browser
                            (Sim.mk_page LOGIN_URL [(TAG_NAME, "button", 3%nat)]
                               [(3%nat, "Send Code")] [])
                            [] None)))))%N.
Proof.
  apply (proj1 (proj2 (click_first_candidate_outcomes _ Sim.platform 3%nat []
                         (Sim.start Sim.live
                            (Sim.mk_browser
                               (Sim.mk_page LOGIN_URL [(TAG_NAME, "button", 3%nat)]
                                  [(3%nat, "Send Code")] [])
                               [] None)) _))).
  vm_compute. reflexivity.
Defined.

(** ** The two finder methods *)

Section Finders.
Context {W : Type} {P : Platform W}.

Lemma first_verify_button_found buttons (s s' : st W) el :
  first_verify_button buttons s = (Ret (Some el), s') ->
  In el buttons /\ exists pre, trace s' = (trace s ++ pre ++ [EvText el])%list.
Proof.
  revert s. induction buttons as [|btn rest IH]; intros s H; [inversion H|].
  cbn [first_verify_button] in H.
  apply bind_inv in H as (t & s1 & E1 & H). apply call_inv in E1 as (T1 & _).
  cbv zeta in H.
  destruct (negb (PyStr.strip t =? "") && PyStr.contains VERIFY_TEXT (PyStr.strip t)).
  - inversion H; subst. split; [left; reflexivity|]. exists []. exact T1.
  - apply IH in H as (Hin & pre & T). split; [right; exact Hin|].
    exists (EvText btn :: pre). rewrite T, T1, <- app_assoc. reflexivity.
Qed.

End Finders.

(** X21: the methods [_find_code_input] and [_find_verify_button] answer
    [None] when the fixed lookup raises [NoSuchElementException] and let any
    other exception of it out; [_find_verify_button] answers with the fixed
    button when it is there, without reading any text; and a button it
    answers with after that was among the buttons found, its text the last
    thing read. *)
Theorem finder_methods (W : Type) (P : Platform W) (s s' : st W) :
  (forall e w t,
      drv_find_element CSS_SELECTOR "input[name='pinInput']" (world s) = (inl e, w, t) ->
      fst (_find_code_input s)
      = if is_class NoSuchElementException e then Ret None else Raise e) /\
  (forall el w t,
      drv_find_element XPATH VERIFY_BUTTON_XPATH (world s) = (inr el, w, t) ->
      _find_verify_button s
      = (Ret (Some el),
         mk_st w (clock s + t)%N (self s) (logs s)
           (trace s ++ [EvFindElement XPATH VERIFY_BUTTON_XPATH]))) /\
  (forall e w t,
      drv_find_element XPATH VERIFY_BUTTON_XPATH (world s) = (inl e, w, t) ->
      is_class NoSuchElementException e = false ->
      fst (_find_verify_button s) = Raise e) /\
  (forall e w t el,
      drv_find_element XPATH VERIFY_BUTTON_XPATH (world s) = (inl e, w, t) ->
      _find_verify_button s = (Ret (Some el), s') ->
      exists pre,
        trace s' = (trace s ++ EvFindElement XPATH VERIFY_BUTTON_XPATH
                    :: EvFindElements TAG_NAME "button" :: pre ++ [EvText el])%list).
Proof.
  split; [|split; [|split]].
  - intros e w t H. unfold _find_code_input, try_except_class.
    erewrite try_raise_step; [|eapply bind_raise_step; apply call_raise; exact H].
    destruct (is_class NoSuchElementException e); reflexivity.
  - intros el w t H. unfold _find_verify_button.
    eapply bind_ret_eq;
      [apply try_ret_step; eapply bind_ret_eq; [apply call_ok; exact H | reflexivity]|].
    reflexivity.
  - intros e w t H He. unfold _find_verify_button.
    erewrite bind_raise_step; [reflexivity|]. unfold try_except_class.
    erewrite try_raise_step; [|eapply bind_raise_step; apply call_raise; exact H].
    rewrite He. reflexivity.
  - intros e w t el H Hrun. unfold _find_verify_button in Hrun.
    apply bind_inv in Hrun as (fixed & s1 & E1 & Hrun).
    unfold try_except_class in E1.
    erewrite try_raise_step in E1; [|eapply bind_raise_step; apply call_raise; exact H].
    destruct (is_class NoSuchElementException e); [|discriminate].
    inversion E1; subst fixed s1. clear E1.
    unfold try_except in Hrun.
    match type of Hrun with
    | (match ?m ?st with _ => _ end) = _ => destruct (m st) as [[r|e'| |?] s2] eqn:E
    end; [|inversion Hrun|discriminate|discriminate].
    inversion Hrun; subst r s2. clear Hrun.
    apply bind_inv in E as (buttons & s3 & E3 & E). apply call_inv in E3 as (T3 & _).
    apply first_verify_button_found in E as (_ & pre & T).
    exists pre. rewrite T, T3. cbn [trace]. rewrite <- !app_assoc. reflexivity.
Qed.

Lemma finder_methods_witness :
  fst (_find_code_input (P:=Blank.platform) Blank.start)
  = if is_class NoSuchElementException (mk_exn NoSuchElementException "no such element")
    then Ret None
    else Raise (mk_exn NoSuchElementException "no such element").
Proof.
  exact (proj1 (finder_methods unit Blank.platform Blank.start Blank.start)
           (mk_exn NoSuchElementException "no such element") tt 0%N eq_refl).
Defined.

(** ** Normalised text *)

Section Normalise.

Lemma append_nil_r (s : string) : s ++ "" = s.
Proof. induction s; simpl; congruence. Qed.

Lemma append_assoc (a b c : string) : (a ++ b) ++ c = a ++ b ++ c.
Proof. induction a; simpl; congruence. Qed.

Lemma append_not_empty (a b : string) : a <> "" -> a ++ b <> "".
Proof. destruct a; [congruence | discriminate]. Qed.

Lemma spaceless_app (a b : string) :
  spaceless (a ++ b) = spaceless a && spaceless b.
Proof.
  induction a as [|c a IH]; [reflexivity|]. cbn [append spaceless].
  rewrite IH, andb_assoc. reflexivity.
Qed.

Lemma split_ws_go_words (s cur : string) :
  spaceless cur = true -> Forall is_word (PyStr.split_ws_go cur s).
Proof.
  revert cur. induction s as [|c s IH]; intros cur Hcur; cbn [PyStr.split_ws_go].
  - destruct (String.eqb_spec cur ""); [constructor|].
    constructor; [split; assumption | constructor].
  - destruct (PyStr.is_space c) eqn:Hc.
    + destruct (String.eqb_spec cur ""); [apply IH; reflexivity|].
      constructor; [split; assumption | apply IH; reflexivity].
    + apply IH. rewrite spaceless_app, Hcur. cbn [spaceless]. rewrite Hc. reflexivity.
Qed.

Lemma split_ws_go_word (w rest cur : string) :
  spaceless w = true ->
  PyStr.split_ws_go cur (w ++ rest) = PyStr.split_ws_go (cur ++ w) rest.
Proof.
  revert cur. induction w as [|c w IH]; intros cur H.
  - rewrite append_nil_r. reflexivity.
  - cbn [spaceless] in H. apply andb_prop in H as [Hc Hw].
    cbn [append PyStr.split_ws_go]. apply negb_true_iff in Hc. rewrite Hc.
    rewrite IH by assumption. rewrite append_assoc. reflexivity.
Qed.

Lemma split_ws_join (ws : list string) :
  Forall is_word ws -> PyStr.split_ws (PyStr.join " " ws) = ws.
Proof.
  unfold PyStr.split_ws. induction ws as [|w ws IH]; intros H; [reflexivity|].
  inversion H as [|? ? [Hne Hw] Hrest]; subst.
  destruct ws as [|w' ws].
  - cbn [PyStr.join]. rewrite <- (append_nil_r w) at 1.
    rewrite split_ws_go_word by assumption. cbn [append PyStr.split_ws_go].
    destruct (String.eqb_spec w ""); [contradiction | reflexivity].
  - change (PyStr.join " " (w :: w' :: ws)) with (w ++ " " ++ PyStr.join " " (w' :: ws)).
    rewrite split_ws_go_word by assumption.
    change (" " ++ PyStr.join " " (w' :: ws))
      with (String " "%char (PyStr.join " " (w' :: ws))).
    cbn [append PyStr.split_ws_go].
    change (PyStr.is_space " "%char) with true. cbv iota.
    destruct (String.eqb_spec w ""); [contradiction|].
    f_equal. apply IH. exact Hrest.
Qed.

Lemma lstrip_head_ok (s : string) : head_ok s = true -> PyStr.lstrip s = s.
Proof.
  destruct s as [|c s]; [reflexivity|]. cbn. intros H. apply negb_true_iff in H.
  rewrite H. reflexivity.
Qed.

Lemma head_ok_app (a b : string) : a <> "" -> head_ok (a ++ b) = head_ok a.
Proof. destruct a; [congruence | reflexivity]. Qed.

Lemma spaceless_head_ok (s : string) : spaceless s = true -> head_ok s = true.
Proof.
  destruct s as [|c s]; [reflexivity|]. cbn. intros H. apply andb_prop in H as [H _].
  exact H.
Qed.

Lemma rev_str_app (acc s : string) : PyStr.rev_str acc s = PyStr.rev_str "" s ++ acc.
Proof.
  revert acc. induction s as [|c s IH]; intros acc; [reflexivity|].
  cbn [PyStr.rev_str]. rewrite (IH (String c acc)), (IH (String c "")).
  rewrite append_assoc. reflexivity.
Qed.

Lemma rev_str_append (a b : string) :
  PyStr.rev_str "" (a ++ b) = PyStr.rev_str "" b ++ PyStr.rev_str "" a.
Proof.
  induction a as [|c a IH]; [cbn; rewrite append_nil_r; reflexivity|].
  cbn [append PyStr.rev_str]. rewrite (rev_str_app (String c "")), IH.
  rewrite (rev_str_app (String c "") a), append_assoc. reflexivity.
Qed.

Lemma rev_str_involutive (s : string) : PyStr.rev_str "" (PyStr.rev_str "" s) = s.
Proof.
  induction s as [|c s IH]; [reflexivity|].
  cbn [PyStr.rev_str]. rewrite (rev_str_app (String c "") s), rev_str_append, IH.
  reflexivity.
Qed.

Lemma rev_str_not_empty (s : string) : s <> "" -> PyStr.rev_str "" s <> "".
Proof.
  destruct s as [|c s]; [congruence|]. intros _. cbn [PyStr.rev_str].
  rewrite rev_str_app. destruct (PyStr.rev_str "" s); discriminate.
Qed.

Lemma spaceless_rev (s : string) : spaceless (PyStr.rev_str "" s) = spaceless s.
Proof.
  induction s as [|c s IH]; [reflexivity|].
  cbn [PyStr.rev_str]. rewrite rev_str_app, spaceless_app, IH. cbn [spaceless].
  rewrite andb_true_r, andb_comm. reflexivity.
Qed.

Lemma strip_trimmed (s : string) :
  head_ok s = true -> head_ok (PyStr.rev_str "" s) = true -> PyStr.strip s = s.
Proof.
  intros H1 H2. unfold PyStr.strip.
  rewrite (lstrip_head_ok s H1), (lstrip_head_ok _ H2). apply rev_str_involutive.
Qed.

Lemma join_words_trimmed (ws : list string) :
  Forall is_word ws -> ws <> [] ->
  PyStr.join " " ws <> "" /\
  head_ok (PyStr.join " " ws) = true /\
  head_ok (PyStr.rev_str "" (PyStr.join " " ws)) = true.
Proof.
  induction ws as [|w ws IH]; intros H Hne; [congruence|].
  inversion H as [|? ? [Hw Hs] Hrest]; subst.
  destruct ws as [|w' ws].
  - cbn [PyStr.join]. split; [exact Hw|]. split; [apply spaceless_head_ok, Hs|].
    apply spaceless_head_ok. rewrite spaceless_rev. exact Hs.
  - change (PyStr.join " " (w :: w' :: ws)) with (w ++ " " ++ PyStr.join " " (w' :: ws)).
    destruct (IH Hrest) as (Jne & _ & Jrev); [discriminate|].
    split; [apply append_not_empty, Hw|]. split.
    + rewrite head_ok_app by assumption. apply spaceless_head_ok, Hs.
    + rewrite rev_str_append, rev_str_append, append_assoc.
      rewrite head_ok_app by (apply rev_str_not_empty, Jne). exact Jrev.
Qed.

Lemma strip_join_words (ws : list string) :
  Forall is_word ws -> PyStr.strip (PyStr.join " " ws) = PyStr.join " " ws.
Proof.
  intros H. destruct ws as [|w ws]; [reflexivity|].
  destruct (join_words_trimmed (w :: ws) H) as (_ & H1 & H2); [discriminate|].
  apply strip_trimmed; assumption.
Qed.

Lemma normalize_words (txt : string) :
  Forall is_word (PyStr.split_ws txt) /\
  _normalize txt = PyStr.join " " (PyStr.split_ws txt).
Proof.
  assert (H : Forall is_word (PyStr.split_ws txt)) by (apply split_ws_go_words; reflexivity).
  split; [exact H|]. unfold _normalize. apply strip_join_words, H.
Qed.

End Normalise.

(** X22: the normalisation of an element's text, when the text is in the
    ASCII range, is its words, each of them non-empty and free of whitespace,
    joined by single spaces: so it neither begins nor ends with whitespace and
    has no two spaces in a row; cutting it into words again gives the same
    words; and normalising twice is normalising once. *)
Theorem normalize_is_canonical (txt : string) :
  PyStr.is_ascii txt = true ->
  Forall is_word (PyStr.split_ws txt) /\
  _normalize txt = PyStr.join " " (PyStr.split_ws txt) /\
  PyStr.split_ws (_normalize txt) = PyStr.split_ws txt /\
  _normalize (_normalize txt) = _normalize txt.
Proof.
  intros _.
  destruct (normalize_words txt) as [Hw Hn].
  split; [exact Hw|]. split; [exact Hn|].
  assert (Hs : PyStr.split_ws (_normalize txt) = PyStr.split_ws txt).
  { rewrite Hn. apply split_ws_join, Hw. }
  split; [exact Hs|].
  destruct (normalize_words (_normalize txt)) as [_ Hn2]. rewrite Hn2, Hs, <- Hn. reflexivity.
Qed.

Lemma normalize_is_canonical_witness :
  PyStr.is_ascii "  Send   code " = true /\
  _normalize "  Send   code " = "Send code" /\
  Forall is_word (PyStr.split_ws "  Send   code ") /\
  _normalize "  Send   code " = PyStr.join " " (PyStr.split_ws "  Send   code ") /\
  PyStr.split_ws (_normalize "  Send   code ") = PyStr.split_ws "  Send   code " /\
  _normalize (_normalize "  Send   code ") = _normalize "  Send   code ".
Proof.
  split; [reflexivity|]. split; [reflexivity|].
  exact (normalize_is_canonical "  Send   code " eq_refl).
Defined.

(** ** Starting Chrome twice *)

(** X23: when the first [uc.Chrome] call raises a [TypeError], Chrome is
    started a second time with the same arguments rebuilt and without the
    [browser_executable_path] argument, and when that works the object holds
    the driver; an exception of any other
    class leaves [_create_driver] at once, no driver being held and the
    profile directory already recorded in the object. *)
Theorem create_driver_retries_on_type_error
    (W : Type) (P : Platform W) (s s1 s2 : st W) (dir : string)
    (e : exn) (w3 : W) (t3 : N) :
  call (EvMkdtemp "uc-profile-") (tempfile_mkdtemp "uc-profile-") s = (Ret dir, s1) ->
  log_chrome_discovery (find_chrome_bin (world s1)) (snd (set_user_data_dir dir s1))
  = (Ret tt, s2) ->
  uc_Chrome (build_options (self s) dir) (find_chrome_bin (world s1)) (world s2)
  = (inl e, w3, t3) ->
  (is_class TypeError e = false ->
   _create_driver s
   = (Raise e,
      mk_st w3 (clock s2 + t3)%N
        (mk_self (user_agent (self s)) (proxy (self s)) (headless (self s))
           (timeout (self s)) (log_callback (self s)) (driver (self s)) (Some dir))
        (logs s2)
        (trace s2 ++ [EvChrome (build_options (self s) dir) (find_chrome_bin (world s1))]))) /\
  (forall w4 t4,
      is_class TypeError e = true ->
      uc_Chrome (build_options (self s) dir) None w3 = (inr tt, w4, t4) ->
      exists evs,
        trace (snd (_create_driver s))
        = (trace s2 ++ EvChrome (build_options (self s) dir) (find_chrome_bin (world s1))
           :: EvChrome (build_options (self s) dir) None :: evs)%list /\
        self (snd (_create_driver s))
        = mk_self (user_agent (self s)) (proxy (self s)) (headless (self s))
            (timeout (self s)) (log_callback (self s)) true (Some dir)).
Proof.
  intros Hdir Hlog Hchrome.
  pose proof (call_inv _ _ _ _ _ Hdir) as (_ & _ & S1 & _).
  set (o := mk_self (user_agent (self s)) (proxy (self s)) (headless (self s))
              (timeout (self s)) (log_callback (self s)) (driver (self s)) (Some dir)).
  assert (Hset : set_user_data_dir dir s1
                 = (Ret tt, mk_st (world s1) (clock s1) o (logs s1) (trace s1))).
  { unfold set_user_data_dir, bind, get_self, set_self, o. rewrite S1. reflexivity. }
  rewrite Hset in Hlog. cbn [snd] in Hlog.
  pose proof (run_self _ _ _ _ (keeps_log_chrome_discovery _) Hlog) as S2. cbn [self] in S2.
  assert (Hopts : build_options o dir = build_options (self s) dir) by reflexivity.
  assert (Hprefix :
             _create_driver s
             = bind (try_except
                       (call (EvChrome (build_options (self s) dir) (find_chrome_bin (world s1)))
                          (uc_Chrome (build_options (self s) dir) (find_chrome_bin (world s1)));;
                        set_driver)
                       (fun exc =>
                          if is_class TypeError exc
                          then
                            _log "warning"
                              ("uc.Chrome TypeError, retry without extra args: "
                               ++ str_exn exc);;
                            call (EvChrome (build_options (self s) dir) None)
                              (uc_Chrome (build_options (self s) dir) None);;
                            set_driver
                          else raise exc))
                    (fun _ =>
                       call (EvSetPageLoadTimeout (timeout (self s)))
                         (drv_set_page_load_timeout (timeout (self s)));;
                       call (EvImplicitlyWait 10) (drv_implicitly_wait 10)) s2).
  { unfold _create_driver.
    eapply bind_ret_eq; [exact Hdir|].
    eapply bind_ret_eq; [exact Hset|].
    eapply bind_ret_eq; [reflexivity|]. cbv zeta. cbn [self].
    eapply bind_ret_eq; [reflexivity|]. cbn [world].
    eapply bind_ret_eq; [exact Hlog|]. rewrite Hopts. reflexivity. }
  split.
  - intros He. rewrite Hprefix.
    erewrite bind_raise_step; [reflexivity|].
    erewrite try_raise_step; [|eapply bind_raise_step; apply call_raise; exact Hchrome].
    rewrite He. cbn [world clock self logs trace]. rewrite S2. reflexivity.
  - intros w4 t4 He Hretry. rewrite Hprefix.
    set (s3 := mk_st w3 (clock s2 + t3)%N (self s2) (logs s2)
                 (trace s2 ++ [EvChrome (build_options (self s) dir)
                                 (find_chrome_bin (world s1))])).
    set (s4 := snd (_log "warning"
                      ("uc.Chrome TypeError, retry without extra args: " ++ str_exn e) s3)).
    assert (H4 : world s4 = w3 /\ trace s4 = trace s3 /\ self s4 = self s3).
    { unfold s4, _log. cbn [snd]. destruct (log_callback (self s3)); auto. }
    destruct H4 as (W4 & T4 & S4).
    set (s5 := mk_st w4 (clock s4 + t4)%N
                 (mk_self (user_agent (self s)) (proxy (self s)) (headless (self s))
                    (timeout (self s)) (log_callback (self s)) true (Some dir))
                 (logs s4)
                 (trace s4 ++ [EvChrome (build_options (self s) dir) None])).
    assert (Htry : try_except
                     (call (EvChrome (build_options (self s) dir) (find_chrome_bin (world s1)))
                        (uc_Chrome (build_options (self s) dir) (find_chrome_bin (world s1)));;
                      set_driver)
                     (fun exc =>
                        if is_class TypeError exc
                        then
                          _log "warning"
                            ("uc.Chrome TypeError, retry without extra args: "
                             ++ str_exn exc);;
                          call (EvChrome (build_options (self s) dir) None)
                            (uc_Chrome (build_options (self s) dir) None);;
                          set_driver
                        else raise exc) s2 = (Ret tt, s5)).
    { erewrite try_raise_step; [|eapply bind_raise_step; apply call_raise; exact Hchrome].
      rewrite He. fold s3.
      eapply (bind_ret_eq _ _ _ tt s4); [reflexivity|].
      eapply bind_ret_eq; [apply call_ok; rewrite W4; exact Hretry|].
      unfold set_driver, bind, get_self, set_self. cbn [self world clock logs trace].
      unfold s5. rewrite S4. unfold s3. cbn [self]. rewrite S2. reflexivity. }
    erewrite bind_ret_step; [|exact Htry].
    assert (Hrest : safe any_event
                      (call (EvSetPageLoadTimeout (timeout (self s)))
                         (drv_set_page_load_timeout (timeout (self s)));;
                       call (EvImplicitlyWait 10) (drv_implicitly_wait 10))) by safe_tac.
    assert (Hkeep : keeps
                      (call (EvSetPageLoadTimeout (timeout (self s)))
                         (drv_set_page_load_timeout (timeout (self s)));;
                       call (EvImplicitlyWait 10) (drv_implicitly_wait 10))) by keep_tac.
    destruct (Hrest s5) as [_ [_ [(evs & T & _) _]]]. specialize (Hkeep s5).
    exists evs. split.
    + rewrite T. unfold s5. cbn [trace]. rewrite T4. unfold s3. cbn [trace].
      rewrite <- !app_assoc. reflexivity.
    + rewrite Hkeep. reflexivity.
Qed.

Lemma create_driver_retries_on_type_error_witness :
  exists evs,
    trace (snd (_create_driver (P:=Lab.platform)
                  (Lab.start
                     (Lab.mk_machine None [] [mk_exn TypeError "unexpected keyword argument"]
                        LOGIN_URL [] None None))))
    = (trace (snd (log_chrome_discovery (P:=Lab.platform) None
                     (snd (set_user_data_dir "/tmp/uc-profile-0"
                             (snd (call (EvMkdtemp "uc-profile-")
                                     (tempfile_mkdtemp (Platform:=Lab.platform) "uc-profile-")
                                     (Lab.start
                                        (Lab.mk_machine None []
                                           [mk_exn TypeError "unexpected keyword argument"]
                                           LOGIN_URL [] None None))))))))
       ++ EvChrome (build_options (__init__ "120.0.0.0" "" "" true 60 true)
                      "/tmp/uc-profile-0") None
       :: EvChrome (build_options (__init__ "120.0.0.0" "" "" true 60 true)
                      "/tmp/uc-profile-0") None :: evs)%list /\
    self (snd (_create_driver (P:=Lab.platform)
                 (Lab.start
                    (Lab.mk_machine None [] [mk_exn TypeError "unexpected keyword argument"]
                       LOGIN_URL [] None None))))
    = mk_self (_get_ua "120.0.0.0") "" true 60 true true (Some "/tmp/uc-profile-0").
Proof.
  pose (w := Lab.mk_machine None [] [mk_exn TypeError "unexpected keyword argument"]
               LOGIN_URL [] None None).
  pose (w' := Lab.mk_machine None [] [] LOGIN_URL [] None None).
  refine (proj2 (create_driver_retries_on_type_error _ Lab.platform (Lab.start w)
                   (snd (call (EvMkdtemp "uc-profile-")
                           (tempfile_mkdtemp (Platform:=Lab.platform) "uc-profile-")
                           (Lab.start w)))
                   (snd (log_chrome_discovery (P:=Lab.platform) None
                           (snd (set_user_data_dir "/tmp/uc-profile-0"
                                   (snd (call (EvMkdtemp "uc-profile-")
                                           (tempfile_mkdtemp (Platform:=Lab.platform)
                                              "uc-profile-")
                                           (Lab.start w)))))))
                   "/tmp/uc-profile-0" (mk_exn TypeError "unexpected keyword argument")
                   w' 0%N _ _ _) w' 0%N _ _).
  - reflexivity.
  - vm_compute. reflexivity.
  - vm_compute. reflexivity.
  - reflexivity.
  - reflexivity.
Defined.

(** ** Clicking Continue *)

(** X24: when ClickContinue goes through, the Continue button was waited for
    up to ten seconds and clicked by script, nothing else, and at least two
    seconds have passed; when it does not, the result is a failure that
    begins "failed to click continue: " and is what the flow returns. *)
Theorem click_continue_outcomes
    (W : Type) (P : Platform W) (mail_client : MailClient W)
    (fuel : nat) (email : string) (s s' : st W) :
  (click_continue s = (Ret None, s') ->
   exists btn,
     trace s' = (trace s
                 ++ [EvWaitUntil 10 (element_to_be_clickable XPATH CONTINUE_BUTTON_XPATH);
                     EvExecuteScript JS_CLICK btn])%list /\
     (clock s + 2000 <= clock s')%N) /\
  (forall d, click_continue s = (Ret (Some d), s') ->
             (exists e, d = failure ("failed to click continue: " ++ str_exn e)) /\
             flow_click_continue fuel email mail_client s = (Ret d, s')).
Proof.
  split.
  - unfold click_continue, try_except. intros H.
    match type of H with
    | (match ?m s with _ => _ end) = _ => destruct (m s) as [[r|e| |?] s0] eqn:E
    end.
    + inversion H; subst r s0. clear H.
      apply bind_inv in E as (btn & s1 & E1 & E). apply call_inv in E1 as (T1 & C1 & _).
      apply bind_inv in E as (v & s2 & E2 & E). apply call_inv in E2 as (T2 & C2 & _).
      apply bind_inv in E as ([] & s3 & E3 & E). apply sleep_inv in E3 as (T3 & C3).
      inversion E; subst s3. exists btn. split.
      * rewrite T3, T2, T1, <- app_assoc. reflexivity.
      * lia.
    + apply bind_inv in H as (? & ? & _ & H). apply bind_inv in H as (? & ? & _ & H).
      inversion H.
    + discriminate.
    + discriminate.
  - intros d H. split.
    + unfold click_continue, try_except in H.
      match type of H with
      | (match ?m s with _ => _ end) = _ => destruct (m s) as [[r|e| |?] s0] eqn:E
      end.
      * inversion H; subst r s0.
        apply bind_inv in E as (? & ? & _ & E). apply bind_inv in E as (? & ? & _ & E).
        apply bind_inv in E as (? & ? & _ & E). inversion E.
      * apply bind_inv in H as (? & ? & _ & H). apply bind_inv in H as (? & ? & _ & H).
        inversion H; subst. eexists. reflexivity.
      * discriminate.
      * discriminate.
    + unfold flow_click_continue. eapply bind_ret_eq; [exact H | reflexivity].
Qed.

Lemma click_continue_outcomes_witness :
  exists btn,
    trace (snd (click_continue (P:=Sim.platform)
                  (Sim.start Sim.live (Sim.mk_browser Sim.login_page [] None))))
    = ([] ++ [EvWaitUntil 10 (element_to_be_clickable XPATH CONTINUE_BUTTON_XPATH);
              EvExecuteScript JS_CLICK btn])%list /\
    (1700000000000 + 2000
     <= clock (snd (click_continue (P:=Sim.platform)
                      (Sim.start Sim.live (Sim.mk_browser Sim.login_page [] None)))))%N.
Proof.
  apply (proj1 (click_continue_outcomes _ Sim.platform Sim.mail 0 "a@b.c"
                  (Sim.start Sim.live (Sim.mk_browser Sim.login_page [] None)) _)).
  vm_compute. reflexivity.
Defined.
